(** * Journal-generation engine of mmm-accounting-agent-py (src/src)

    A shallow embedding of the record model ([holdings.py], [income.py],
    [activity.py], [summary.py]) and of the journal builder
    ([statement.py]).

    Money.  The Python code holds dollar amounts in floats.  Here an amount
    is an exact integer number of micro-dollars (1 USD = 1_000_000); the
    float rounding of the sums is idealised away.  A value formatted with
    [f"{x:.2f}"] or rounded with [round(x, 2)] becomes an integer number of
    cents, rounded to nearest with ties to even on the exact decimal value.
    Where the code's binary floats differ from the exact decimals (a
    half-cent such as 0.015, which as a double lies below the tie, or a
    difference such as 2.01 - 2.00, which evaluates to 0.00999...), the
    results below the cent can differ from the code's; the properties
    proved here are read with that in mind.

    Dates are ordinal integers (for instance [20250515]); only their order
    and equality matter to the code. *)

From Stdlib Require Import ZArith List String Ascii Bool Lia Permutation Sorted.
Import ListNotations.
Open Scope Z_scope.

(* ------------------------------------------------------------------ *)
(** ** Money, rounding and Python helpers *)

Definition CENT : Z := 10000.
Definition dollars (d : Z) : Z := d * 1000000.

(** [round(x, 2)] / [f"{x:.2f}"]: micro-dollars to cents, ties to even. *)
Definition round_cents (x : Z) : Z :=
  let q := x / CENT in
  let r := x mod CENT in
  if r * 2 <? CENT then q
  else if CENT <? r * 2 then q + 1
  else if Z.even q then q else q + 1.

(** Python's [a in b] on strings. *)
Fixpoint str_prefix (p s : string) : bool :=
  match p, s with
  | EmptyString, _ => true
  | String a p', String b s' => Ascii.eqb a b && str_prefix p' s'
  | String _ _, EmptyString => false
  end.

Fixpoint str_contains (p s : string) : bool :=
  match s with
  | EmptyString => str_prefix p s
  | String _ s' => str_prefix p s || str_contains p s'
  end.

(** Python truthiness of an [Optional[float]]: [None] and [0.0] are false. *)
Definition truthy (x : option Z) : bool :=
  match x with Some v => negb (v =? 0) | None => false end.

(** [x if x else 0.0] for an [Optional[float]] [x]. *)
Definition value_or_zero (x : option Z) : Z :=
  match x with Some v => if truthy x then v else 0 | None => 0 end.

Definition sum_Z (l : list Z) : Z := fold_right Z.add 0 l.

(** Python's [sorted] on distinct keys: insertion sort by a strict order. *)
Section Sorting.
Context {A : Type} (ltb : A -> A -> bool).

Fixpoint insert_sorted (x : A) (l : list A) : list A :=
    match l with
    | [] => [x]
    | y :: l' => if ltb y x then y :: insert_sorted x l' else x :: l
    end.

Fixpoint sort (l : list A) : list A :=
    match l with
    | [] => []
    | x :: l' => insert_sorted x (sort l')
    end.

Lemma insert_sorted_perm x l : Permutation (insert_sorted x l) (x :: l).
  Proof.
    induction l as [|y l IH]; simpl; [apply Permutation_refl|].
    destruct (ltb y x).
    - eapply perm_trans; [apply perm_skip, IH|apply perm_swap].
    - apply Permutation_refl.
  Qed.

Lemma sort_perm l : Permutation (sort l) l.
  Proof.
    induction l as [|x l IH]; simpl; [apply Permutation_refl|].
    eapply perm_trans; [apply insert_sorted_perm|apply perm_skip, IH].
  Qed.
End Sorting.

(** [defaultdict(list)] filled in iteration order: an association list in
    key-insertion order, each value list in append order. *)
Section Grouping.
Context {K A : Type} (keqb : K -> K -> bool) (key : A -> K).

Fixpoint group_add (x : A) (g : list (K * list A)) : list (K * list A) :=
    match g with
    | [] => [(key x, [x])]
    | (k, xs) :: g' =>
        if keqb (key x) k then (k, xs ++ [x]) :: g' else (k, xs) :: group_add x g'
    end.

Definition group_by (l : list A) : list (K * list A) :=
    fold_left (fun g x => group_add x g) l [].
End Grouping.

(* ------------------------------------------------------------------ *)
(** ** Record model *)

Module Holding.
  (** [holdings.Holding]; quantity, price, description and the informational
      fields play no part in the computations below. *)
Record t := mk {
    symbol : string;
    beginning_value : option Z;
    ending_value : Z;
    cost_basis : option Z
  }.

Definition is_money_market (h : t) : bool :=
    match cost_basis h with None => true | Some c => c =? 0 end.

Definition change_in_value (h : t) : Z :=
    if is_money_market h then 0
    else match beginning_value h with
         | None => ending_value h - value_or_zero (cost_basis h)
         | Some b =>
             if b =? 0 then ending_value h - value_or_zero (cost_basis h)
             else if 0 <? b then ending_value h - b
             else 0
         end.
End Holding.

(** [Holdings.change_in_value]: [sum(h.change_in_value for h in holdings)]. *)
Definition holdings_change_in_value (hs : list Holding.t) : Z :=
  sum_Z (map Holding.change_in_value hs).

Module Income.
Record t := mk {
    settlement_date : Z;
    symbol : string;
    description : string;
    amount : Z
  }.

Definition is_reinvestment (x : t) : bool :=
    str_contains "Reinvestment" (description x).
End Income.

(** [Income.amount]: total over the non-reinvestment transactions. *)
Definition income_amount (l : list Income.t) : Z :=
  sum_Z (map Income.amount (filter (fun x => negb (Income.is_reinvestment x)) l)).

Module Activity.
Record t := mk {
    settlement_date : Z;
    action : string;
    symbol : string;
    amount : Z;
    basket : option string;
    cost_basis : option Z
  }.
End Activity.

Module Summary.
Record t := mk {
    period_start : Z;
    period_end : Z;
    beginning_value_period : Z;
    additions_period : Z;
    subtractions_period : Z;
    change_investment_value_period : Z;
    ending_value_period : Z;
    beginning_value_ytd : Z;
    additions_ytd : Z;
    subtractions_ytd : Z;
    change_investment_value_ytd : Z;
    ending_value_ytd : Z;
    income_period : Z;
    income_ytd : Z
  }.
End Summary.

(** The loaded state of a [Statement]: each data set is [None] when its CSV
    file was missing; [prior_holdings] is the previous month's HLD file
    read by [_load_prior_holdings] ([None] when it does not exist) and
    [chart] the [(symbol, account name)] pairs of [_load_chart_of_accounts]. *)
Record Statement := mkStatement {
  holdings : option (list Holding.t);
  income : option (list Income.t);
  activity : option (list Activity.t);
  summary : option Summary.t;
  prior_holdings : option (list Holding.t);
  chart : list (string * string)
}.

(** [Statement.is_validated]. *)
Definition is_validated (st : Statement) : bool :=
  match summary st, income st, holdings st with
  | Some s, Some i, Some h =>
      let expected := Summary.change_investment_value_period s in
      let actual := income_amount i + holdings_change_in_value h in
      Z.abs (expected - actual) <? CENT
  | _, _, _ => false
  end.

(* ------------------------------------------------------------------ *)
(** ** Journal rows *)

(** One CSV line of an entry file.  The constant columns (prefix ["MMW-"],
    type ["both"], currency ["USD"], status ["published"]) and the free
    text columns (reference number, notes, description) are not kept;
    [journal_number] is the ['Journal Number Suffix'] and [debit] /
    [credit] hold the cents written by [f"{x:.2f}"], [None] for [''].*)
Record Row := mkRow {
  journal_date : Z;
  journal_number : Z;
  account : string;
  debit : option Z;
  credit : option Z
}.

Definition CASH_ACCOUNT : string := "Cash - Fidelity Cash Management Account".

Definition money_market_symbols : list string := ["FDRXX"; "SPAXX"; "FCASH"]%string.

Definition str_mem (s : string) (l : list string) : bool := existsb (String.eqb s) l.

(** [symbol_map.get(symbol, symbol)]; [chart] is the dictionary built by
    [_load_chart_of_accounts], one entry per symbol. *)
Definition chart_lookup (chart : list (string * string)) (s : string) : string :=
  match find (fun p => String.eqb (fst p) s) chart with
  | Some (_, a) => a
  | None => s
  end.

(** The [for group in sorted(...): ...; journal_number += 1] loop shared by
    the dividend, purchase and sale blocks. *)
Fixpoint numbered {A : Type} (f : Z -> A -> list Row) (jn : Z) (gs : list A)
  : list Row :=
  match gs with
  | [] => []
  | g :: gs' => f jn g ++ numbered f (jn + 1) gs'
  end.

Definition fst_Z_ltb {A : Type} (x y : Z * A) : bool := fst x <? fst y.

(** Order on [(settlement_date, basket)] keys, as Python compares tuples. *)
Definition date_basket_ltb {A : Type} (x y : (Z * string) * A) : bool :=
  let '((d1, b1), _) := x in
  let '((d2, b2), _) := y in
  (d1 <? d2) || ((d1 =? d2) && String.ltb b1 b2).

Definition date_basket_eqb (x y : Z * string) : bool :=
  (fst x =? fst y) && String.eqb (snd x) (snd y).

(** [(txn.settlement_date, txn.basket or '')] *)
Definition activity_key (t : Activity.t) : Z * string :=
  (Activity.settlement_date t,
   match Activity.basket t with Some b => b | None => EmptyString end).

(* ------------------------------------------------------------------ *)
(** ** [Statement.write_dividend_entries] (journal numbers from 10001) *)

Definition dividend_group_rows (jn : Z) (g : Z * list Income.t) : list Row :=
  let '(d, txns) := g in
  map (fun t => mkRow d jn CASH_ACCOUNT (Some (round_cents (Income.amount t))) None) txns
  ++ [mkRow d jn "Income - Ordinary Dividends" None
        (Some (round_cents (sum_Z (map Income.amount txns))))].

Definition write_dividend_entries (st : Statement) : option (list Row) :=
  match income st with
  | None => None
  | Some l =>
      let income_by_date :=
        group_by Z.eqb Income.settlement_date
          (filter (fun t => negb (Income.is_reinvestment t)) l) in
      match income_by_date with
      | [] => None
      | _ => Some (numbered dividend_group_rows 10001 (sort fst_Z_ltb income_by_date))
      end
  end.

(* ------------------------------------------------------------------ *)
(** ** [Statement.write_purchase_entries] (journal numbers from 20001) *)

Definition purchase_group_rows (chart : list (string * string)) (jn : Z)
  (g : (Z * string) * list Activity.t) : list Row :=
  let '((d, _), txns) := g in
  map (fun t => mkRow d jn (chart_lookup chart (Activity.symbol t))
                  (Some (round_cents (Activity.amount t))) None) txns
  ++ [mkRow d jn CASH_ACCOUNT None
        (Some (round_cents (sum_Z (map Activity.amount txns))))].

Definition is_purchase (t : Activity.t) : bool :=
  str_contains "Bought" (Activity.action t)
  && negb (str_mem (Activity.symbol t) money_market_symbols).

Definition write_purchase_entries (st : Statement) : option (list Row) :=
  match activity st with
  | None => None
  | Some l =>
      let purchases := group_by date_basket_eqb activity_key (filter is_purchase l) in
      match purchases with
      | [] => None
      | _ => Some (numbered (purchase_group_rows (chart st)) 20001
                     (sort date_basket_ltb purchases))
      end
  end.

(* ------------------------------------------------------------------ *)
(** ** [Statement.write_sale_entries] (journal numbers from 30001) *)

Definition basket_income_account (b : string) : string * string :=
  if String.eqb b "10001" then
    ("Water Investments", "Income - Equity Securities Baskets - Water Investments")%string
  else if String.eqb b "10003" then
    ("Buy Write ETFs", "Income - Equity Securities Baskets - Buy Write ETFs")%string
  else if String.eqb b "10005" then
    ("Holding Companies", "Income - Equity Securities Baskets - Holding Companies")%string
  else if String.eqb b "10007" then
    ("Balanced ETFs", "Income - Equity Securities Baskets - Balanced ETFs")%string
  else (EmptyString, "Income - Equity Securities")%string.

(** [txn.cost_basis if txn.cost_basis else txn.amount] *)
Definition sale_cost (t : Activity.t) : Z :=
  if truthy (Activity.cost_basis t) then value_or_zero (Activity.cost_basis t)
  else Activity.amount t.

(** [symbol_totals[s]['proceeds'] += ...; symbol_totals[s]['cost_basis'] += ...]
    (the quantity total only feeds the description). *)
Fixpoint totals_add (s : string) (p c : Z) (m : list (string * (Z * Z)))
  : list (string * (Z * Z)) :=
  match m with
  | [] => [(s, (p, c))]
  | (s', (p', c')) :: m' =>
      if String.eqb s s' then (s', (p' + p, c' + c)) :: m'
      else (s', (p', c')) :: totals_add s p c m'
  end.

Definition symbol_totals (txns : list Activity.t) : list (string * (Z * Z)) :=
  fold_left (fun m t => totals_add (Activity.symbol t) (Activity.amount t) (sale_cost t) m)
    txns [].

Definition sym_ltb {A : Type} (x y : string * A) : bool := String.ltb (fst x) (fst y).

(** Step 2: the realized gain or loss line of one symbol, if material
    ([abs(gain_loss) >= 0.01], tested here on the exact difference). *)
Definition sale_gain_rows (d jn : Z) (income_account : string)
  (e : string * (Z * Z)) : list Row :=
  let '(_, (proceeds, cost_basis)) := e in
  let gain_loss := proceeds - cost_basis in
  if CENT <=? Z.abs gain_loss then
    if gain_loss <? 0
    then [mkRow d jn income_account (Some (round_cents (Z.abs gain_loss))) None]
    else [mkRow d jn income_account None (Some (round_cents gain_loss))]
  else [].

(** Step 3: the credit to the security account of one symbol. *)
Definition sale_cost_row (chart : list (string * string)) (d jn : Z)
  (e : string * (Z * Z)) : Row :=
  let '(sym, (_, cost_basis)) := e in
  mkRow d jn (chart_lookup chart sym) None (Some (round_cents cost_basis)).

Definition sale_group_rows (chart : list (string * string)) (jn : Z)
  (g : (Z * string) * list Activity.t) : list Row :=
  let '((d, b), txns) := g in
  let income_account := snd (basket_income_account b) in
  let totals := sort sym_ltb (symbol_totals txns) in
  mkRow d jn CASH_ACCOUNT (Some (round_cents (sum_Z (map Activity.amount txns)))) None
  :: flat_map (sale_gain_rows d jn income_account) totals
  ++ map (sale_cost_row chart d jn) totals.

Definition is_sale (t : Activity.t) : bool :=
  str_contains "Sold" (Activity.action t)
  && negb (str_mem (Activity.symbol t) money_market_symbols).

Definition write_sale_entries (st : Statement) : option (list Row) :=
  match activity st with
  | None => None
  | Some l =>
      let sales := group_by date_basket_eqb activity_key (filter is_sale l) in
      match sales with
      | [] => None
      | _ => Some (numbered (sale_group_rows (chart st)) 30001
                     (sort date_basket_ltb sales))
      end
  end.

(* ------------------------------------------------------------------ *)
(** ** Balance of a journal *)

Definition opt_amount (x : option Z) : Z := match x with Some v => v | None => 0 end.

Definition sum_debit (k : Z) (rows : list Row) : Z :=
  sum_Z (map (fun r => if journal_number r =? k then opt_amount (debit r) else 0) rows).

Definition sum_credit (k : Z) (rows : list Row) : Z :=
  sum_Z (map (fun r => if journal_number r =? k then opt_amount (credit r) else 0) rows).

(** Every journal number of [rows] has as many debit cents as credit cents. *)
Definition balanced (rows : list Row) : Prop :=
  forall k, sum_debit k rows = sum_credit k rows.

(* ------------------------------------------------------------------ *)
(** ** Exceptions *)

Inductive PyError := FileNotFoundError | ValueError | KeyError | TypeError.

Inductive result (A : Type) :=
| Ok (a : A)
| Raise (e : PyError).
Arguments Ok {A} a.
Arguments Raise {A} e.

Definition bind {A B : Type} (m : result A) (k : A -> result B) : result B :=
  match m with Ok a => k a | Raise e => Raise e end.

Notation "x <- m ;; k" := (bind m (fun x => k)) (at level 61, m at next level, right associativity).

(* ------------------------------------------------------------------ *)
(** ** Basket configuration of [write_unrealized_entries] *)

Record Basket := mkBasket {
  basket_id : string;
  basket_name : string;
  fmv_account : string;
  unrealized_account : string
}.

Definition WATER : Basket := mkBasket "10001" "Water Investments"
  "Trading Securities - Water Basket - FMV Adjustment"
  "Unrealized Gain - Equity Baskets - Water Investments".
Definition BUY_WRITE : Basket := mkBasket "10003" "Buy Write ETFs"
  "Trading Securities - Buy-Write ETFs - FMV Adjustment"
  "Unrealized Gain - Equity Baskets - Buy Write ETFs".
Definition HOLDING_COS : Basket := mkBasket "10005" "Holding Companies"
  "Trading Securities - Holding Companies - FMV Adjustment"
  "Unrealized Gain - Equity Baskets - Holding Companies".
Definition BALANCED : Basket := mkBasket "10007" "Balanced ETFs"
  "Trading Securities - Balanced ETFs - FMV Adjustment"
  "Unrealized Gain - Equity Baskets - Balanced ETFs".

Definition basket_config : list (string * Basket) :=
  map (fun s => (s, WATER))
    ["CWCO"; "ALCO"; "AWK"; "CWT"; "ECL"; "FPI"; "FERG"; "LAND"; "GWRS"; "VEGI";
     "WAT"; "XYL"]%string
  ++ map (fun s => (s, BUY_WRITE))
    ["JEPI"; "QYLD"; "SPYI"; "TLTW"; "XYLD"; "RYLD"; "MUST"]%string
  ++ map (fun s => (s, HOLDING_COS)) ["APO"; "BRKB"; "BX"; "KKR"; "L"; "TPG"]%string
  ++ map (fun s => (s, BALANCED))
    ["FDEM"; "FDEV"; "FELC"; "FESM"; "FMDE"; "ONEQ"]%string.

(** Python dict lookup [d.get(k)] on a string-keyed association list. *)
Definition str_lookup {A : Type} (k : string) (d : list (string * A)) : option A :=
  match find (fun p => String.eqb (fst p) k) d with
  | Some (_, v) => Some v
  | None => None
  end.

Definition basket_for (s : string) : option Basket := str_lookup s basket_config.

(** [d[k] = v] on a dict: the key keeps its position, its value is replaced. *)
Fixpoint dict_set {A : Type} (k : string) (v : A) (d : list (string * A))
  : list (string * A) :=
  match d with
  | [] => [(k, v)]
  | (k', v') :: d' => if String.eqb k k' then (k', v) :: d' else (k', v') :: dict_set k v d'
  end.

(** [d[k] += x] on a [defaultdict(float)]. *)
Fixpoint dict_add (k : string) (x : Z) (d : list (string * Z)) : list (string * Z) :=
  match d with
  | [] => [(k, x)]
  | (k', v') :: d' => if String.eqb k k' then (k', v' + x) :: d' else (k', v') :: dict_add k x d'
  end.

(** [Statement._load_prior_holdings]: symbol to prior ending value. *)
Definition load_prior_holdings (prior : option (list Holding.t)) : list (string * Z) :=
  match prior with
  | None => []
  | Some hs => fold_left (fun m h => dict_set (Holding.symbol h) (Holding.ending_value h) m) hs []
  end.

(* ------------------------------------------------------------------ *)
(** ** [Statement.write_unrealized_entries] (journal numbers from 40001)

    Each statement [basket_totals[basket_id] += x] (or [-= x]) of the three
    loops is recorded as a triple [(basket_id, symbol, x)], in program
    order; [basket_totals] is the fold of these increments. *)

Definition Delta := (string * string * Z)%type.

(** Loop 1: [basket_totals[id] += holding.change_in_value]. *)
Definition holding_deltas (hs : list Holding.t) : list Delta :=
  flat_map (fun h =>
    if Holding.is_money_market h then []
    else match basket_for (Holding.symbol h) with
         | Some b => [(basket_id b, Holding.symbol h, Holding.change_in_value h)]
         | None => []
         end) hs.

(** [holdings_with_beginning]: held symbols with a positive beginning value. *)
Definition has_beginning (hs : list Holding.t) (s : string) : bool :=
  existsb (fun h => String.eqb (Holding.symbol h) s &&
                    match Holding.beginning_value h with Some b => 0 <? b | None => false end) hs.

(** Loop 2: purchases and sales of existing positions. *)
Definition activity_deltas (hs : list Holding.t) (acts : list Activity.t) : list Delta :=
  flat_map (fun t =>
    match basket_for (Activity.symbol t) with
    | Some b =>
        if has_beginning hs (Activity.symbol t) then
          if str_contains "Bought" (Activity.action t)
          then [(basket_id b, Activity.symbol t, - Activity.amount t)]
          else if str_contains "Sold" (Activity.action t)
          then [(basket_id b, Activity.symbol t, Activity.amount t)]
          else []
        else []
    | None => []
    end) acts.

Definition current_symbol (hs : list Holding.t) (s : string) : bool :=
  existsb (fun h => String.eqb (Holding.symbol h) s) hs.

(** [sold_proceeds]: sale proceeds of basket symbols absent from holdings. *)
Definition sold_proceeds (hs : list Holding.t) (acts : list Activity.t) : list (string * Z) :=
  fold_left (fun m t =>
    if str_contains "Sold" (Activity.action t)
       && match basket_for (Activity.symbol t) with Some _ => true | None => false end
       && negb (current_symbol hs (Activity.symbol t))
    then dict_add (Activity.symbol t) (Activity.amount t) m else m) acts [].

(** Loop 3: [period_change = proceeds - beginning_value] of liquidations. *)
Definition liquidation_deltas (hs : list Holding.t) (acts : list Activity.t)
  (prior_values : list (string * Z)) : list Delta :=
  flat_map (fun e =>
    let '(sym, proceeds) := e in
    match str_lookup sym prior_values, basket_for sym with
    | Some beginning_value, Some b => [(basket_id b, sym, proceeds - beginning_value)]
    | _, _ => []
    end) (sold_proceeds hs acts).

Definition unrealized_deltas (st : Statement) (hs : list Holding.t) : list Delta :=
  holding_deltas hs
  ++ match activity st with
     | Some acts =>
         activity_deltas hs acts
         ++ liquidation_deltas hs acts (load_prior_holdings (prior_holdings st))
     | None => []
     end.

Definition basket_totals (ds : list Delta) : list (string * Z) :=
  fold_left (fun m d => let '(b, _, x) := d in dict_add b x m) ds [].

(** [basket_info]: set by loop 1 for every mapped non-money-market holding
    and by loop 3 for every liquidation with a prior value; loop 2 sets
    nothing. *)
Definition basket_info (st : Statement) (hs : list Holding.t) : list (string * Basket) :=
  let info1 :=
    fold_left (fun m h =>
      if Holding.is_money_market h then m
      else match basket_for (Holding.symbol h) with
           | Some b => dict_set (basket_id b) b m
           | None => m
           end) hs [] in
  match activity st with
  | None => info1
  | Some acts =>
      let prior_values := load_prior_holdings (prior_holdings st) in
      fold_left (fun m e =>
        match str_lookup (fst e) prior_values, basket_for (fst e) with
        | Some _, Some b =>
            match str_lookup (basket_id b) m with
            | Some _ => m
            | None => dict_set (basket_id b) b m
            end
        | _, _ => m
        end) (sold_proceeds hs acts) info1
  end.

(** The emission loop over [sorted(basket_totals.keys())]. *)
Fixpoint unrealized_rows (period_end jn : Z) (info : list (string * Basket))
  (totals : list (string * Z)) : result (list Row) :=
  match totals with
  | [] => Ok []
  | (b, change) :: rest =>
      if Z.abs change <? CENT then unrealized_rows period_end jn info rest
      else
        match str_lookup b info with
        | None => Raise KeyError
        | Some bk =>
            let amount := Z.abs (round_cents change) in
            let pair :=
              if 0 <? change then
                [mkRow period_end jn (fmv_account bk) (Some amount) None;
                 mkRow period_end jn (unrealized_account bk) None (Some amount)]
              else
                [mkRow period_end jn (unrealized_account bk) (Some amount) None;
                 mkRow period_end jn (fmv_account bk) None (Some amount)] in
            rest_rows <- unrealized_rows period_end (jn + 1) info rest ;;
            Ok (pair ++ rest_rows)
        end
  end.

Definition write_unrealized_entries (st : Statement) : result (option (list Row)) :=
  match holdings st, summary st with
  | Some hs, Some s =>
      let ds := unrealized_deltas st hs in
      match ds with
      | [] => Ok None
      | _ =>
          rows <- unrealized_rows (Summary.period_end s) 40001 (basket_info st hs)
                    (sort sym_ltb (basket_totals ds)) ;;
          Ok (Some rows)
      end
  | _, _ => Ok None
  end.

(* ------------------------------------------------------------------ *)
(** ** [Statement.write_entries]

    The four entry files of the period (DIV, PUR, SAL, UNR) as they are on
    disk: [None] when the file does not exist, otherwise its data rows.  A
    block that returns [None] does not touch its file. *)

Record EntryFiles := mkEntryFiles {
  div_file : option (list Row);
  pur_file : option (list Row);
  sal_file : option (list Row);
  unr_file : option (list Row)
}.

Definition no_entry_files : EntryFiles := mkEntryFiles None None None None.

Definition overwrite (written old : option (list Row)) : option (list Row) :=
  match written with Some rows => Some rows | None => old end.

Definition file_rows (f : option (list Row)) : list Row :=
  match f with Some rows => rows | None => [] end.

(** Writes the four files, then copies every existing file, in the order
    DIV, PUR, SAL, UNR, into the ENT file; returns the files and the ENT
    rows. *)
Definition write_entries (st : Statement) (fs : EntryFiles)
  : result (EntryFiles * list Row) :=
  let div := overwrite (write_dividend_entries st) (div_file fs) in
  let pur := overwrite (write_purchase_entries st) (pur_file fs) in
  let sal := overwrite (write_sale_entries st) (sal_file fs) in
  unr_written <- write_unrealized_entries st ;;
  let unr := overwrite unr_written (unr_file fs) in
  Ok (mkEntryFiles div pur sal unr,
      file_rows div ++ file_rows pur ++ file_rows sal ++ file_rows unr).

(* ------------------------------------------------------------------ *)
(** ** [Summary.from_csv_row] and [Summary.from_csv_file]

    A row of [csv.DictReader] maps each header field to its value, or to
    [None] when the line has fewer fields than the header ([restval]).
    [float] is modelled on plain decimals ([-12.5], [3], [.25]) in
    micro-dollars; exponents, [inf]/[nan] and surrounding blanks are not
    modelled. [date.fromisoformat] is modelled on [YYYY-MM-DD]. *)

Definition CsvRow := list (string * option string).

Definition digit_val (c : ascii) : option Z :=
  let n := nat_of_ascii c in
  if (48 <=? n)%nat && (n <=? 57)%nat then Some (Z.of_nat n - 48) else None.

Fixpoint digits_acc (l : list ascii) (acc : Z) : option Z :=
  match l with
  | [] => Some acc
  | c :: r => match digit_val c with Some d => digits_acc r (acc * 10 + d) | None => None end
  end.

(** The first [n] fraction digits, padded with zeros. *)
Fixpoint take_frac (n : nat) (l : list ascii) : list ascii :=
  match n with
  | O => []
  | S n' => match l with [] => "0"%char :: take_frac n' [] | c :: r => c :: take_frac n' r end
  end.

Fixpoint split_dot (l : list ascii) : list ascii * option (list ascii) :=
  match l with
  | [] => ([], None)
  | c :: r =>
      if Ascii.eqb c "."%char then ([], Some r)
      else let '(i, f) := split_dot r in (c :: i, f)
  end.

Definition py_float (s : string) : option Z :=
  let l := list_ascii_of_string s in
  let '(sg, body) :=
    match l with
    | c :: r => if Ascii.eqb c "-"%char then (-1, r)
                else if Ascii.eqb c "+"%char then (1, r) else (1, l)
    | [] => (1, l)
    end in
  let '(ip, fp) := split_dot body in
  let fr := match fp with Some f => f | None => [] end in
  if (List.length ip + List.length fr =? 0)%nat then None
  else match digits_acc ip 0, digits_acc fr 0, digits_acc (take_frac 6 fr) 0 with
       | Some i, Some _, Some f => Some (sg * (i * 1000000 + f))
       | _, _, _ => None
       end.

Definition is_leap (y : Z) : bool :=
  (Z.modulo y 4 =? 0) && negb (Z.modulo y 100 =? 0) || (Z.modulo y 400 =? 0).

Definition days_in_month (y m : Z) : Z :=
  if m =? 2 then (if is_leap y then 29 else 28)
  else if (m =? 4) || (m =? 6) || (m =? 9) || (m =? 11) then 30 else 31.

(** [YYYY-MM-DD] as the number [YYYYMMDD]. *)
Definition py_date (s : string) : option Z :=
  match list_ascii_of_string s with
  | [y1; y2; y3; y4; d1; m1; m2; d2; a1; a2] =>
      if Ascii.eqb d1 "-"%char && Ascii.eqb d2 "-"%char then
        match digits_acc [y1; y2; y3; y4] 0, digits_acc [m1; m2] 0, digits_acc [a1; a2] 0 with
        | Some y, Some m, Some d =>
            if (1 <=? y) && (1 <=? m) && (m <=? 12) && (1 <=? d) && (d <=? days_in_month y m)
            then Some (y * 10000 + m * 100 + d) else None
        | _, _, _ => None
        end
      else None
  | _ => None
  end.

(** [row[k]] (KeyError when the column is absent) passed to a parser
    ([TypeError] on [None], [ValueError] on a malformed string). *)
Definition row_value (row : CsvRow) (k : string) : result string :=
  match str_lookup k row with
  | None => Raise KeyError
  | Some None => Raise TypeError
  | Some (Some v) => Ok v
  end.

Definition parse_with (p : string -> option Z) (row : CsvRow) (k : string) : result Z :=
  v <- row_value row k ;;
  match p v with Some x => Ok x | None => Raise ValueError end.

Definition from_csv_row (row : CsvRow) : result Summary.t :=
  ps <- parse_with py_date row "period_start"%string ;;
  pe <- parse_with py_date row "period_end"%string ;;
  bvp <- parse_with py_float row "beginning_value_period"%string ;;
  ap <- parse_with py_float row "additions_period"%string ;;
  sp <- parse_with py_float row "subtractions_period"%string ;;
  cp <- parse_with py_float row "change_investment_value_period"%string ;;
  evp <- parse_with py_float row "ending_value_period"%string ;;
  bvy <- parse_with py_float row "beginning_value_ytd"%string ;;
  ay <- parse_with py_float row "additions_ytd"%string ;;
  sy <- parse_with py_float row "subtractions_ytd"%string ;;
  cy <- parse_with py_float row "change_investment_value_ytd"%string ;;
  evy <- parse_with py_float row "ending_value_ytd"%string ;;
  ip <- parse_with py_float row "income_period"%string ;;
  iy <- parse_with py_float row "income_ytd"%string ;;
  Ok (Summary.mk ps pe bvp ap sp cp evp bvy ay sy cy evy ip iy).

(** [any(row.values())]. *)
Definition row_nonempty (row : CsvRow) : bool :=
  existsb (fun e => match snd e with Some v => negb (String.eqb v EmptyString) | None => false end) row.

(** The file is [None] when it does not exist, otherwise the rows read by
    [csv.DictReader]. *)
Definition from_csv_file (file : option (list CsvRow)) : result Summary.t :=
  match file with
  | None => Raise FileNotFoundError
  | Some reader =>
      match filter row_nonempty reader with
      | [] => Raise ValueError
      | [r] => from_csv_row r
      | _ :: _ :: _ => Raise ValueError
      end
  end.

Definition summary_date_fields : list string := ["period_start"%string; "period_end"%string].

Definition summary_float_fields : list string :=
  ["beginning_value_period"%string; "additions_period"%string; "subtractions_period"%string;
   "change_investment_value_period"%string; "ending_value_period"%string;
   "beginning_value_ytd"%string; "additions_ytd"%string; "subtractions_ytd"%string;
   "change_investment_value_ytd"%string; "ending_value_ytd"%string; "income_period"%string; "income_ytd"%string].


(* ------------------------------------------------------------------ *)
(** ** [from_csv_row] of holdings, income and activity, and [load_from_csv]

    A row read from a line with as many fields as the header: each header
    field with its text.  [row[k]] raises [KeyError] for a column the
    header lacks; [float] and [date.fromisoformat] are [py_float] and
    [py_date].  Columns the records above do not keep are still read and
    converted, since their conversion can raise. *)

Definition FullRow := list (string * string).

Definition field (row : FullRow) (k : string) : result string :=
  match str_lookup k row with Some v => Ok v | None => Raise KeyError end.

Definition float_of (s : string) : result Z :=
  match py_float s with Some x => Ok x | None => Raise ValueError end.

Definition date_of (s : string) : result Z :=
  match py_date s with Some d => Ok d | None => Raise ValueError end.

(** [float(row[k])] *)
Definition req_float (row : FullRow) (k : string) : result Z :=
  v <- field row k ;; float_of v.

(** [float(row[k]) if row[k] else None] *)
Definition opt_float (row : FullRow) (k : string) : result (option Z) :=
  v <- field row k ;;
  if String.eqb v EmptyString then Ok None else (x <- float_of v ;; Ok (Some x)).

(** [Holding.from_csv_row] *)
Definition holding_from_csv_row (row : FullRow) : result Holding.t :=
  symbol <- field row "symbol" ;;
  _description <- field row "description" ;;
  _quantity <- req_float row "quantity" ;;
  _price <- req_float row "price" ;;
  beginning_value <-
    (v <- field row "beginning_value" ;;
     if negb (String.eqb v EmptyString) && negb (String.eqb v "unavailable")
     then (x <- float_of v ;; Ok (Some x)) else Ok None) ;;
  ending_value <- req_float row "ending_value" ;;
  cost_basis <- opt_float row "cost_basis" ;;
  _unrealized_gain <- opt_float row "unrealized_gain" ;;
  _change_from_prior_period <-
    match str_lookup "change_from_prior_period" row with
    | Some v => if String.eqb v EmptyString then Ok None else (x <- float_of v ;; Ok (Some x))
    | None => Ok None
    end ;;
  Ok (Holding.mk symbol beginning_value ending_value cost_basis).

(** [IncomeTransaction.from_csv_row] *)
Definition income_from_csv_row (row : FullRow) : result Income.t :=
  settlement_date <- (v <- field row "settlement_date" ;; date_of v) ;;
  _security_name <- field row "security_name" ;;
  symbol <- field row "symbol" ;;
  _cusip <- field row "cusip" ;;
  description <- field row "description" ;;
  _quantity <- opt_float row "quantity" ;;
  _price <- opt_float row "price" ;;
  amount <- req_float row "amount" ;;
  Ok (Income.mk settlement_date symbol description amount).

(** [ActivityTransaction.from_csv_row]; [cost_basis] is read with
    [row.get], so the column may be absent. *)
Definition activity_from_csv_row (row : FullRow) : result Activity.t :=
  settlement_date <- (v <- field row "settlement_date" ;; date_of v) ;;
  action <- field row "action" ;;
  symbol <- field row "symbol" ;;
  _security_name <- field row "security_name" ;;
  _quantity <- opt_float row "quantity" ;;
  _price <- opt_float row "price" ;;
  amount <- req_float row "amount" ;;
  _transaction_cost <- opt_float row "transaction_cost" ;;
  basket <- (v <- field row "basket" ;;
             Ok (if String.eqb v EmptyString then None else Some v)) ;;
  cost_basis <-
    match str_lookup "cost_basis" row with
    | Some v => if String.eqb v EmptyString then Ok None else (x <- float_of v ;; Ok (Some x))
    | None => Ok None
    end ;;
  Ok (Activity.mk settlement_date action symbol amount basket cost_basis).

(** The [for row in reader: self.xs.append(X.from_csv_row(row))] loop. *)
Fixpoint result_map {A B : Type} (f : A -> result B) (l : list A) : result (list B) :=
  match l with
  | [] => Ok []
  | x :: l' => y <- f x ;; ys <- result_map f l' ;; Ok (y :: ys)
  end.

(** [Holdings.load_from_csv], [Income.load_from_csv] and
    [Activity.load_from_csv]: the file is [None] when it does not exist. *)
Definition load_from_csv {B : Type} (from_csv_row : FullRow -> result B)
  (file : option (list FullRow)) : result (list B) :=
  match file with
  | None => Raise FileNotFoundError
  | Some rows => result_map from_csv_row rows
  end.

(** The four scrape files of a period, [None] when missing. *)
Record ScrapeFiles := mkScrapeFiles {
  hld_file : option (list FullRow);
  inc_file : option (list FullRow);
  act_file : option (list FullRow);
  sum_file : option (list CsvRow)
}.

(** [try: ... except FileNotFoundError: pass] *)
Definition catch_missing {A : Type} (r : result A) : result (option A) :=
  match r with
  | Ok a => Ok (Some a)
  | Raise FileNotFoundError => Ok None
  | Raise e => Raise e
  end.

Definition Loaded : Type :=
  option (list Holding.t) * option (list Income.t) * option (list Activity.t) * option Summary.t.

(** [Statement.load_all] *)
Definition load_all (fs : ScrapeFiles) : result Loaded :=
  h <- catch_missing (load_from_csv holding_from_csv_row (hld_file fs)) ;;
  i <- catch_missing (load_from_csv income_from_csv_row (inc_file fs)) ;;
  a <- catch_missing (load_from_csv activity_from_csv_row (act_file fs)) ;;
  s <- catch_missing (from_csv_file (sum_file fs)) ;;
  Ok (h, i, a, s).

(** [Statement.__init__]: the month check, then [load_all] if [auto_load]. *)
Definition statement_init (month : Z) (auto_load : bool) (fs : ScrapeFiles) : result Loaded :=
  if negb ((1 <=? month) && (month <=? 12)) then Raise ValueError
  else if auto_load then load_all fs
  else Ok (None, None, None, None).

(* ------------------------------------------------------------------ *)
(** ** [Statement._load_chart_of_accounts] *)

(** [s.rfind(c)], [None] for [-1]. *)
Fixpoint rfind_from (c : ascii) (l : list ascii) (i : nat) (acc : option nat) : option nat :=
  match l with
  | [] => acc
  | x :: l' => rfind_from c l' (S i) (if Ascii.eqb x c then Some i else acc)
  end.

Definition rfind (c : ascii) (l : list ascii) : option nat := rfind_from c l 0 None.

(** The symbol of an account name, [account_name[start+1:end]] when the
    name contains both parentheses. *)
Definition account_symbol (account_name : string) : option string :=
  if str_contains "(" account_name && str_contains ")" account_name then
    let l := list_ascii_of_string account_name in
    match rfind "("%char l, rfind ")"%char l with
    | Some start, Some end_ =>
        Some (string_of_list_ascii (firstn (end_ - S start) (skipn (S start) l)))
    | _, _ => None
    end
  else None.

(** The rows come from [csv.DictReader], so a line shorter than the header
    gives [None] for ["Account Name"]: [row['Account Name']] is then [None]
    and the test ['(' in account_name] raises [TypeError]. *)
Fixpoint chart_rows (rows : list CsvRow) (symbol_map : list (string * string))
  : result (list (string * string)) :=
  match rows with
  | [] => Ok symbol_map
  | row :: rows' =>
      match str_lookup "Account Name" row with
      | None => Raise KeyError
      | Some None => Raise TypeError
      | Some (Some account_name) =>
          chart_rows rows'
            match account_symbol account_name with
            | Some symbol => dict_set symbol account_name symbol_map
            | None => symbol_map
            end
      end
  end.

(** The chart file is [None] when it does not exist. *)
Definition load_chart_of_accounts (file : option (list CsvRow)) : result (list (string * string)) :=
  match file with
  | None => Ok []
  | Some rows => chart_rows rows []
  end.

(* ------------------------------------------------------------------ *)
(** ** The previous period of [Statement._load_prior_holdings] *)

Definition prior_period (year month : Z) : Z * Z :=
  let prior_month := if 1 <? month then month - 1 else 12 in
  let prior_year := if 1 <? month then year else year - 1 in
  (prior_year, prior_month).

(* ================================================================== *)
(** * Properties *)

(* ------------------------------------------------------------------ *)
(** ** Value change of one holding *)

(** C7: a money-market holding ([cost_basis] absent or zero) has change in
    value exactly 0, whatever its beginning and ending values. *)
Theorem money_market_change_zero (h : Holding.t)
  (Hmm : Holding.cost_basis h = None \/ Holding.cost_basis h = Some 0) :
  Holding.change_in_value h = 0.
Proof.
  unfold Holding.change_in_value, Holding.is_money_market.
  destruct Hmm as [-> | ->]; reflexivity.
Qed.

Lemma money_market_change_zero_witness :
  Holding.cost_basis (Holding.mk "SPAXX" (Some (dollars 900)) (dollars 1000) None) = None
  /\ Holding.change_in_value (Holding.mk "SPAXX" (Some (dollars 900)) (dollars 1000) None) = 0.
Proof.
  split; [reflexivity|].
  apply money_market_change_zero. left. reflexivity.
Defined.

(** C2 (as stated): a non-money-market holding whose beginning value is
    present and at most 0 has change 0.  False: a beginning value of
    exactly 0 is handled like an absent one, [ending_value - cost_basis]. *)
Lemma nonpositive_beginning_counterexample :
  ~ (forall h b, Holding.is_money_market h = false ->
       Holding.beginning_value h = Some b -> b <= 0 ->
       Holding.change_in_value h = 0).
Proof.
  intro H.
  specialize (H (Holding.mk "JEPI" (Some 0) (dollars 100) (Some (dollars 50))) 0
                eq_refl eq_refl (Z.le_refl 0)).
  vm_compute in H. discriminate.
Qed.

(** C2 (amended): for a non-money-market holding with beginning value [b]
    present and [b <= 0], the change is 0 when [b < 0], and
    [ending_value - cost_basis] (as for a new position) when [b = 0]. *)
Theorem nonpositive_beginning_change (h : Holding.t) (b : Z)
  (Hnmm : Holding.is_money_market h = false)
  (Hb : Holding.beginning_value h = Some b) (Hle : b <= 0) :
  Holding.change_in_value h =
    if b =? 0 then Holding.ending_value h - value_or_zero (Holding.cost_basis h) else 0.
Proof.
  unfold Holding.change_in_value. rewrite Hnmm, Hb.
  destruct (b =? 0) eqn:E; [reflexivity|].
  replace (0 <? b) with false by (symmetry; apply Z.ltb_ge; lia).
  reflexivity.
Qed.

Lemma nonpositive_beginning_change_witness :
  Holding.is_money_market (Holding.mk "JEPI" (Some (-5)) (dollars 100) (Some (dollars 50))) = false
  /\ Holding.beginning_value (Holding.mk "JEPI" (Some (-5)) (dollars 100) (Some (dollars 50))) = Some (-5)
  /\ -5 <= 0
  /\ Holding.change_in_value (Holding.mk "JEPI" (Some (-5)) (dollars 100) (Some (dollars 50)))
     = (if -5 =? 0 then dollars 100 - dollars 50 else 0).
Proof.
  split; [reflexivity|]. split; [reflexivity|]. split; [lia|].
  apply (nonpositive_beginning_change _ (-5)); [reflexivity|reflexivity|lia].
Defined.

(* ------------------------------------------------------------------ *)
(** ** Reconciliation *)

(** C4: [is_validated] is true exactly when summary, income and holdings
    are all loaded and [|change_investment_value_period - (income amount +
    holdings change)| < 0.01]; it is false (it is a total function: it never
    raises) as soon as one of the three is missing. *)
Theorem is_validated_spec (st : Statement) :
  (is_validated st = true <->
     exists s i hs, summary st = Some s /\ income st = Some i /\ holdings st = Some hs /\
       Z.abs (Summary.change_investment_value_period s
              - (income_amount i + holdings_change_in_value hs)) < CENT)
  /\ match summary st, income st, holdings st with
     | Some _, Some _, Some _ => True
     | _, _, _ => is_validated st = false
     end.
Proof.
  unfold is_validated.
  destruct (summary st) as [s|], (income st) as [i|], (holdings st) as [hs|];
    split; try reflexivity; try exact I;
    try (split; [discriminate|intros (? & ? & ? & H1 & H2 & H3 & _); discriminate]).
  rewrite Z.ltb_lt. split.
  - intro H. exists s, i, hs. auto.
  - intros (s' & i' & hs' & H1 & H2 & H3 & H4). injection H1; injection H2; injection H3.
    intros; subst. exact H4.
Qed.

(* ------------------------------------------------------------------ *)
(** ** Dictionaries keyed by symbol *)

Ltac str_cases :=
  repeat match goal with
    | |- context [String.eqb ?x ?y] => destruct (String.eqb_spec x y); subst
    | H : context [String.eqb ?x ?y] |- _ => destruct (String.eqb_spec x y); subst
    end.

Lemma str_lookup_cons {A : Type} (k k' : string) (v : A) d :
  str_lookup k ((k', v) :: d) = if String.eqb k' k then Some v else str_lookup k d.
Proof. unfold str_lookup. simpl. destruct (String.eqb k' k); reflexivity. Qed.

Lemma str_lookup_In {A : Type} (k : string) (v : A) d :
  NoDup (map fst d) -> In (k, v) d -> str_lookup k d = Some v.
Proof.
  induction d as [|[k' v'] d IH]; simpl; [contradiction|].
  intros Hnd [Heq | Hin]; rewrite str_lookup_cons; inversion Hnd; subst.
  - injection Heq as -> ->. rewrite String.eqb_refl. reflexivity.
  - str_cases; [|auto].
    exfalso. apply H1. apply (in_map fst) in Hin. exact Hin.
Qed.

Lemma str_lookup_key {A : Type} (k : string) (v : A) d :
  str_lookup k d = Some v -> In k (map fst d).
Proof.
  induction d as [|[k' v'] d IH]; [discriminate|].
  rewrite str_lookup_cons. simpl. str_cases; auto.
Qed.

Lemma totals_add_lookup s k p c m :
  str_lookup s (totals_add k p c m) =
  if String.eqb k s then
    Some (match str_lookup s m with Some (p0, c0) => (p0 + p, c0 + c) | None => (p, c) end)
  else str_lookup s m.
Proof.
  induction m as [|[s' [p' c']] m IH]; simpl.
  - rewrite str_lookup_cons. reflexivity.
  - rewrite !str_lookup_cons. str_cases; try rewrite str_lookup_cons; try rewrite IH;
      str_cases; try reflexivity; try congruence.
Qed.

Lemma totals_add_keys k p c m :
  NoDup (map fst m) -> NoDup (map fst (totals_add k p c m)).
Proof.
  induction m as [|[s' [p' c']] m IH]; simpl; intro Hnd.
  - constructor; [auto|constructor].
  - inversion Hnd; subst. str_cases; simpl; constructor; auto.
    intro Hin. apply H1.
    assert (Hk : forall x, In x (map fst (totals_add k p c m)) -> x = k \/ In x (map fst m)).
    { clear. induction m as [|[s'' [p'' c'']] m IH]; simpl; intros x Hx.
      - destruct Hx as [<- | []]; auto.
      - str_cases; simpl in Hx; destruct Hx as [<- | Hx]; auto;
          try (destruct (IH x Hx); auto). }
    destruct (Hk s' Hin); [congruence|assumption].
Qed.

(** The sales of symbol [s] among [txns]. *)
Definition sym_txns (s : string) (txns : list Activity.t) : list Activity.t :=
  filter (fun t => String.eqb (Activity.symbol t) s) txns.

Lemma symbol_totals_fold s txns m :
  str_lookup s (fold_left (fun m t => totals_add (Activity.symbol t) (Activity.amount t)
                                        (sale_cost t) m) txns m) =
  match str_lookup s m with
  | Some (p0, c0) => Some (p0 + sum_Z (map Activity.amount (sym_txns s txns)),
                           c0 + sum_Z (map sale_cost (sym_txns s txns)))
  | None =>
      match sym_txns s txns with
      | [] => None
      | _ => Some (sum_Z (map Activity.amount (sym_txns s txns)),
                   sum_Z (map sale_cost (sym_txns s txns)))
      end
  end.
Proof.
  revert m. induction txns as [|t txns IH]; intro m; simpl.
  - destruct (str_lookup s m) as [[p0 c0]|]; [rewrite !Z.add_0_r|]; reflexivity.
  - rewrite IH, totals_add_lookup.
    destruct (String.eqb (Activity.symbol t) s) eqn:E; simpl.
    + destruct (str_lookup s m) as [[p0 c0]|]; simpl; f_equal; f_equal; lia.
    + reflexivity.
Qed.

Lemma symbol_totals_keys txns : NoDup (map fst (symbol_totals txns)).
Proof.
  unfold symbol_totals.
  assert (H : forall m, NoDup (map fst m) ->
    NoDup (map fst (fold_left (fun m t => totals_add (Activity.symbol t) (Activity.amount t)
                                         (sale_cost t) m) txns m))).
  { induction txns as [|t txns IH]; simpl; intros m Hm; auto.
    apply IH, totals_add_keys, Hm. }
  apply H. constructor.
Qed.

Lemma sum_Z_app l1 l2 : sum_Z (l1 ++ l2) = sum_Z l1 + sum_Z l2.
Proof. induction l1; simpl; [reflexivity|]. unfold sum_Z in *. simpl. lia. Qed.

Lemma sum_Z_perm l1 l2 : Permutation l1 l2 -> sum_Z l1 = sum_Z l2.
Proof.
  induction 1; unfold sum_Z in *; simpl; lia.
Qed.

(* ------------------------------------------------------------------ *)
(** ** Sales without cost basis *)

(** C9: in a sale group, a sale with no [cost_basis] counts its own amount
    as cost basis; so for a symbol none of whose sales in the group has a
    cost basis, the per-symbol entry that the block iterates over has cost
    basis equal to its proceeds (the sum of the symbol's amounts), realized
    gain/loss exactly 0, no realized gain/loss line, and a credit of the
    full proceeds to the security account. *)
Theorem sale_without_cost_basis (chart : list (string * string)) (d jn : Z)
  (income_account : string) (txns : list Activity.t) (s : string) (p c : Z)
  (Hnone : forall t, In t txns -> Activity.symbol t = s -> Activity.cost_basis t = None)
  (Hin : In (s, (p, c)) (sort sym_ltb (symbol_totals txns))) :
  p = sum_Z (map Activity.amount (sym_txns s txns))
  /\ c = p
  /\ p - c = 0
  /\ sale_gain_rows d jn income_account (s, (p, c)) = []
  /\ credit (sale_cost_row chart d jn (s, (p, c))) = Some (round_cents p).
Proof.
  apply (Permutation_in _ (sort_perm _ _)) in Hin.
  apply str_lookup_In in Hin; [|apply symbol_totals_keys].
  unfold symbol_totals in Hin. rewrite symbol_totals_fold in Hin. simpl in Hin.
  assert (Hc : map sale_cost (sym_txns s txns) = map Activity.amount (sym_txns s txns)).
  { apply map_ext_in. intros t Ht. unfold sym_txns in Ht.
    apply filter_In in Ht as [Ht Hs]. apply String.eqb_eq in Hs.
    unfold sale_cost. rewrite (Hnone t Ht Hs). reflexivity. }
  rewrite Hc in Hin.
  destruct (sym_txns s txns); [discriminate|].
  injection Hin as <- <-.
  repeat split; try lia.
  unfold sale_gain_rows. rewrite Z.sub_diag. reflexivity.
Qed.

Lemma sale_without_cost_basis_witness :
  let txns := [Activity.mk 20250512 "YOU Sold" "SPYI" (dollars 300) None None;
               Activity.mk 20250512 "YOU Sold" "QYLD" (dollars 500) None (Some (dollars 450));
               Activity.mk 20250512 "YOU Sold" "SPYI" (dollars 20) None None] in
  (forall t, In t txns -> Activity.symbol t = "SPYI"%string -> Activity.cost_basis t = None)
  /\ In ("SPYI"%string, (dollars 320, dollars 320)) (sort sym_ltb (symbol_totals txns))
  /\ sale_gain_rows 20250512 30001 "Income - Equity Securities" ("SPYI"%string, (dollars 320, dollars 320)) = [].
Proof.
  intro txns.
  assert (H1 : forall t, In t txns -> Activity.symbol t = "SPYI"%string -> Activity.cost_basis t = None).
  { intros t Ht Hs. simpl in Ht.
    destruct Ht as [<- | [<- | [<- | []]]]; try reflexivity; discriminate. }
  assert (H2 : In ("SPYI"%string, (dollars 320, dollars 320)) (sort sym_ltb (symbol_totals txns))).
  { vm_compute. right. left. reflexivity. }
  split; [exact H1|]. split; [exact H2|].
  exact (proj1 (proj2 (proj2 (proj2 (sale_without_cost_basis [] 20250512 30001
           "Income - Equity Securities" txns "SPYI" _ _ H1 H2))))).
Defined.

(* ------------------------------------------------------------------ *)
(** ** Increments of [basket_totals] *)

Definition delta_basket (d : Delta) : string := fst (fst d).
Definition delta_symbol (d : Delta) : string := snd (fst d).
Definition delta_value (d : Delta) : Z := snd d.

Lemma filter_flat_map {A B : Type} (P : B -> bool) (f : A -> list B) l :
  filter P (flat_map f l) = flat_map (fun x => filter P (f x)) l.
Proof.
  induction l as [|x l IH]; simpl; [reflexivity|]. rewrite filter_app, IH. reflexivity.
Qed.

Lemma dict_add_lookup s k x d :
  str_lookup s (dict_add k x d) =
  if String.eqb k s then Some (match str_lookup s d with Some v => v + x | None => x end)
  else str_lookup s d.
Proof.
  induction d as [|[k' v'] d IH]; simpl.
  - rewrite str_lookup_cons. reflexivity.
  - rewrite !str_lookup_cons. str_cases; try rewrite str_lookup_cons; try rewrite IH;
      str_cases; try reflexivity; try congruence.
Qed.

Lemma dict_add_keys k x d : NoDup (map fst d) -> NoDup (map fst (dict_add k x d)).
Proof.
  intro Hnd. induction d as [|[k' v'] d IH]; simpl.
  - repeat constructor. intros [].
  - inversion Hnd; subst. str_cases; simpl; constructor; auto.
    intro Hin. apply H1.
    assert (Hk : forall y, In y (map fst (dict_add k x d)) -> y = k \/ In y (map fst d)).
    { clear. induction d as [|[k'' v''] d IH]; simpl; intros y Hy.
      - destruct Hy as [<- | []]; auto.
      - str_cases; simpl in Hy; destruct Hy as [<- | Hy]; auto;
          try (destruct (IH y Hy); auto). }
    destruct (Hk k' Hin); [congruence|assumption].
Qed.

(** A guarded [d[key(t)] += val(t)] loop. *)
Section DictFold.
Context {A : Type} (g : A -> bool) (key : A -> string) (val : A -> Z).

Definition dict_fold (l : list A) (m : list (string * Z)) : list (string * Z) :=
    fold_left (fun m t => if g t then dict_add (key t) (val t) m else m) l m.

Lemma dict_fold_lookup s l m :
    str_lookup s (dict_fold l m) =
    let ts := filter (fun t => g t && String.eqb (key t) s) l in
    match str_lookup s m with
    | Some p0 => Some (p0 + sum_Z (map val ts))
    | None => match ts with [] => None | _ => Some (sum_Z (map val ts)) end
    end.
  Proof.
    revert m. unfold dict_fold.
    induction l as [|t l IH]; intro m; simpl.
    - destruct (str_lookup s m); [rewrite Z.add_0_r|]; reflexivity.
    - rewrite IH. destruct (g t) eqn:Eg; simpl; [|reflexivity].
      rewrite dict_add_lookup.
      destruct (String.eqb (key t) s); simpl; [|reflexivity].
      destruct (str_lookup s m); simpl; f_equal; unfold sum_Z; simpl; lia.
  Qed.

Lemma dict_fold_keys l m : NoDup (map fst m) -> NoDup (map fst (dict_fold l m)).
  Proof.
    revert m. unfold dict_fold.
    induction l as [|t l IH]; intros m Hm; simpl; auto.
    apply IH. destruct (g t); auto. apply dict_add_keys, Hm.
  Qed.
End DictFold.

Lemma filter_key_nodup {A : Type} s (d : list (string * A)) :
  NoDup (map fst d) ->
  filter (fun e => String.eqb (fst e) s) d =
  match str_lookup s d with Some v => [(s, v)] | None => [] end.
Proof.
  induction d as [|[k v] d IH]; simpl; intro Hnd; [reflexivity|].
  inversion Hnd; subst. rewrite str_lookup_cons, IH by assumption.
  str_cases; [|reflexivity].
  destruct (str_lookup s d) eqn:E; [|reflexivity].
  exfalso. apply H1. eapply str_lookup_key. exact E.
Qed.

Lemma sold_proceeds_as_fold hs acts :
  sold_proceeds hs acts =
  dict_fold (fun t => str_contains "Sold" (Activity.action t)
              && match basket_for (Activity.symbol t) with Some _ => true | None => false end
              && negb (current_symbol hs (Activity.symbol t)))
            Activity.symbol Activity.amount acts [].
Proof. reflexivity. Qed.

Lemma basket_totals_as_fold ds :
  basket_totals ds = dict_fold (fun _ => true) delta_basket delta_value ds [].
Proof.
  unfold basket_totals, dict_fold. generalize (@nil (string * Z)).
  induction ds as [|[[b s] x] ds IH]; intro m; simpl; [reflexivity|]. apply IH.
Qed.

(** [basket_totals[b]] is the sum of the increments recorded for [b]. *)
Lemma basket_totals_lookup b ds :
  str_lookup b (basket_totals ds) =
  match filter (fun d => String.eqb (delta_basket d) b) ds with
  | [] => None
  | ds_b => Some (sum_Z (map delta_value ds_b))
  end.
Proof.
  rewrite basket_totals_as_fold, dict_fold_lookup. cbv zeta. simpl str_lookup.
  destruct (filter _ ds) eqn:E; reflexivity.
Qed.

Definition of_symbol (s : string) (d : Delta) : bool := String.eqb (delta_symbol d) s.

Lemma holding_deltas_symbol s hs :
  filter (of_symbol s) (holding_deltas hs)
  = holding_deltas (filter (fun h => String.eqb (Holding.symbol h) s) hs).
Proof.
  unfold holding_deltas. rewrite filter_flat_map.
  induction hs as [|h hs IH]; simpl; [reflexivity|].
  rewrite IH. unfold of_symbol, delta_symbol.
  destruct (String.eqb (Holding.symbol h) s) eqn:E; simpl;
    destruct (Holding.is_money_market h); simpl; try reflexivity;
    destruct (basket_for (Holding.symbol h)); simpl; rewrite ?E; reflexivity.
Qed.

Lemma activity_deltas_symbol s hs acts :
  filter (of_symbol s) (activity_deltas hs acts)
  = activity_deltas hs (filter (fun t => String.eqb (Activity.symbol t) s) acts).
Proof.
  unfold activity_deltas. rewrite filter_flat_map.
  induction acts as [|t acts IH]; simpl; [reflexivity|].
  rewrite IH. unfold of_symbol, delta_symbol.
  destruct (String.eqb (Activity.symbol t) s) eqn:E; simpl;
    destruct (basket_for (Activity.symbol t)); simpl; try reflexivity;
    destruct (has_beginning hs (Activity.symbol t)); simpl; try reflexivity;
    destruct (str_contains "Bought" (Activity.action t)); simpl; rewrite ?E; try reflexivity;
    destruct (str_contains "Sold" (Activity.action t)); simpl; rewrite ?E; reflexivity.
Qed.

Lemma liquidation_deltas_symbol s hs acts prior_values :
  filter (of_symbol s) (liquidation_deltas hs acts prior_values)
  = match str_lookup s (sold_proceeds hs acts) with
    | Some proceeds =>
        match str_lookup s prior_values, basket_for s with
        | Some beginning_value, Some b => [(basket_id b, s, proceeds - beginning_value)]
        | _, _ => []
        end
    | None => []
    end.
Proof.
  unfold liquidation_deltas. rewrite filter_flat_map.
  transitivity (flat_map (fun e : string * Z =>
     let '(sym, proceeds) := e in
     match str_lookup sym prior_values, basket_for sym with
     | Some beginning_value, Some b => [(basket_id b, sym, proceeds - beginning_value)]
     | _, _ => []
     end) (filter (fun e => String.eqb (fst e) s) (sold_proceeds hs acts))).
  - induction (sold_proceeds hs acts) as [|[sym p] l IH]; simpl; [reflexivity|].
    rewrite IH. unfold of_symbol, delta_symbol.
    destruct (String.eqb sym s) eqn:E; simpl;
      destruct (str_lookup sym prior_values); simpl; try reflexivity;
      destruct (basket_for sym); simpl; rewrite ?E; reflexivity.
  - rewrite filter_key_nodup.
    + destruct (str_lookup s (sold_proceeds hs acts)); simpl; [|reflexivity].
      destruct (str_lookup s prior_values), (basket_for s); reflexivity.
    + rewrite sold_proceeds_as_fold. apply dict_fold_keys. constructor.
Qed.

Lemma flat_map_nil_if {A B : Type} (f : A -> list B) l :
  (forall x, In x l -> f x = []) -> flat_map f l = [].
Proof.
  induction l as [|x l IH]; simpl; intro H; [reflexivity|].
  rewrite H by auto. apply IH. auto.
Qed.

Lemma current_symbol_In hs s :
  current_symbol hs s = true <-> exists h, In h hs /\ Holding.symbol h = s.
Proof.
  unfold current_symbol. rewrite existsb_exists.
  split; intros [h [Hin He]]; exists h; split; auto; apply String.eqb_eq; assumption.
Qed.

Lemma has_beginning_current hs s : has_beginning hs s = true -> current_symbol hs s = true.
Proof.
  unfold has_beginning, current_symbol. rewrite !existsb_exists.
  intros [h [Hin He]]. exists h. split; auto.
  apply andb_true_iff in He. apply He.
Qed.

(** Proceeds of the sales of [s] in the period. *)
Definition period_sales (s : string) (acts : list Activity.t) : Z :=
  sum_Z (map Activity.amount
    (filter (fun t => String.eqb (Activity.symbol t) s && str_contains "Sold" (Activity.action t)) acts)).

(** Amounts of the purchases of [s] in the period. *)
Definition period_purchases (s : string) (acts : list Activity.t) : Z :=
  sum_Z (map Activity.amount
    (filter (fun t => String.eqb (Activity.symbol t) s && str_contains "Bought" (Activity.action t)) acts)).

(** Contribution of symbol [s] to the total of basket [b]. *)
Definition contribution (b s : string) (ds : list Delta) : Z :=
  sum_Z (map delta_value
    (filter (fun d => String.eqb (delta_basket d) b && of_symbol s d) ds)).

Lemma filter_existsb_false {A : Type} (f : A -> bool) l :
  existsb f l = false -> filter f l = [].
Proof.
  induction l as [|x l IH]; simpl; [reflexivity|].
  destruct (f x); simpl; [discriminate|]. exact IH.
Qed.

Lemma filter_existsb_true {A : Type} (f : A -> bool) l :
  existsb f l = true -> filter f l <> [].
Proof.
  induction l as [|x l IH]; simpl; [discriminate|].
  destruct (f x); simpl; [discriminate|]. exact IH.
Qed.

(* ------------------------------------------------------------------ *)
(** ** Liquidations *)

(** C5: a basket symbol sold in the period and absent from the period-end
    holdings adds exactly one increment, [total sale proceeds - prior
    ending value], to its basket's total when the prior month's holdings
    give it an ending value, and no increment at all otherwise. *)
Theorem liquidation_contribution (st : Statement) (hs : list Holding.t)
  (acts : list Activity.t) (s : string) (b : Basket)
  (Hh : holdings st = Some hs) (Ha : activity st = Some acts)
  (Hb : basket_for s = Some b) (Habsent : current_symbol hs s = false)
  (Hsold : existsb (fun t => String.eqb (Activity.symbol t) s
                             && str_contains "Sold" (Activity.action t)) acts = true) :
  filter (of_symbol s) (unrealized_deltas st hs) =
  match str_lookup s (load_prior_holdings (prior_holdings st)) with
  | Some prior_value => [(basket_id b, s, period_sales s acts - prior_value)]
  | None => []
  end.
Proof.
  unfold unrealized_deltas. rewrite Ha, !filter_app.
  rewrite holding_deltas_symbol, activity_deltas_symbol, liquidation_deltas_symbol.
  rewrite (filter_existsb_false _ hs Habsent). simpl.
  unfold activity_deltas. rewrite flat_map_nil_if.
  2:{ intros t Ht. apply filter_In in Ht as [_ Ht]. apply String.eqb_eq in Ht.
      rewrite Ht, Hb.
      destruct (has_beginning hs s) eqn:E; [|reflexivity].
      apply has_beginning_current in E. congruence. }
  simpl. rewrite sold_proceeds_as_fold, dict_fold_lookup. simpl.
  set (g := fun t : Activity.t => _ && _ && _ && _).
  assert (Hg : filter g acts
               = filter (fun t => String.eqb (Activity.symbol t) s
                                  && str_contains "Sold" (Activity.action t)) acts).
  { apply filter_ext_in. intros t _. unfold g.
    destruct (String.eqb_spec (Activity.symbol t) s) as [->|]; simpl.
    - rewrite Hb, Habsent. simpl. destruct (str_contains "Sold" (Activity.action t)); reflexivity.
    - rewrite !andb_false_r. reflexivity. }
  rewrite Hg. apply filter_existsb_true in Hsold.
  destruct (filter _ acts) eqn:E; [contradiction|].
  rewrite <- E. fold (period_sales s acts). rewrite Hb.
  destruct (str_lookup s (load_prior_holdings (prior_holdings st))); reflexivity.
Qed.

(* ------------------------------------------------------------------ *)
(** ** Held positions *)

Definition activity_list (st : Statement) : list Activity.t :=
  match activity st with Some acts => acts | None => [] end.

Lemma filter_nil_if {A : Type} (f : A -> bool) l :
  (forall x, In x l -> f x = false) -> filter f l = [].
Proof.
  induction l as [|x l IH]; simpl; intro H; [reflexivity|].
  rewrite H by auto. apply IH. auto.
Qed.

(** Every increment goes to the basket of its own symbol. *)
Lemma deltas_basket st hs d :
  In d (unrealized_deltas st hs) ->
  exists bk, basket_for (delta_symbol d) = Some bk /\ delta_basket d = basket_id bk.
Proof.
  unfold unrealized_deltas. rewrite in_app_iff. intros [Hd | Hd].
  - unfold holding_deltas in Hd. apply in_flat_map in Hd as [h [_ Hd]].
    destruct (Holding.is_money_market h); [contradiction|].
    destruct (basket_for (Holding.symbol h)) eqn:E; [|contradiction].
    destruct Hd as [<- | []]. eexists; split; [exact E|reflexivity].
  - destruct (activity st) as [acts|]; [|contradiction].
    apply in_app_iff in Hd as [Hd | Hd].
    + unfold activity_deltas in Hd. apply in_flat_map in Hd as [t [_ Hd]].
      destruct (basket_for (Activity.symbol t)) eqn:E; [|contradiction].
      destruct (has_beginning hs (Activity.symbol t)); [|contradiction].
      destruct (str_contains "Bought" (Activity.action t));
        [|destruct (str_contains "Sold" (Activity.action t)); [|contradiction]];
        destruct Hd as [<- | []]; eexists; split; try exact E; reflexivity.
    + unfold liquidation_deltas in Hd. apply in_flat_map in Hd as [[sym p] [_ Hd]].
      destruct (str_lookup sym _); [|contradiction].
      destruct (basket_for sym) eqn:E; [|contradiction].
      destruct Hd as [<- | []]. eexists; split; [exact E|reflexivity].
Qed.

Lemma contribution_of_symbol st hs s b :
  basket_for s = Some b ->
  contribution (basket_id b) s (unrealized_deltas st hs)
  = sum_Z (map delta_value (filter (of_symbol s) (unrealized_deltas st hs))).
Proof.
  intro Hb. unfold contribution. f_equal. f_equal.
  apply filter_ext_in. intros d Hd.
  destruct (deltas_basket st hs d Hd) as [bk [Hbk Hdb]].
  unfold of_symbol. destruct (String.eqb_spec (delta_symbol d) s) as [Hs|]; simpl.
  - rewrite Hs, Hb in Hbk. injection Hbk as ->. rewrite Hdb, String.eqb_refl. reflexivity.
  - apply andb_false_r.
Qed.

Lemma activity_deltas_sum hs s b l :
  basket_for s = Some b -> has_beginning hs s = true ->
  (forall t, In t l -> Activity.symbol t = s ->
     str_contains "Bought" (Activity.action t) && str_contains "Sold" (Activity.action t) = false) ->
  sum_Z (map delta_value
    (activity_deltas hs (filter (fun t => String.eqb (Activity.symbol t) s) l)))
  = period_sales s l - period_purchases s l.
Proof.
  intros Hb Hbeg.
  induction l as [|t l IH]; intro Hboth; [reflexivity|].
  assert (IH' := IH (fun t' Ht' => Hboth t' (or_intror Ht'))). clear IH.
  unfold period_sales, period_purchases in *.
  change (filter ?f (t :: l)) with (if f t then t :: filter f l else filter f l).
  cbv beta.
  destruct (String.eqb_spec (Activity.symbol t) s) as [Hs|Hs]; cbn [andb].
  - change (activity_deltas hs (t :: ?r))
      with ((match basket_for (Activity.symbol t) with
             | Some b =>
                 if has_beginning hs (Activity.symbol t) then
                   if str_contains "Bought" (Activity.action t)
                   then [(basket_id b, Activity.symbol t, - Activity.amount t)]
                   else if str_contains "Sold" (Activity.action t)
                   then [(basket_id b, Activity.symbol t, Activity.amount t)]
                   else []
                 else []
             | None => []
             end : list Delta) ++ activity_deltas hs r).
    rewrite map_app, sum_Z_app, IH'.
    rewrite Hs, Hb, Hbeg. specialize (Hboth t (or_introl eq_refl) Hs).
    destruct (str_contains "Bought" (Activity.action t)),
             (str_contains "Sold" (Activity.action t)); simpl;
      try discriminate; unfold sum_Z, delta_value in *; simpl; lia.
  - exact IH'.
Qed.

(** The period-end holdings of symbol [s]. *)
Definition holdings_of (s : string) (hs : list Holding.t) : list Holding.t :=
  filter (fun h => String.eqb (Holding.symbol h) s) hs.

Lemma holding_deltas_sum s b l :
  basket_for s = Some b ->
  (forall h, In h l -> Holding.symbol h = s /\ Holding.is_money_market h = false
                       /\ exists bv, Holding.beginning_value h = Some bv /\ 0 < bv) ->
  sum_Z (map delta_value (holding_deltas l))
  = sum_Z (map Holding.ending_value l)
    - sum_Z (map (fun h => value_or_zero (Holding.beginning_value h)) l).
Proof.
  intros Hb. induction l as [|h l IH]; intro Hl; [reflexivity|].
  destruct (Hl h (or_introl eq_refl)) as [Hs [Hnmm [bv [Hbv Hpos]]]].
  assert (IH' := IH (fun h' Hh' => Hl h' (or_intror Hh'))). clear IH.
  unfold holding_deltas in *. simpl. rewrite Hnmm, Hs, Hb. simpl.
  unfold sum_Z, delta_value in *. simpl. rewrite IH'.
  unfold Holding.change_in_value, value_or_zero, truthy. rewrite Hnmm, Hbv.
  replace (bv =? 0) with false by (symmetry; apply Z.eqb_neq; lia).
  replace (0 <? bv) with true by (symmetry; apply Z.ltb_lt; lia). simpl. lia.
Qed.

(** C3 (as stated): a basket symbol still held with a positive beginning
    value contributes [ending - beginning - purchases + sales] to its
    basket.  False twice over: a holding without cost basis counts as a
    money market fund and its market movement is left out; and an action
    naming both "Bought" and "Sold" is subtracted as a purchase while
    [period_sales] also counts it. *)
Lemma held_symbol_contribution_counterexample :
  ~ (forall st hs h b bv,
       holdings st = Some hs ->
       filter (fun h' => String.eqb (Holding.symbol h') (Holding.symbol h)) hs = [h] ->
       basket_for (Holding.symbol h) = Some b ->
       Holding.beginning_value h = Some bv -> 0 < bv ->
       contribution (basket_id b) (Holding.symbol h) (unrealized_deltas st hs)
       = Holding.ending_value h - bv
         - period_purchases (Holding.symbol h) (activity_list st)
         + period_sales (Holding.symbol h) (activity_list st))
  /\ ~ (forall st hs h b bv,
       holdings st = Some hs ->
       filter (fun h' => String.eqb (Holding.symbol h') (Holding.symbol h)) hs = [h] ->
       basket_for (Holding.symbol h) = Some b ->
       Holding.is_money_market h = false ->
       Holding.beginning_value h = Some bv -> 0 < bv ->
       contribution (basket_id b) (Holding.symbol h) (unrealized_deltas st hs)
       = Holding.ending_value h - bv
         - period_purchases (Holding.symbol h) (activity_list st)
         + period_sales (Holding.symbol h) (activity_list st)).
Proof.
  split; intro H.
  - set (h := Holding.mk "JEPI" (Some (dollars 100)) (dollars 110) None).
    set (st := mkStatement (Some [h]) None None None None []).
    specialize (H st [h] h BUY_WRITE (dollars 100) eq_refl eq_refl eq_refl eq_refl).
    vm_compute in H. specialize (H eq_refl). discriminate.
  - set (h := Holding.mk "JEPI" (Some (dollars 100)) (dollars 110) (Some (dollars 80))).
    set (st := mkStatement (Some [h]) None
                 (Some [Activity.mk 20250510 "YOU Bought Sold" "JEPI" (dollars 50) None None])
                 None None []).
    specialize (H st [h] h BUY_WRITE (dollars 100) eq_refl eq_refl eq_refl eq_refl eq_refl).
    vm_compute in H. specialize (H eq_refl). discriminate.
Qed.

(** C3 (amended): for a basket symbol [s] held at period end whose
    holdings all have [cost_basis] present and non-zero and
    [beginning_value] present and > 0, and whose period activities never
    name both "Bought" and "Sold" in one action, the contribution to its
    basket's total is the sum of the ending values of those holdings minus
    the sum of their beginning values, minus the period's purchases of [s],
    plus its sale proceeds. *)
Theorem held_symbol_contribution (st : Statement) (hs : list Holding.t)
  (s : string) (b : Basket)
  (Hh : holdings st = Some hs)
  (Hb : basket_for s = Some b)
  (Hheld : holdings_of s hs <> [])
  (Hall : forall h, In h (holdings_of s hs) ->
     Holding.is_money_market h = false
     /\ exists bv, Holding.beginning_value h = Some bv /\ 0 < bv)
  (Hact : forall t, In t (activity_list st) -> Activity.symbol t = s ->
     str_contains "Bought" (Activity.action t) && str_contains "Sold" (Activity.action t) = false) :
  contribution (basket_id b) s (unrealized_deltas st hs)
  = sum_Z (map Holding.ending_value (holdings_of s hs))
    - sum_Z (map (fun h => value_or_zero (Holding.beginning_value h)) (holdings_of s hs))
    - period_purchases s (activity_list st)
    + period_sales s (activity_list st).
Proof.
  rewrite (contribution_of_symbol st hs s b Hb).
  assert (Hall' : forall h, In h (holdings_of s hs) ->
     Holding.symbol h = s /\ Holding.is_money_market h = false
     /\ exists bv, Holding.beginning_value h = Some bv /\ 0 < bv).
  { intros h Hin. split; [|exact (Hall h Hin)].
    unfold holdings_of in Hin. apply filter_In in Hin as [_ Hs].
    apply String.eqb_eq, Hs. }
  assert (Hbeg : has_beginning hs s = true).
  { assert (Hex : exists h, In h (holdings_of s hs)).
    { destruct (holdings_of s hs) as [|h l]; [contradiction|]. exists h. left. reflexivity. }
    destruct Hex as [h Hin].
    destruct (Hall' h Hin) as [Hs [_ [bv [Hbv Hpos]]]].
    unfold holdings_of in Hin. apply filter_In in Hin as [Hin _].
    unfold has_beginning. apply existsb_exists. exists h. split; [exact Hin|].
    rewrite Hbv, Hs, String.eqb_refl. simpl. apply Z.ltb_lt, Hpos. }
  assert (Hsum := holding_deltas_sum s b (holdings_of s hs) Hb Hall').
  unfold unrealized_deltas. rewrite filter_app, holding_deltas_symbol.
  fold (holdings_of s hs).
  unfold activity_list in *.
  destruct (activity st) as [acts|].
  - assert (Hnone : str_lookup s (sold_proceeds hs acts) = None).
    { rewrite sold_proceeds_as_fold, dict_fold_lookup. simpl.
      rewrite filter_nil_if; [reflexivity|].
      intros t _. destruct (String.eqb_spec (Activity.symbol t) s) as [->|];
        [|apply andb_false_r].
      replace (current_symbol hs s) with true
        by (symmetry; apply has_beginning_current, Hbeg).
      simpl. rewrite !andb_false_r. reflexivity. }
    rewrite filter_app, activity_deltas_symbol, liquidation_deltas_symbol, Hnone.
    simpl. rewrite app_nil_r, !map_app, !sum_Z_app, Hsum.
    rewrite (activity_deltas_sum hs s b acts Hb Hbeg Hact). lia.
  - rewrite app_nil_r, Hsum.
    unfold sum_Z, period_purchases, period_sales. simpl. lia.
Qed.

(* ------------------------------------------------------------------ *)
(** ** A sample period: May 2025 *)

Definition may_holdings : list Holding.t :=
  [Holding.mk "JEPI" (Some (dollars 900)) (dollars 1000) (Some (dollars 800));
   Holding.mk "SPAXX" (Some (dollars 40)) (dollars 60) None].

Definition may_activity : list Activity.t :=
  [Activity.mk 20250510 "YOU Bought" "JEPI" (dollars 50) None None;
   Activity.mk 20250512 "YOU Sold" "JEPI" (dollars 20) (Some "10003"%string) (Some (dollars 18));
   Activity.mk 20250512 "YOU Sold" "QYLD" (dollars 500) (Some "10003"%string) (Some (dollars 450))].

Definition may_statement : Statement :=
  mkStatement (Some may_holdings)
    (Some [Income.mk 20250515 "ABC" "Dividend Received" (dollars 50)])
    (Some may_activity)
    (Some (Summary.mk 20250501 20250531 0 0 0 (dollars 250) 0 0 0 0 0 0 0 0))
    (Some [Holding.mk "QYLD" (Some (dollars 460)) (dollars 470) (Some (dollars 450))])
    [].

Lemma liquidation_contribution_witness :
  holdings may_statement = Some may_holdings
  /\ activity may_statement = Some may_activity
  /\ basket_for "QYLD" = Some BUY_WRITE
  /\ current_symbol may_holdings "QYLD" = false
  /\ existsb (fun t => String.eqb (Activity.symbol t) "QYLD"
                       && str_contains "Sold" (Activity.action t)) may_activity = true
  /\ filter (of_symbol "QYLD") (unrealized_deltas may_statement may_holdings)
     = [("10003"%string, "QYLD"%string, dollars 500 - dollars 470)].
Proof.
  do 5 (split; [reflexivity|]).
  exact (liquidation_contribution may_statement may_holdings may_activity "QYLD" BUY_WRITE
           eq_refl eq_refl eq_refl eq_refl eq_refl).
Defined.

Lemma held_symbol_contribution_witness :
  holdings may_statement = Some may_holdings
  /\ basket_for "JEPI" = Some BUY_WRITE
  /\ holdings_of "JEPI" may_holdings <> []
  /\ (forall h, In h (holdings_of "JEPI" may_holdings) ->
        Holding.is_money_market h = false
        /\ exists bv, Holding.beginning_value h = Some bv /\ 0 < bv)
  /\ (forall t, In t (activity_list may_statement) -> Activity.symbol t = "JEPI"%string ->
        str_contains "Bought" (Activity.action t) && str_contains "Sold" (Activity.action t) = false)
  /\ contribution (basket_id BUY_WRITE) "JEPI" (unrealized_deltas may_statement may_holdings)
     = sum_Z (map Holding.ending_value (holdings_of "JEPI" may_holdings))
       - sum_Z (map (fun h => value_or_zero (Holding.beginning_value h))
                  (holdings_of "JEPI" may_holdings))
       - period_purchases "JEPI" (activity_list may_statement)
       + period_sales "JEPI" (activity_list may_statement).
Proof.
  assert (Hheld : holdings_of "JEPI" may_holdings <> []) by discriminate.
  assert (Hall : forall h, In h (holdings_of "JEPI" may_holdings) ->
        Holding.is_money_market h = false
        /\ exists bv, Holding.beginning_value h = Some bv /\ 0 < bv).
  { intros h Hin. simpl in Hin. destruct Hin as [<- | []].
    split; [reflexivity|]. exists (dollars 900). split; [reflexivity|unfold dollars; lia]. }
  assert (Hact : forall t, In t (activity_list may_statement) -> Activity.symbol t = "JEPI"%string ->
        str_contains "Bought" (Activity.action t) && str_contains "Sold" (Activity.action t) = false).
  { intros t Ht _. simpl in Ht. destruct Ht as [<- | [<- | [<- | []]]]; reflexivity. }
  split; [reflexivity|]. split; [reflexivity|]. split; [exact Hheld|].
  split; [exact Hall|]. split; [exact Hact|].
  exact (held_symbol_contribution may_statement may_holdings "JEPI" BUY_WRITE
           eq_refl eq_refl Hheld Hall Hact).
Defined.

(* ------------------------------------------------------------------ *)
(** ** Balance: generic facts *)

Lemma sum_debit_app k l1 l2 : sum_debit k (l1 ++ l2) = sum_debit k l1 + sum_debit k l2.
Proof. unfold sum_debit. rewrite map_app, sum_Z_app. reflexivity. Qed.

Lemma sum_credit_app k l1 l2 : sum_credit k (l1 ++ l2) = sum_credit k l1 + sum_credit k l2.
Proof. unfold sum_credit. rewrite map_app, sum_Z_app. reflexivity. Qed.

Lemma balanced_nil : balanced [].
Proof. intro k. reflexivity. Qed.

Lemma balanced_app l1 l2 : balanced l1 -> balanced l2 -> balanced (l1 ++ l2).
Proof. intros H1 H2 k. rewrite sum_debit_app, sum_credit_app, H1, H2. reflexivity. Qed.

Definition total_debit (rows : list Row) : Z := sum_Z (map (fun r => opt_amount (debit r)) rows).
Definition total_credit (rows : list Row) : Z := sum_Z (map (fun r => opt_amount (credit r)) rows).

Lemma sum_debit_one_journal j k rows :
  Forall (fun r => journal_number r = j) rows ->
  sum_debit k rows = (if j =? k then total_debit rows else 0)
  /\ sum_credit k rows = (if j =? k then total_credit rows else 0).
Proof.
  unfold sum_debit, sum_credit, total_debit, total_credit.
  induction 1 as [|r rows Hr _ [IHd IHc]]; simpl.
  - destruct (j =? k); split; reflexivity.
  - unfold sum_Z in *. simpl. rewrite IHd, IHc, Hr.
    destruct (j =? k); split; reflexivity.
Qed.

(** The rows of one journal number balance when their totals agree. *)
Lemma balanced_one_journal j rows :
  Forall (fun r => journal_number r = j) rows ->
  total_debit rows = total_credit rows -> balanced rows.
Proof.
  intros Hj Ht k. destruct (sum_debit_one_journal j k rows Hj) as [-> ->].
  destruct (j =? k); [exact Ht|reflexivity].
Qed.

Lemma numbered_balanced {A : Type} (f : Z -> A -> list Row) jn gs :
  (forall j g, In g gs -> balanced (f j g)) -> balanced (numbered f jn gs).
Proof.
  revert jn. induction gs as [|g gs IH]; intros jn H; simpl; [apply balanced_nil|].
  apply balanced_app; [apply H; left; reflexivity|].
  apply IH. intros j g' Hg'. apply H. right. exact Hg'.
Qed.

(* ------------------------------------------------------------------ *)
(** ** Whole cents *)

Definition whole_cents (x : Z) : Prop := (CENT | x).

Lemma round_cents_exact x : whole_cents x -> round_cents x = x / CENT.
Proof.
  intros [c ->]. unfold round_cents.
  rewrite Z.mod_mul, Z.div_mul by (unfold CENT; lia). reflexivity.
Qed.

Lemma whole_cents_add x y : whole_cents x -> whole_cents y -> whole_cents (x + y).
Proof. apply Z.divide_add_r. Qed.

Lemma whole_cents_sum l : Forall whole_cents l -> whole_cents (sum_Z l).
Proof.
  induction 1; simpl; [apply Z.divide_0_r|]. apply whole_cents_add; assumption.
Qed.

Lemma div_cents_add x y : whole_cents x -> (x + y) / CENT = x / CENT + y / CENT.
Proof.
  intros [c ->]. rewrite Z.div_mul by (unfold CENT; lia).
  rewrite Z.add_comm, Z.div_add by (unfold CENT; lia). lia.
Qed.

(** Formatting each amount and formatting their sum agree on whole cents. *)
Lemma round_cents_sum l :
  Forall whole_cents l -> sum_Z (map round_cents l) = round_cents (sum_Z l).
Proof.
  intro H. rewrite round_cents_exact by (apply whole_cents_sum, H).
  induction H as [|x l Hx Hl IH]; [reflexivity|].
  unfold sum_Z in *. simpl. rewrite IH, round_cents_exact, div_cents_add by assumption.
  reflexivity.
Qed.

(** Groups of [group_by] hold elements of the grouped list. *)
Lemma group_by_In {K A : Type} (keqb : K -> K -> bool) (key : A -> K) l k xs y :
  In (k, xs) (group_by keqb key l) -> In y xs -> In y l.
Proof.
  unfold group_by.
  assert (H : forall g, In (k, xs) (fold_left (fun g x => group_add keqb key x g) l g) ->
    In y xs -> In y l \/ exists k' xs', In (k', xs') g /\ In y xs').
  { induction l as [|x l IH]; intros g Hg Hy; simpl in *.
    - right. exists k, xs. auto.
    - destruct (IH _ Hg Hy) as [Hin | [k' [xs' [Hk' Hy']]]]; [auto|].
      clear IH Hg. induction g as [|[k0 xs0] g IHg]; simpl in Hk'.
      + destruct Hk' as [Heq | []]. injection Heq as <- <-.
        destruct Hy' as [<- | []]. left. left. reflexivity.
      + destruct (keqb (key x) k0).
        * destruct Hk' as [Heq | Hk'].
          -- injection Heq as <- <-. apply in_app_iff in Hy' as [Hy' | [<- | []]].
             ++ right. exists k0, xs0. split; [left; reflexivity|exact Hy'].
             ++ left. left. reflexivity.
          -- right. exists k', xs'. split; [right; exact Hk'|exact Hy'].
        * destruct Hk' as [Heq | Hk'].
          -- injection Heq as <- <-. right. exists k0, xs0. split; [left; reflexivity|exact Hy'].
          -- destruct (IHg Hk') as [[<- | Hl] | [k1 [xs1 [Hk1 Hy1]]]].
             ++ left. left. reflexivity.
             ++ left. right. exact Hl.
             ++ right. exists k1, xs1. split; [right; exact Hk1|exact Hy1]. }
  intros Hg Hy. destruct (H [] Hg Hy) as [Hin | [? [? [[] _]]]]. exact Hin.
Qed.

Lemma sum_Z_zero {A : Type} (l : list A) : sum_Z (map (fun _ => 0) l) = 0.
Proof. induction l; [reflexivity|]. unfold sum_Z in *. simpl. lia. Qed.

Lemma sort_In {A : Type} (ltb : A -> A -> bool) l x : In x (sort ltb l) -> In x l.
Proof. apply Permutation_in, sort_perm. Qed.

(* ------------------------------------------------------------------ *)
(** ** Balance of the dividend and purchase blocks *)

Lemma dividend_group_balanced jn g :
  Forall (fun t => whole_cents (Income.amount t)) (snd g) ->
  balanced (dividend_group_rows jn g).
Proof.
  destruct g as [d txns]. simpl. intro Hc.
  apply (balanced_one_journal jn).
  - apply Forall_app. split.
    + apply Forall_forall. intros r Hr. apply in_map_iff in Hr as [t [<- _]]. reflexivity.
    + repeat constructor.
  - unfold total_debit, total_credit. rewrite !map_app, !sum_Z_app, !map_map. simpl.
    rewrite sum_Z_zero.
    rewrite <- (map_map Income.amount round_cents), round_cents_sum.
    + lia.
    + apply Forall_map, Hc.
Qed.

Lemma write_dividend_entries_balanced st rows :
  match income st with
  | Some l => Forall (fun t => whole_cents (Income.amount t)) l
  | None => True
  end ->
  write_dividend_entries st = Some rows -> balanced rows.
Proof.
  unfold write_dividend_entries. destruct (income st) as [l|]; [|discriminate].
  intros Hc Hw. cbv zeta in Hw.
  set (g := group_by _ _ _) in Hw.
  assert (Hr : rows = numbered dividend_group_rows 10001 (sort fst_Z_ltb g))
    by (destruct g; [discriminate|injection Hw as <-; reflexivity]).
  subst rows. apply numbered_balanced. intros j [d txns] Hg.
  apply dividend_group_balanced. simpl.
  apply Forall_forall. intros t Ht.
  apply sort_In in Hg. unfold g in Hg. eapply group_by_In in Ht; [|exact Hg].
  apply filter_In in Ht as [Ht _]. rewrite Forall_forall in Hc. apply Hc, Ht.
Qed.

Lemma purchase_group_balanced chart jn g :
  Forall (fun t => whole_cents (Activity.amount t)) (snd g) ->
  balanced (purchase_group_rows chart jn g).
Proof.
  destruct g as [[d b] txns]. simpl. intro Hc.
  apply (balanced_one_journal jn).
  - apply Forall_app. split.
    + apply Forall_forall. intros r Hr. apply in_map_iff in Hr as [t [<- _]]. reflexivity.
    + repeat constructor.
  - unfold total_debit, total_credit. rewrite !map_app, !sum_Z_app, !map_map. simpl.
    rewrite sum_Z_zero.
    rewrite <- (map_map Activity.amount round_cents), round_cents_sum.
    + lia.
    + apply Forall_map, Hc.
Qed.

(** Whole-cent amounts and cost bases of the activity data. *)
Definition activity_in_cents (l : list Activity.t) : Prop :=
  Forall (fun t => whole_cents (Activity.amount t)
                   /\ forall c, Activity.cost_basis t = Some c -> whole_cents c) l.

Lemma write_purchase_entries_balanced st rows :
  match activity st with Some l => activity_in_cents l | None => True end ->
  write_purchase_entries st = Some rows -> balanced rows.
Proof.
  unfold write_purchase_entries. destruct (activity st) as [l|]; [|discriminate].
  intros Hc Hw. cbv zeta in Hw.
  set (g := group_by _ _ _) in Hw.
  assert (Hr : rows = numbered (purchase_group_rows (chart st)) 20001 (sort date_basket_ltb g))
    by (destruct g; [discriminate|injection Hw as <-; reflexivity]).
  subst rows. apply numbered_balanced. intros j [k txns] Hg.
  apply purchase_group_balanced. simpl.
  apply Forall_forall. intros t Ht.
  apply sort_In in Hg. unfold g in Hg. eapply group_by_In in Ht; [|exact Hg].
  apply filter_In in Ht as [Ht _]. unfold activity_in_cents in Hc.
  rewrite Forall_forall in Hc. apply Hc, Ht.
Qed.

(** Totals of concatenated rows. *)
Lemma total_debit_cons r l : total_debit (r :: l) = opt_amount (debit r) + total_debit l.
Proof. reflexivity. Qed.

Lemma total_credit_cons r l : total_credit (r :: l) = opt_amount (credit r) + total_credit l.
Proof. reflexivity. Qed.

Lemma total_debit_app l1 l2 : total_debit (l1 ++ l2) = total_debit l1 + total_debit l2.
Proof. unfold total_debit. rewrite map_app, sum_Z_app. reflexivity. Qed.

Lemma total_credit_app l1 l2 : total_credit (l1 ++ l2) = total_credit l1 + total_credit l2.
Proof. unfold total_credit. rewrite map_app, sum_Z_app. reflexivity. Qed.

(* ------------------------------------------------------------------ *)
(** ** Balance of the unrealized block *)

Lemma unrealized_rows_balanced pe jn info totals rows :
  unrealized_rows pe jn info totals = Ok rows -> balanced rows.
Proof.
  revert jn rows. induction totals as [|[b change] rest IH]; intros jn rows H; simpl in H.
  - injection H as <-. apply balanced_nil.
  - destruct (Z.abs change <? CENT); [exact (IH _ _ H)|].
    destruct (str_lookup b info) as [bk|]; [|discriminate].
    destruct (unrealized_rows pe (jn + 1) info rest) as [rest_rows|e] eqn:E;
      simpl in H; [|discriminate].
    injection H as <-. apply balanced_app; [|exact (IH _ _ E)].
    apply (balanced_one_journal jn).
    + destruct (0 <? change); repeat constructor.
    + destruct (0 <? change); unfold total_debit, total_credit, sum_Z; simpl; lia.
Qed.

Lemma write_unrealized_entries_balanced st rows :
  write_unrealized_entries st = Ok (Some rows) -> balanced rows.
Proof.
  unfold write_unrealized_entries.
  destruct (holdings st) as [hs|], (summary st) as [s|]; try discriminate.
  destruct (unrealized_deltas st hs) as [|d ds]; [discriminate|].
  destruct (unrealized_rows _ _ _ _) as [r|e] eqn:E; simpl; [|discriminate].
  intro H. injection H as <-. exact (unrealized_rows_balanced _ _ _ _ _ E).
Qed.

(* ------------------------------------------------------------------ *)
(** ** Balance of every journal *)

(** C1: every journal number of every block should balance.  Amounts
    below the cent are formatted line by line while the credit formats
    their total, so two dividends of $0.004 on one day give debits of
    0.00 + 0.00 against a credit of 0.01 on journal 10001. *)
Lemma journals_balanced_counterexample :
  let st := mkStatement None
              (Some [Income.mk 20250515 "ABC" "Dividend Received" 4000;
                     Income.mk 20250515 "XYZ" "Dividend Received" 4000])
              None None None [] in
  exists rows, write_dividend_entries st = Some rows
  /\ sum_debit 10001 rows = 0 /\ sum_credit 10001 rows = 1
  /\ ~ balanced rows.
Proof.
  intro st. eexists. split; [reflexivity|].
  split; [reflexivity|]. split; [reflexivity|].
  intro H. specialize (H 10001). vm_compute in H. discriminate.
Qed.

(* ------------------------------------------------------------------ *)
(** ** Materiality threshold of the unrealized block *)

(** A June statement with one JEPI position carried without cost basis
    (so skipped by loop 1 as money market) and bought into during the
    period (so adjusted by loop 2). *)
Definition jepi_holdings : list Holding.t :=
  [Holding.mk "JEPI" (Some (dollars 100)) (dollars 100) None].

Definition jepi_statement : Statement :=
  mkStatement (Some jepi_holdings) None
    (Some [Activity.mk 20250610 "YOU Bought" "JEPI" (dollars 50) None None])
    (Some (Summary.mk 20250601 20250630 0 0 0 0 0 0 0 0 0 0 0 0))
    None [].

(** C6: with the basket's accounts known, a net change of $0.009999 emits
    nothing and a net change of $0.01 emits one balanced pair of 0.01.
    But a basket whose total comes only from loop 2 has no [basket_info]
    entry, and a material total for it raises [KeyError] instead of
    emitting a pair. *)
Theorem unrealized_threshold_and_missing_info :
  unrealized_rows 20250630 40001 [("10003"%string, BUY_WRITE)] [("10003"%string, 9999)] = Ok []
  /\ unrealized_rows 20250630 40001 [("10003"%string, BUY_WRITE)] [("10003"%string, 10000)]
     = Ok [mkRow 20250630 40001 (fmv_account BUY_WRITE) (Some 1) None;
           mkRow 20250630 40001 (unrealized_account BUY_WRITE) None (Some 1)]
  /\ basket_totals (unrealized_deltas jepi_statement jepi_holdings) = [("10003"%string, - dollars 50)]
  /\ basket_info jepi_statement jepi_holdings = []
  /\ write_unrealized_entries jepi_statement = Raise KeyError.
Proof. vm_compute. repeat split. Qed.

(* ------------------------------------------------------------------ *)
(** ** The combined entry file *)

(** With no entry file on disk beforehand, the ENT rows are the blocks'
    rows in the order DIV, PUR, SAL, UNR. *)
Lemma write_entries_fresh (st : Statement) :
  write_entries st no_entry_files =
  (u <- write_unrealized_entries st ;;
   Ok (mkEntryFiles (write_dividend_entries st) (write_purchase_entries st)
                    (write_sale_entries st) u,
       file_rows (write_dividend_entries st) ++ file_rows (write_purchase_entries st)
       ++ file_rows (write_sale_entries st) ++ file_rows u)).
Proof.
  unfold write_entries, no_entry_files, overwrite. simpl.
  destruct (write_unrealized_entries st) as [u|e]; [|reflexivity]. simpl.
  destruct (write_dividend_entries st), (write_purchase_entries st),
    (write_sale_entries st), u; reflexivity.
Qed.

Definition stale_dividend_row : Row :=
  mkRow 20250430 10001 "Dividend Income" None (Some 500).

Definition empty_statement : Statement := mkStatement None None None None None [].

Definition stale_files : EntryFiles := mkEntryFiles (Some [stale_dividend_row]) None None None.

(** C8: no block of a statement without data produces rows, yet the ENT
    file still carries the rows of a DIV file left by an earlier run. *)
Theorem write_entries_keeps_stale_file :
  write_dividend_entries empty_statement = None
  /\ write_purchase_entries empty_statement = None
  /\ write_sale_entries empty_statement = None
  /\ write_unrealized_entries empty_statement = Ok None
  /\ write_entries empty_statement stale_files = Ok (stale_files, [stale_dividend_row]).
Proof. repeat split. Qed.

(* ------------------------------------------------------------------ *)
(** ** Loading the summary *)

Definition short_summary_row : CsvRow :=
  ("period_start"%string, Some "2025-05-01"%string)
  :: map (fun k => (k, None)) (List.tl summary_date_fields ++ summary_float_fields).

Definition missing_column_summary_row : CsvRow :=
  [("period_start"%string, Some "2025-05-01"%string)].

(** C10: [from_csv_file] documents [ValueError] for invalid data, and the
    claim has it return a Summary whenever exactly one non-empty row is
    present.  A data line that stops after its first field leaves the
    other columns [None], and [date.fromisoformat(None)] raises
    [TypeError]; a file whose header lacks [period_end] raises [KeyError]
    at [row['period_end']]. *)
Lemma summary_single_row_counterexample :
  filter row_nonempty [short_summary_row] = [short_summary_row]
  /\ from_csv_file (Some [short_summary_row]) = Raise TypeError
  /\ filter row_nonempty [missing_column_summary_row] = [missing_column_summary_row]
  /\ from_csv_file (Some [missing_column_summary_row]) = Raise KeyError
  /\ ~ (forall rows, List.length (filter row_nonempty rows) = 1%nat ->
         exists s, from_csv_file (Some rows) = Ok s).
Proof.
  split; [reflexivity|]. split; [vm_compute; reflexivity|].
  split; [reflexivity|]. split; [vm_compute; reflexivity|].
  intro H. destruct (H [short_summary_row] eq_refl) as [s Hs].
  vm_compute in Hs. discriminate.
Qed.







(* ------------------------------------------------------------------ *)
(** ** Journal files written by [write_entries]: numbering, lines and totals *)


Section GroupFacts.
Context {K A : Type} (keqb : K -> K -> bool) (key : A -> K).

Lemma group_add_flat x g :
  Permutation (flat_map snd (group_add keqb key x g)) (flat_map snd g ++ [x]).
Proof.
  induction g as [|[k xs] g IH]; simpl; [apply Permutation_refl|].
  destruct (keqb (key x) k); simpl.
  - rewrite <- !app_assoc. apply Permutation_app_head, Permutation_app_comm.
  - rewrite <- app_assoc. apply Permutation_app_head, IH.
Qed.

Lemma group_by_perm l : Permutation (flat_map snd (group_by keqb key l)) l.
Proof.
  unfold group_by.
  assert (H : forall g, Permutation (flat_map snd (fold_left (fun g x => group_add keqb key x g) l g))
                                   (flat_map snd g ++ l)).
  { induction l as [|x l IH]; intro g; simpl; [rewrite app_nil_r; apply Permutation_refl|].
    eapply perm_trans; [apply IH|].
    eapply perm_trans; [apply Permutation_app_tail, group_add_flat|].
    rewrite <- app_assoc. apply Permutation_refl. }
  exact (H []).
Qed.

Lemma group_add_not_nil x g : group_add keqb key x g <> [].
Proof. destruct g as [|[k xs] g]; simpl; [|destruct (keqb (key x) k)]; discriminate. Qed.

Lemma group_by_nil l : group_by keqb key l = [] <-> l = [].
Proof.
  split; [|intros ->; reflexivity].
  unfold group_by. destruct l as [|x l]; [reflexivity|]. simpl.
  assert (H : forall g, g <> [] -> fold_left (fun g x => group_add keqb key x g) l g <> []).
  { induction l as [|y l IH]; intros g Hg; simpl; [exact Hg|]. apply IH, group_add_not_nil. }
  intro E. exfalso. exact (H _ (group_add_not_nil x []) E).
Qed.

Hypothesis keqb_spec : forall a b, keqb a b = true <-> a = b.

Lemma group_add_keys x g :
  map fst (group_add keqb key x g) =
  if existsb (keqb (key x)) (map fst g) then map fst g else map fst g ++ [key x].
Proof.
  induction g as [|[k xs] g IH]; simpl; [reflexivity|].
  destruct (keqb (key x) k); simpl; [reflexivity|].
  rewrite IH. destruct (existsb (keqb (key x)) (map fst g)); reflexivity.
Qed.

Lemma group_by_keys l :
  NoDup (map fst (group_by keqb key l))
  /\ forall k, In k (map fst (group_by keqb key l)) <-> exists x, In x l /\ key x = k.
Proof.
  unfold group_by.
  assert (H : forall g, NoDup (map fst g) ->
    NoDup (map fst (fold_left (fun g x => group_add keqb key x g) l g))
    /\ forall k, In k (map fst (fold_left (fun g x => group_add keqb key x g) l g))
                 <-> In k (map fst g) \/ exists x, In x l /\ key x = k).
  { induction l as [|x l IH]; intros g Hg; simpl.
    - split; [exact Hg|]. intro k. split; [auto|]. intros [H|[y [[] _]]]. exact H.
    - assert (Hn : NoDup (map fst (group_add keqb key x g))
                   /\ forall k, In k (map fst (group_add keqb key x g)) <-> In k (map fst g) \/ k = key x).
      { rewrite group_add_keys. destruct (existsb (keqb (key x)) (map fst g)) eqn:E.
        - split; [exact Hg|]. intro k. split; [auto|]. intros [H| ->]; [exact H|].
          apply existsb_exists in E as [k' [Hk' Ek']]. apply keqb_spec in Ek'. subst. exact Hk'.
        - split.
          + eapply Permutation_NoDup; [apply Permutation_cons_append|].
            constructor; [|exact Hg]. intro Hin.
            assert (existsb (keqb (key x)) (map fst g) = true) by
              (apply existsb_exists; exists (key x); split; [exact Hin|apply keqb_spec; reflexivity]).
            congruence.
          + intro k. rewrite in_app_iff. simpl. intuition (subst; auto). }
      destruct Hn as [Hn Hk]. destruct (IH _ Hn) as [Hn' Hk']. split; [exact Hn'|].
      intro k. rewrite Hk', Hk. split.
      + intros [[H| ->]|[y [Hy Hyk]]].
        * left. exact H.
        * right. exists x. split; [left|]; reflexivity.
        * right. exists y. split; [right|]; assumption.
      + intros [H|[y [[<-|Hy] Hyk]]].
        * left. left. exact H.
        * left. right. symmetry. exact Hyk.
        * right. exists y. split; assumption. }
  destruct (H [] (NoDup_nil _)) as [Hn Hk]. split; [exact Hn|].
  intro k. rewrite Hk. simpl. split; [intros [[]|Hx]; exact Hx|auto].
Qed.
End GroupFacts.

Lemma perm_flat_map {A B : Type} (g : A -> list B) l1 l2 :
  Permutation l1 l2 -> Permutation (flat_map g l1) (flat_map g l2).
Proof.
  induction 1; simpl.
  - constructor.
  - apply Permutation_app_head. assumption.
  - rewrite !app_assoc. apply Permutation_app_tail, Permutation_app_comm.
  - eapply perm_trans; eassumption.
Qed.

Lemma flat_map_map_snd {A B C : Type} (c : B -> C) (gs : list (A * list B)) :
  flat_map (fun g => map c (snd g)) gs = map c (flat_map snd gs).
Proof. induction gs as [|g gs IH]; simpl; [reflexivity|]. rewrite map_app, IH. reflexivity. Qed.

(** Journal numbers of the [numbered] loop. *)
Lemma numbered_numbers {A : Type} (f : Z -> A -> list Row) jn gs :
  (forall j g, In g gs -> f j g <> [] /\ Forall (fun r => journal_number r = j) (f j g)) ->
  (forall r, In r (numbered f jn gs) -> jn <= journal_number r < jn + Z.of_nat (List.length gs))
  /\ (forall j, jn <= j < jn + Z.of_nat (List.length gs) ->
        exists r, In r (numbered f jn gs) /\ journal_number r = j).
Proof.
  revert jn. induction gs as [|g gs IH]; intros jn H; simpl.
  - split; [intros _ []|intros j Hj; lia].
  - destruct (H jn g (or_introl eq_refl)) as [Hne Hf].
    destruct (IH (jn + 1)) as [IH1 IH2]; [intros j g' Hg'; apply H; right; exact Hg'|].
    split.
    + intros r Hr. apply in_app_or in Hr as [Hr|Hr].
      * rewrite Forall_forall in Hf. rewrite (Hf r Hr). lia.
      * specialize (IH1 r Hr). lia.
    + intros j Hj. destruct (Z.eq_dec j jn) as [->|Hneq].
      * destruct (f jn g) as [|r rs] eqn:E; [contradiction|].
        exists r. split; [apply in_or_app; left; left; reflexivity|].
        inversion Hf; assumption.
      * destruct (IH2 j) as [r [Hr Hrj]]; [lia|].
        exists r. split; [apply in_or_app; right; exact Hr|exact Hrj].
Qed.

Lemma numbered_filter_map {A B : Type} (f : Z -> A -> list Row) (P : Row -> bool)
  (h : Row -> B) (F : A -> list B) jn gs :
  (forall j g, In g gs -> map h (filter P (f j g)) = F g) ->
  map h (filter P (numbered f jn gs)) = flat_map F gs.
Proof.
  revert jn. induction gs as [|g gs IH]; intros jn H; simpl; [reflexivity|].
  rewrite filter_app, map_app, H by (left; reflexivity).
  f_equal. apply IH. intros j g' Hg'. apply H. right. exact Hg'.
Qed.

Lemma total_debit_numbered {A : Type} (f : Z -> A -> list Row) (T : A -> Z) jn gs :
  (forall j g, In g gs -> total_debit (f j g) = T g) ->
  total_debit (numbered f jn gs) = sum_Z (map T gs).
Proof.
  revert jn. induction gs as [|g gs IH]; intros jn H; simpl; [reflexivity|].
  rewrite total_debit_app, H by (left; reflexivity).
  rewrite IH; [reflexivity|]. intros j g' Hg'. apply H. right. exact Hg'.
Qed.

Lemma total_credit_numbered {A : Type} (f : Z -> A -> list Row) (T : A -> Z) jn gs :
  (forall j g, In g gs -> total_credit (f j g) = T g) ->
  total_credit (numbered f jn gs) = sum_Z (map T gs).
Proof.
  revert jn. induction gs as [|g gs IH]; intros jn H; simpl; [reflexivity|].
  rewrite total_credit_app, H by (left; reflexivity).
  rewrite IH; [reflexivity|]. intros j g' Hg'. apply H. right. exact Hg'.
Qed.

Lemma date_basket_eqb_spec a b : date_basket_eqb a b = true <-> a = b.
Proof.
  destruct a as [d1 b1], b as [d2 b2]. unfold date_basket_eqb. simpl.
  rewrite andb_true_iff, Z.eqb_eq, String.eqb_eq.
  split; [intros [-> ->]; reflexivity|intro H; injection H as -> ->; auto].
Qed.

Lemma filter_nil_Forall {A : Type} (f : A -> bool) l :
  filter f l = [] <-> Forall (fun x => f x = false) l.
Proof.
  induction l as [|x l IH]; simpl; [split; auto|].
  destruct (f x) eqn:E; split; intro H.
  - discriminate.
  - inversion H; congruence.
  - constructor; [exact E|apply IH, H].
  - apply IH. inversion H; assumption.
Qed.

Lemma sum_Z_flat_map_snd {A B : Type} (F : B -> Z) (gs : list (A * list B)) :
  sum_Z (map (fun g => sum_Z (map F (snd g))) gs) = sum_Z (map F (flat_map snd gs)).
Proof.
  induction gs as [|g gs IH]; [reflexivity|]. simpl.
  rewrite map_app, sum_Z_app, <- IH. reflexivity.
Qed.

Lemma cent_round x : whole_cents x -> CENT * round_cents x = x.
Proof.
  intro H. rewrite round_cents_exact by exact H. destruct H as [c ->].
  rewrite Z.div_mul by (unfold CENT; lia). lia.
Qed.

Lemma cents_sum_round {A : Type} (F : A -> Z) l :
  Forall (fun x => whole_cents (F x)) l ->
  CENT * sum_Z (map (fun x => round_cents (F x)) l) = sum_Z (map F l).
Proof.
  induction 1 as [|x l Hx _ IH]; [reflexivity|]. unfold sum_Z in *. cbn [map fold_right].
  rewrite Z.mul_add_distr_l, IH, (cent_round _ Hx). reflexivity.
Qed.

Lemma group_members {K A : Type} (keqb : K -> K -> bool) (key : A -> K) ltb P l g :
  Forall P l -> In g (sort ltb (group_by keqb key l)) -> Forall P (snd g).
Proof.
  intros H Hg. destruct g as [k xs]. apply Forall_forall. intros y Hy.
  rewrite Forall_forall in H. apply H.
  eapply group_by_In; [apply (sort_In ltb), Hg|exact Hy].
Qed.

(** [group_by] gives each key the transactions carrying it, in input order. *)
Section GroupMembers.
Context {K A : Type} (keqb : K -> K -> bool) (key : A -> K).
Hypothesis keqb_spec : forall a b, keqb a b = true <-> a = b.

Lemma group_add_In x g k xs :
  NoDup (map fst g) -> In (k, xs) (group_add keqb key x g) ->
  (In (k, xs) g /\ keqb (key x) k = false)
  \/ (exists ys, xs = ys ++ [x] /\ In (k, ys) g /\ keqb (key x) k = true)
  \/ (k = key x /\ xs = [x] /\ ~ In (key x) (map fst g)).
Proof.
  induction g as [|[k0 xs0] g IH]; simpl; intros Hnd Hin.
  - destruct Hin as [Hin|[]]. injection Hin as <- <-. right. right. auto.
  - inversion Hnd as [|? ? Hk0 Hnd']; subst.
    destruct (keqb (key x) k0) eqn:E.
    + destruct Hin as [Hin|Hin].
      * injection Hin as <- <-. right. left. exists xs0. auto.
      * left. split; [right; exact Hin|].
        apply keqb_spec in E. destruct (keqb (key x) k) eqn:E'; [|reflexivity].
        apply keqb_spec in E'. exfalso. apply Hk0. rewrite <- E, E'.
        exact (in_map fst g (k, xs) Hin).
    + destruct Hin as [Hin|Hin].
      * injection Hin as <- <-. left. split; [left; reflexivity|exact E].
      * destruct (IH Hnd' Hin) as [[H1 H2]|[[ys [H1 [H2 H3]]]|[H1 [H2 H3]]]].
        -- left. split; [right; exact H1|exact H2].
        -- right. left. exists ys. split; [exact H1|]. split; [right; exact H2|exact H3].
        -- right. right. split; [exact H1|]. split; [exact H2|].
           intros [H|H]; [|exact (H3 H)]. simpl in H. subst k0.
           rewrite (proj2 (keqb_spec _ _) eq_refl) in E. discriminate.
Qed.

(** What the dictionary holds after the transactions [p]. *)
Definition group_inv (p : list A) (g : list (K * list A)) : Prop :=
  NoDup (map fst g)
  /\ (forall k, In k (map fst g) <-> exists y, In y p /\ key y = k)
  /\ (forall k xs, In (k, xs) g -> xs = filter (fun y => keqb (key y) k) p).

Lemma group_inv_add p g x : group_inv p g -> group_inv (p ++ [x]) (group_add keqb key x g).
Proof.
  intros [Hnd [Hk Hm]]. split; [|split].
  - rewrite group_add_keys. destruct (existsb (keqb (key x)) (map fst g)) eqn:E; [exact Hnd|].
    eapply Permutation_NoDup; [apply Permutation_cons_append|]. constructor; [|exact Hnd].
    intro Hin.
    assert (existsb (keqb (key x)) (map fst g) = true)
      by (apply existsb_exists; exists (key x); split; [exact Hin|apply keqb_spec; reflexivity]).
    congruence.
  - intro k. rewrite group_add_keys. split.
    + intro Hin. destruct (existsb (keqb (key x)) (map fst g)) eqn:E.
      * apply Hk in Hin as [y [Hy Hyk]]. exists y. split; [apply in_or_app; left; exact Hy|exact Hyk].
      * apply in_app_or in Hin as [Hin|[<-|[]]].
        -- apply Hk in Hin as [y [Hy Hyk]]. exists y. split; [apply in_or_app; left; exact Hy|exact Hyk].
        -- exists x. split; [apply in_or_app; right; left; reflexivity|reflexivity].
    + intros [y [Hy Hyk]]. apply in_app_or in Hy as [Hy|[<-|[]]].
      * assert (Hin : In k (map fst g)) by (apply Hk; exists y; split; assumption).
        destruct (existsb (keqb (key x)) (map fst g)); [exact Hin|apply in_or_app; left; exact Hin].
      * subst k. destruct (existsb (keqb (key x)) (map fst g)) eqn:E.
        -- apply existsb_exists in E as [k' [Hk' Ek']]. apply keqb_spec in Ek'. subst k'. exact Hk'.
        -- apply in_or_app. right. left. reflexivity.
  - intros k xs Hin.
    destruct (group_add_In x g k xs Hnd Hin) as [[H1 H2]|[[ys [-> [H2 H3]]]|[-> [-> H3]]]].
    + rewrite filter_app, <- (Hm k xs H1). simpl. rewrite H2, app_nil_r. reflexivity.
    + rewrite filter_app, <- (Hm k ys H2). simpl. rewrite H3. reflexivity.
    + rewrite filter_app, (filter_nil_if _ p).
      * simpl. rewrite (proj2 (keqb_spec _ _) eq_refl). reflexivity.
      * intros y Hy. destruct (keqb (key y) (key x)) eqn:E; [|reflexivity].
        apply keqb_spec in E. exfalso. apply H3. apply Hk. exists y. split; assumption.
Qed.

Lemma group_by_members l : group_inv l (group_by keqb key l).
Proof.
  unfold group_by.
  assert (H : forall p g, group_inv p g ->
    group_inv (p ++ l) (fold_left (fun g x => group_add keqb key x g) l g)).
  { induction l as [|x l IH]; intros p g Hg; simpl; [rewrite app_nil_r; exact Hg|].
    replace (p ++ x :: l) with ((p ++ [x]) ++ l) by (rewrite <- app_assoc; reflexivity).
    apply IH, group_inv_add, Hg. }
  apply (H [] []). split; [constructor|split].
  - intro k. simpl. split; [intros []|intros [y [[] _]]].
  - intros k xs [].
Qed.

Lemma pairs_as_map {B : Type} (h : K -> B) (G : list (K * B)) :
  (forall k xs, In (k, xs) G -> xs = h k) -> G = map (fun k => (k, h k)) (map fst G).
Proof.
  induction G as [|[k xs] G IH]; simpl; intro HG; [reflexivity|].
  rewrite <- (HG k xs (or_introl eq_refl)). f_equal. apply IH.
  intros k' xs' H. apply HG. right. exact H.
Qed.
End GroupMembers.

(** Insertion sort by a strict total order gives a strictly increasing list. *)
Section SortFacts.
Context {A : Type} (ltb : A -> A -> bool).
Hypothesis ltb_trans : forall a b c, ltb a b = true -> ltb b c = true -> ltb a c = true.
Hypothesis ltb_total : forall a b, a <> b -> ltb a b = false -> ltb b a = true.

Lemma insert_sorted_sorted x l :
  StronglySorted (fun a b => ltb a b = true) l -> ~ In x l ->
  StronglySorted (fun a b => ltb a b = true) (insert_sorted ltb x l).
Proof.
  induction l as [|y l IH]; simpl; intros Hs Hx.
  - repeat constructor.
  - inversion Hs as [|? ? Hs' Hy]; subst.
    destruct (ltb y x) eqn:E.
    + constructor; [apply IH; [exact Hs'|intro H; apply Hx; right; exact H]|].
      apply Forall_forall. intros z Hz.
      apply (Permutation_in _ (insert_sorted_perm ltb x l)) in Hz as [<-|Hz]; [exact E|].
      rewrite Forall_forall in Hy. exact (Hy z Hz).
    + assert (Hxy : ltb x y = true)
        by (apply ltb_total; [intro Heq; apply Hx; left; exact Heq|exact E]).
      constructor; [exact Hs|]. constructor; [exact Hxy|].
      apply Forall_forall. intros z Hz. rewrite Forall_forall in Hy.
      exact (ltb_trans _ _ _ Hxy (Hy z Hz)).
Qed.

Lemma sort_sorted l : NoDup l -> StronglySorted (fun a b => ltb a b = true) (sort ltb l).
Proof.
  induction l as [|x l IH]; simpl; intro Hnd; [constructor|].
  inversion Hnd as [|? ? Hx Hnd']; subst.
  apply insert_sorted_sorted; [apply IH, Hnd'|].
  intro H. apply (Permutation_in _ (sort_perm ltb l)) in H. contradiction.
Qed.
End SortFacts.

Lemma insert_sorted_map {A B : Type} (ltbA : A -> A -> bool) (ltbB : B -> B -> bool) (m : A -> B)
  (H : forall a b, ltbB (m a) (m b) = ltbA a b) x l :
  insert_sorted ltbB (m x) (map m l) = map m (insert_sorted ltbA x l).
Proof.
  induction l as [|y l IH]; simpl; [reflexivity|].
  rewrite H. destruct (ltbA y x); simpl; [rewrite IH|]; reflexivity.
Qed.

Lemma sort_map {A B : Type} (ltbA : A -> A -> bool) (ltbB : B -> B -> bool) (m : A -> B)
  (H : forall a b, ltbB (m a) (m b) = ltbA a b) l :
  sort ltbB (map m l) = map m (sort ltbA l).
Proof.
  induction l as [|x l IH]; simpl; [reflexivity|].
  rewrite IH. apply insert_sorted_map, H.
Qed.

Lemma ssorted_impl {A : Type} (R S : A -> A -> Prop) l :
  (forall a b, R a b -> S a b) -> StronglySorted R l -> StronglySorted S l.
Proof.
  intros HRS. induction 1 as [|x l _ IH Hx]; constructor; [exact IH|].
  eapply Forall_impl; [|exact Hx]. intros a. apply HRS.
Qed.

Lemma numbered_map {A B : Type} (f : Z -> B -> list Row) (m : A -> B) jn ks :
  numbered f jn (map m ks) = numbered (fun j k => f j (m k)) jn ks.
Proof.
  revert jn. induction ks as [|k ks IH]; intro jn; simpl; [reflexivity|]. rewrite IH. reflexivity.
Qed.

Lemma filter_all {A : Type} (p : A -> bool) l :
  Forall (fun x => p x = true) l -> filter p l = l.
Proof. induction 1 as [|x l Hx _ IH]; simpl; [reflexivity|]. rewrite Hx, IH. reflexivity. Qed.

Lemma numbered_ge {A : Type} (f : Z -> A -> list Row) jn gs :
  (forall j g, Forall (fun r => journal_number r = j) (f j g)) ->
  forall r, In r (numbered f jn gs) -> jn <= journal_number r.
Proof.
  intro Hf. revert jn. induction gs as [|g gs IH]; intros jn r Hr; simpl in Hr; [destruct Hr|].
  apply in_app_or in Hr as [Hr|Hr].
  - specialize (Hf jn g). rewrite Forall_forall in Hf. rewrite (Hf r Hr). lia.
  - specialize (IH (jn + 1) r Hr). lia.
Qed.

(** The rows of journal [jn + i] are those of the [i]-th group. *)
Lemma numbered_journal {A : Type} (f : Z -> A -> list Row) jn gs i g :
  (forall j g, Forall (fun r => journal_number r = j) (f j g)) ->
  nth_error gs i = Some g ->
  filter (fun r => journal_number r =? jn + Z.of_nat i) (numbered f jn gs) = f (jn + Z.of_nat i) g.
Proof.
  intro Hf. revert jn i. induction gs as [|g0 gs IH]; intros jn i Hi; [destruct i; discriminate|].
  simpl. rewrite filter_app. destruct i as [|i]; simpl in Hi.
  - injection Hi as ->. rewrite Z.add_0_r.
    rewrite filter_all.
    2:{ eapply Forall_impl; [|exact (Hf jn g)]. intros r Hr. apply Z.eqb_eq, Hr. }
    rewrite (filter_nil_if _ (numbered f (jn + 1) gs)); [apply app_nil_r|].
    intros r Hr. apply Z.eqb_neq. pose proof (numbered_ge f (jn + 1) gs Hf r Hr). lia.
  - rewrite (filter_nil_if _ (f jn g0)).
    2:{ intros r Hr. apply Z.eqb_neq. specialize (Hf jn g0). rewrite Forall_forall in Hf.
        rewrite (Hf r Hr). lia. }
    replace (jn + Z.of_nat (S i)) with (jn + 1 + Z.of_nat i) by lia.
    apply IH, Hi.
Qed.

(** The [numbered] loop over [sorted(group_by(...))] for any block: one
    journal per distinct key, in increasing key order, the [i]-th journal
    holding exactly the transactions of the [i]-th key. *)
Lemma grouped_journals {K A : Type} (keqb : K -> K -> bool) (key : A -> K)
  (keqb_spec : forall a b, keqb a b = true <-> a = b)
  (kltb : K -> K -> bool) (gltb : K * list A -> K * list A -> bool)
  (Hltb : forall a b xs ys, gltb (a, xs) (b, ys) = kltb a b)
  (Htrans : forall a b c, kltb a b = true -> kltb b c = true -> kltb a c = true)
  (Htotal : forall a b, a <> b -> kltb a b = false -> kltb b a = true)
  (f : Z -> K * list A -> list Row)
  (Hf : forall j g, f j g <> [] /\ Forall (fun r => journal_number r = j) (f j g))
  (base : Z) (l : list A) :
  exists keys, NoDup keys
  /\ StronglySorted (fun a b => kltb a b = true) keys
  /\ (forall k, In k keys <-> exists x, In x l /\ key x = k)
  /\ numbered f base (sort gltb (group_by keqb key l))
     = numbered (fun j k => f j (k, filter (fun x => keqb (key x) k) l)) base keys
  /\ (forall i k, nth_error keys i = Some k ->
        filter (fun r => journal_number r =? base + Z.of_nat i)
          (numbered f base (sort gltb (group_by keqb key l)))
        = f (base + Z.of_nat i) (k, filter (fun x => keqb (key x) k) l))
  /\ (forall r, In r (numbered f base (sort gltb (group_by keqb key l))) ->
        base <= journal_number r < base + Z.of_nat (List.length keys))
  /\ (forall j, base <= j < base + Z.of_nat (List.length keys) ->
        exists r, In r (numbered f base (sort gltb (group_by keqb key l))) /\ journal_number r = j).
Proof.
  destruct (group_by_members keqb key keqb_spec l) as [Hnd [Hk Hm]].
  set (h := fun k => filter (fun x => keqb (key x) k) l).
  assert (Hg : group_by keqb key l = map (fun k => (k, h k)) (map fst (group_by keqb key l)))
    by (apply pairs_as_map; exact Hm).
  set (ks := map fst (group_by keqb key l)) in *.
  assert (Hs : sort gltb (group_by keqb key l) = map (fun k => (k, h k)) (sort kltb ks)).
  { rewrite Hg at 1. apply sort_map. intros a b. apply Hltb. }
  set (block := fun j k => f j (k, h k)).
  assert (Hr : numbered f base (sort gltb (group_by keqb key l)) = numbered block base (sort kltb ks))
    by (rewrite Hs, numbered_map; reflexivity).
  assert (Hp := sort_perm kltb ks).
  assert (Hf' : forall j k, Forall (fun r => journal_number r = j) (block j k))
    by (intros j k; apply Hf).
  rewrite Hr. exists (sort kltb ks).
  split; [exact (Permutation_NoDup (Permutation_sym Hp) Hnd)|].
  split; [exact (sort_sorted kltb Htrans Htotal ks Hnd)|].
  split.
  { intro k. rewrite <- Hk. split; intro H.
    - exact (Permutation_in _ Hp H).
    - exact (Permutation_in _ (Permutation_sym Hp) H). }
  split; [reflexivity|].
  split; [intros i k Hi; exact (numbered_journal block base _ i k Hf' Hi)|].
  apply numbered_numbers. intros j k _. apply Hf.
Qed.

(** Python's ordering of [(settlement_date, basket)] keys. *)
Definition key_ltb (a b : Z * string) : bool :=
  (fst a <? fst b) || ((fst a =? fst b) && String.ltb (snd a) (snd b)).

Lemma string_compare_lt_trans a b c :
  String.compare a b = Lt -> String.compare b c = Lt -> String.compare a c = Lt.
Proof.
  revert b c. induction a as [|x a IH]; intros [|y b] [|z c]; simpl; intros H1 H2;
    try discriminate; try reflexivity.
  unfold Ascii.compare in *.
  destruct (N.compare_spec (N_of_ascii x) (N_of_ascii y)) as [Exy|Exy|Exy]; try discriminate;
  destruct (N.compare_spec (N_of_ascii y) (N_of_ascii z)) as [Eyz|Eyz|Eyz]; try discriminate.
  - rewrite Exy, Eyz, N.compare_refl. exact (IH _ _ H1 H2).
  - rewrite Exy. rewrite (proj2 (N.compare_lt_iff _ _) Eyz). reflexivity.
  - rewrite <- Eyz. rewrite (proj2 (N.compare_lt_iff _ _) Exy). reflexivity.
  - rewrite (proj2 (N.compare_lt_iff _ _) (N.lt_trans _ _ _ Exy Eyz)). reflexivity.
Qed.

Lemma string_ltb_trans a b c :
  String.ltb a b = true -> String.ltb b c = true -> String.ltb a c = true.
Proof.
  unfold String.ltb. intros H1 H2.
  destruct (String.compare a b) eqn:E1; try discriminate.
  destruct (String.compare b c) eqn:E2; try discriminate.
  rewrite (string_compare_lt_trans _ _ _ E1 E2). reflexivity.
Qed.

Lemma string_ltb_total a b : a <> b -> String.ltb a b = false -> String.ltb b a = true.
Proof.
  unfold String.ltb. rewrite (String.compare_antisym b a). intros Hne H.
  destruct (String.compare a b) eqn:E; try discriminate; simpl; [|reflexivity].
  apply String.compare_eq_iff in E. contradiction.
Qed.

Lemma key_ltb_trans a b c : key_ltb a b = true -> key_ltb b c = true -> key_ltb a c = true.
Proof.
  destruct a as [d1 s1], b as [d2 s2], c as [d3 s3]. unfold key_ltb. simpl.
  rewrite !orb_true_iff, !andb_true_iff, !Z.ltb_lt, !Z.eqb_eq.
  intros [H1|[H1 H1']] [H2|[H2 H2']]; subst; try (left; lia).
  right. split; [reflexivity|]. exact (string_ltb_trans _ _ _ H1' H2').
Qed.

Lemma key_ltb_total a b : a <> b -> key_ltb a b = false -> key_ltb b a = true.
Proof.
  destruct a as [d1 s1], b as [d2 s2]. unfold key_ltb. simpl. intros Hne H.
  destruct (Z.lt_trichotomy d1 d2) as [Hd|[Hd|Hd]].
  - apply Z.ltb_lt in Hd. rewrite Hd in H. discriminate.
  - subst d2. rewrite Z.ltb_irrefl, Z.eqb_refl in *. simpl in *.
    apply string_ltb_total; [|exact H]. intros ->. apply Hne. reflexivity.
  - apply Z.ltb_lt in Hd. rewrite Hd. reflexivity.
Qed.

Lemma date_basket_ltb_key {A : Type} a b (xs ys : A) :
  date_basket_ltb (a, xs) (b, ys) = key_ltb a b.
Proof. destruct a, b. reflexivity. Qed.

Lemma Z_ltb_trans a b c : (a <? b) = true -> (b <? c) = true -> (a <? c) = true.
Proof. rewrite !Z.ltb_lt. lia. Qed.

Lemma Z_ltb_total a b : a <> b -> (a <? b) = false -> (b <? a) = true.
Proof. rewrite Z.ltb_lt, Z.ltb_ge. lia. Qed.

Lemma dividend_group_rows_numbers j g :
  dividend_group_rows j g <> [] /\ Forall (fun r => journal_number r = j) (dividend_group_rows j g).
Proof.
  destruct g as [d txns]. unfold dividend_group_rows. split.
  - destruct txns; discriminate.
  - apply Forall_app. split; [|repeat constructor].
    apply Forall_forall. intros r Hr. apply in_map_iff in Hr as [t [<- _]]. reflexivity.
Qed.

Lemma purchase_group_rows_numbers c j g :
  purchase_group_rows c j g <> [] /\ Forall (fun r => journal_number r = j) (purchase_group_rows c j g).
Proof.
  destruct g as [[d b] txns]. unfold purchase_group_rows. split.
  - destruct txns; discriminate.
  - apply Forall_app. split; [|repeat constructor].
    apply Forall_forall. intros r Hr. apply in_map_iff in Hr as [t [<- _]]. reflexivity.
Qed.

Lemma sale_group_rows_numbers c j g :
  sale_group_rows c j g <> [] /\ Forall (fun r => journal_number r = j) (sale_group_rows c j g).
Proof.
  destruct g as [[d b] txns]. unfold sale_group_rows. split; [discriminate|].
  constructor; [reflexivity|]. apply Forall_app. split.
  - apply Forall_forall. intros r Hr. apply in_flat_map in Hr as [[s [p q]] [_ Hr]].
    unfold sale_gain_rows in Hr.
    destruct (CENT <=? Z.abs (p - q)); [destruct (p - q <? 0)|];
      simpl in Hr; repeat (destruct Hr as [<-|Hr]; [reflexivity|]); destruct Hr.
  - apply Forall_forall. intros r Hr. apply in_map_iff in Hr as [[s [p q]] [<- _]].
    reflexivity.
Qed.

(** The transactions of one dividend journal: the non-reinvestment income
    settled on date [d]. *)
Definition dividend_txns (l : list Income.t) (d : Z) : list Income.t :=
  filter (fun t => Income.settlement_date t =? d)
    (filter (fun t => negb (Income.is_reinvestment t)) l).

(** The transactions of one purchase journal: the non-money-market
    purchases with key [k]. *)
Definition purchase_txns (l : list Activity.t) (k : Z * string) : list Activity.t :=
  filter (fun t => date_basket_eqb (activity_key t) k) (filter is_purchase l).

(** The transactions of one sale journal: the non-money-market sales with
    key [k]. *)
Definition sale_txns (l : list Activity.t) (k : Z * string) : list Activity.t :=
  filter (fun t => date_basket_eqb (activity_key t) k) (filter is_sale l).

(** [write_dividend_entries]: the non-reinvestment income transactions are
    grouped by settlement date, one journal per distinct date, numbered
    from 10001 in increasing date order; the journal of the [i]-th date
    holds one debit line per transaction of that date and a credit line
    for their total, and no other line carries its number. *)
Theorem write_dividend_entries_journals st l rows
  (Hl : income st = Some l) (Hw : write_dividend_entries st = Some rows) :
  exists dates, NoDup dates /\ StronglySorted Z.lt dates
  /\ (forall d, In d dates <-> exists t, In t l /\ Income.is_reinvestment t = false
                                    /\ Income.settlement_date t = d)
  /\ rows = numbered (fun jn d => dividend_group_rows jn (d, dividend_txns l d)) 10001 dates
  /\ (forall i d, nth_error dates i = Some d ->
        filter (fun r => journal_number r =? 10001 + Z.of_nat i) rows
        = dividend_group_rows (10001 + Z.of_nat i) (d, dividend_txns l d))
  /\ (forall r, In r rows -> 10001 <= journal_number r < 10001 + Z.of_nat (List.length dates))
  /\ (forall j, 10001 <= j < 10001 + Z.of_nat (List.length dates) ->
        exists r, In r rows /\ journal_number r = j).
Proof.
  unfold write_dividend_entries in Hw. rewrite Hl in Hw.
  set (nr := filter (fun t => negb (Income.is_reinvestment t)) l) in Hw.
  destruct (grouped_journals Z.eqb Income.settlement_date Z.eqb_eq Z.ltb fst_Z_ltb
              (fun _ _ _ _ => eq_refl) Z_ltb_trans Z_ltb_total
              dividend_group_rows dividend_group_rows_numbers 10001 nr)
    as [dates [Hnd [Hs [Hk [Heq [Hj [Hr Hc]]]]]]].
  assert (Hrows : rows = numbered dividend_group_rows 10001
                           (sort fst_Z_ltb (group_by Z.eqb Income.settlement_date nr)))
    by (destruct (group_by Z.eqb Income.settlement_date nr); [discriminate|injection Hw as <-; reflexivity]).
  subst rows. exists dates.
  split; [exact Hnd|].
  split; [exact (ssorted_impl _ _ _ (fun a b H => proj1 (Z.ltb_lt a b) H) Hs)|].
  split.
  { intro d. rewrite Hk. split; intros [t [Ht Hd]]; exists t.
    - apply filter_In in Ht as [Ht Hn]. apply negb_true_iff in Hn. auto.
    - destruct Hd as [Hn Hd]. split; [apply filter_In; split; [exact Ht|]|exact Hd].
      rewrite Hn. reflexivity. }
  split; [exact Heq|]. split; [exact Hj|]. split; [exact Hr|exact Hc].
Qed.

(** [write_purchase_entries]: the non-money-market [Bought] transactions
    are grouped by (settlement date, basket), one journal per distinct key,
    numbered from 20001 in increasing key order; the journal of the [i]-th
    key holds one debit line per purchase with that key and a credit line
    for their total, and no other line carries its number. *)
Theorem write_purchase_entries_journals st l rows
  (Hl : activity st = Some l) (Hw : write_purchase_entries st = Some rows) :
  exists keys, NoDup keys /\ StronglySorted (fun a b => key_ltb a b = true) keys
  /\ (forall k, In k keys <-> exists t, In t l /\ is_purchase t = true /\ activity_key t = k)
  /\ rows = numbered (fun jn k => purchase_group_rows (chart st) jn (k, purchase_txns l k)) 20001 keys
  /\ (forall i k, nth_error keys i = Some k ->
        filter (fun r => journal_number r =? 20001 + Z.of_nat i) rows
        = purchase_group_rows (chart st) (20001 + Z.of_nat i) (k, purchase_txns l k))
  /\ (forall r, In r rows -> 20001 <= journal_number r < 20001 + Z.of_nat (List.length keys))
  /\ (forall j, 20001 <= j < 20001 + Z.of_nat (List.length keys) ->
        exists r, In r rows /\ journal_number r = j).
Proof.
  unfold write_purchase_entries in Hw. rewrite Hl in Hw.
  destruct (grouped_journals date_basket_eqb activity_key date_basket_eqb_spec key_ltb date_basket_ltb
              date_basket_ltb_key key_ltb_trans key_ltb_total
              (purchase_group_rows (chart st)) (purchase_group_rows_numbers (chart st))
              20001 (filter is_purchase l))
    as [keys [Hnd [Hs [Hk [Heq [Hj [Hr Hc]]]]]]].
  assert (Hrows : rows = numbered (purchase_group_rows (chart st)) 20001
                    (sort date_basket_ltb (group_by date_basket_eqb activity_key (filter is_purchase l))))
    by (destruct (group_by date_basket_eqb activity_key (filter is_purchase l));
        [discriminate|injection Hw as <-; reflexivity]).
  subst rows. exists keys.
  split; [exact Hnd|]. split; [exact Hs|].
  split.
  { intro k. rewrite Hk. split; intros [t [Ht Hd]]; exists t.
    - apply filter_In in Ht as [Ht Hn]. auto.
    - destruct Hd as [Hn Hd]. split; [apply filter_In; split; assumption|exact Hd]. }
  split; [exact Heq|]. split; [exact Hj|]. split; [exact Hr|exact Hc].
Qed.

(** [write_sale_entries]: the non-money-market [Sold] transactions are
    grouped by (settlement date, basket), one journal per distinct key,
    numbered from 30001 in increasing key order; the journal of the [i]-th
    key is the block built from the sales with that key, and no other line
    carries its number. *)
Theorem write_sale_entries_journals st l rows
  (Hl : activity st = Some l) (Hw : write_sale_entries st = Some rows) :
  exists keys, NoDup keys /\ StronglySorted (fun a b => key_ltb a b = true) keys
  /\ (forall k, In k keys <-> exists t, In t l /\ is_sale t = true /\ activity_key t = k)
  /\ rows = numbered (fun jn k => sale_group_rows (chart st) jn (k, sale_txns l k)) 30001 keys
  /\ (forall i k, nth_error keys i = Some k ->
        filter (fun r => journal_number r =? 30001 + Z.of_nat i) rows
        = sale_group_rows (chart st) (30001 + Z.of_nat i) (k, sale_txns l k))
  /\ (forall r, In r rows -> 30001 <= journal_number r < 30001 + Z.of_nat (List.length keys))
  /\ (forall j, 30001 <= j < 30001 + Z.of_nat (List.length keys) ->
        exists r, In r rows /\ journal_number r = j).
Proof.
  unfold write_sale_entries in Hw. rewrite Hl in Hw.
  destruct (grouped_journals date_basket_eqb activity_key date_basket_eqb_spec key_ltb date_basket_ltb
              date_basket_ltb_key key_ltb_trans key_ltb_total
              (sale_group_rows (chart st)) (sale_group_rows_numbers (chart st))
              30001 (filter is_sale l))
    as [keys [Hnd [Hs [Hk [Heq [Hj [Hr Hc]]]]]]].
  assert (Hrows : rows = numbered (sale_group_rows (chart st)) 30001
                    (sort date_basket_ltb (group_by date_basket_eqb activity_key (filter is_sale l))))
    by (destruct (group_by date_basket_eqb activity_key (filter is_sale l));
        [discriminate|injection Hw as <-; reflexivity]).
  subst rows. exists keys.
  split; [exact Hnd|]. split; [exact Hs|].
  split.
  { intro k. rewrite Hk. split; intros [t [Ht Hd]]; exists t.
    - apply filter_In in Ht as [Ht Hn]. auto.
    - destruct Hd as [Hn Hd]. split; [apply filter_In; split; assumption|exact Hd]. }
  split; [exact Heq|]. split; [exact Hj|]. split; [exact Hr|exact Hc].
Qed.

(** A June with dividends on two dates and purchases and sales on two
    (date, basket) keys each. *)
Definition june_income : list Income.t :=
  [Income.mk 20250615 "ABC" "Dividend Received" (dollars 50);
   Income.mk 20250620 "XYZ" "Dividend Received" (dollars 30);
   Income.mk 20250615 "DEF" "Dividend Received" (dollars 20);
   Income.mk 20250615 "ABC" "Reinvestment" (dollars 50)].

Definition june_activity : list Activity.t :=
  [Activity.mk 20250611 "YOU Bought" "QYLD" (dollars 300) (Some "10003"%string) None;
   Activity.mk 20250610 "YOU Bought" "JEPI" (dollars 200) None None;
   Activity.mk 20250611 "YOU Bought" "XYLD" (dollars 100) (Some "10003"%string) None;
   Activity.mk 20250612 "YOU Bought" "SPAXX" (dollars 10) None None;
   Activity.mk 20250613 "YOU Sold" "AWK" (dollars 400) (Some "10001"%string) (Some (dollars 350));
   Activity.mk 20250612 "YOU Sold" "JEPI" (dollars 150) (Some "10003"%string) (Some (dollars 160));
   Activity.mk 20250612 "YOU Sold" "QYLD" (dollars 90) (Some "10003"%string) None].

Definition june_statement : Statement :=
  mkStatement None (Some june_income) (Some june_activity) None None [].

Lemma write_dividend_entries_journals_witness :
  exists rows, write_dividend_entries june_statement = Some rows
  /\ exists dates, NoDup dates /\ StronglySorted Z.lt dates
  /\ (forall d, In d dates <-> exists t, In t june_income /\ Income.is_reinvestment t = false
                                    /\ Income.settlement_date t = d)
  /\ rows = numbered (fun jn d => dividend_group_rows jn (d, dividend_txns june_income d)) 10001 dates.
Proof.
  eexists. split; [reflexivity|].
  destruct (write_dividend_entries_journals june_statement june_income _ eq_refl eq_refl)
    as [dates [Hnd [Hs [Hk [Heq _]]]]].
  exists dates. split; [exact Hnd|]. split; [exact Hs|]. split; [exact Hk|exact Heq].
Defined.

Lemma write_purchase_entries_journals_witness :
  exists rows, write_purchase_entries june_statement = Some rows
  /\ exists keys, NoDup keys /\ StronglySorted (fun a b => key_ltb a b = true) keys
  /\ rows = numbered (fun jn k => purchase_group_rows [] jn (k, purchase_txns june_activity k))
             20001 keys.
Proof.
  eexists. split; [reflexivity|].
  destruct (write_purchase_entries_journals june_statement june_activity _ eq_refl eq_refl)
    as [keys [Hnd [Hs [_ [Heq _]]]]].
  exists keys. split; [exact Hnd|]. split; [exact Hs|exact Heq].
Defined.

Lemma write_sale_entries_journals_witness :
  exists rows, write_sale_entries june_statement = Some rows
  /\ exists keys, NoDup keys /\ StronglySorted (fun a b => key_ltb a b = true) keys
  /\ rows = numbered (fun jn k => sale_group_rows [] jn (k, sale_txns june_activity k))
             30001 keys.
Proof.
  eexists. split; [reflexivity|].
  destruct (write_sale_entries_journals june_statement june_activity _ eq_refl eq_refl)
    as [keys [Hnd [Hs [_ [Heq _]]]]].
  exists keys. split; [exact Hnd|]. split; [exact Hs|exact Heq].
Defined.

Lemma group_match_none {K A B : Type} (gs : list (K * list A)) (v : B) :
  match gs with [] => None | _ => Some v end = None <-> gs = [].
Proof. destruct gs; split; intro H; congruence. Qed.

(** [write_dividend_entries], [write_purchase_entries] and
    [write_sale_entries] return [None] exactly when their data set is not
    loaded or has no transaction of their kind (a non-reinvestment income,
    a non-money-market [Bought] or [Sold] activity). *)
Theorem entry_blocks_none st :
  (write_dividend_entries st = None
   <-> match income st with
       | None => True
       | Some l => Forall (fun t => Income.is_reinvestment t = true) l
       end)
  /\ (write_purchase_entries st = None
      <-> match activity st with None => True | Some l => Forall (fun t => is_purchase t = false) l end)
  /\ (write_sale_entries st = None
      <-> match activity st with None => True | Some l => Forall (fun t => is_sale t = false) l end).
Proof.
  unfold write_dividend_entries, write_purchase_entries, write_sale_entries.
  split; [|split].
  - destruct (income st) as [l|]; [|split; auto]. cbv zeta.
    rewrite group_match_none, group_by_nil, filter_nil_Forall.
    split; apply Forall_impl; intros t; rewrite ?negb_false_iff; auto.
  - destruct (activity st) as [l|]; [|split; auto]. cbv zeta.
    rewrite group_match_none, group_by_nil, filter_nil_Forall. reflexivity.
  - destruct (activity st) as [l|]; [|split; auto]. cbv zeta.
    rewrite group_match_none, group_by_nil, filter_nil_Forall. reflexivity.
Qed.

Lemma entry_blocks_none_witness :
  write_dividend_entries empty_statement = None
  /\ write_purchase_entries empty_statement = None
  /\ write_sale_entries empty_statement = None.
Proof.
  destruct (entry_blocks_none empty_statement) as [Hd [Hp Hs]].
  split; [apply Hd; exact I|]. split; [apply Hp; exact I|apply Hs; exact I].
Defined.

Ltac cents_ok := unfold whole_cents; apply Z.mod_divide; [unfold CENT; lia|reflexivity].

Definition has_debit (r : Row) : bool := match debit r with Some _ => true | None => false end.

(** The dividend block debits cash once per non-reinvestment income
    transaction, with that transaction's amount. *)
Theorem write_dividend_entries_debits st l rows
  (Hl : income st = Some l) (Hw : write_dividend_entries st = Some rows) :
  Permutation (map (fun r => (account r, debit r)) (filter has_debit rows))
    (map (fun t => (CASH_ACCOUNT, Some (round_cents (Income.amount t))))
       (filter (fun t => negb (Income.is_reinvestment t)) l)).
Proof.
  unfold write_dividend_entries in Hw. rewrite Hl in Hw.
  set (g := group_by _ _ _) in *.
  assert (Hr : rows = numbered dividend_group_rows 10001 (sort fst_Z_ltb g))
    by (destruct g; [discriminate|injection Hw as <-; reflexivity]).
  subst rows.
  rewrite (numbered_filter_map _ _ _
             (fun g => map (fun t => (CASH_ACCOUNT, Some (round_cents (Income.amount t)))) (snd g))).
  - rewrite flat_map_map_snd. apply Permutation_map.
    eapply perm_trans; [apply perm_flat_map, sort_perm|]. apply group_by_perm.
  - intros j [d txns] _. unfold dividend_group_rows. rewrite filter_app, map_app. simpl. rewrite app_nil_r.
    induction txns as [|t txns IH]; [reflexivity|]. simpl. f_equal. exact IH.
Qed.

Lemma write_dividend_entries_debits_witness :
  exists rows, write_dividend_entries may_statement = Some rows
  /\ Permutation (map (fun r => (account r, debit r)) (filter has_debit rows))
       [(CASH_ACCOUNT, Some 5000)].
Proof.
  eexists. split; [reflexivity|].
  exact (write_dividend_entries_debits may_statement
           [Income.mk 20250515 "ABC" "Dividend Received" (dollars 50)] _ eq_refl eq_refl).
Defined.

(** The purchase block debits, once per non-money-market [Bought]
    transaction, that transaction's amount to its security account. *)
Theorem write_purchase_entries_debits st l rows
  (Hl : activity st = Some l) (Hw : write_purchase_entries st = Some rows) :
  Permutation (map (fun r => (account r, debit r)) (filter has_debit rows))
    (map (fun t => (chart_lookup (chart st) (Activity.symbol t), Some (round_cents (Activity.amount t))))
       (filter is_purchase l)).
Proof.
  unfold write_purchase_entries in Hw. rewrite Hl in Hw.
  set (g := group_by _ _ _) in *.
  assert (Hr : rows = numbered (purchase_group_rows (chart st)) 20001 (sort date_basket_ltb g))
    by (destruct g; [discriminate|injection Hw as <-; reflexivity]).
  subst rows.
  rewrite (numbered_filter_map _ _ _
             (fun g => map (fun t => (chart_lookup (chart st) (Activity.symbol t),
                                      Some (round_cents (Activity.amount t)))) (snd g))).
  - rewrite flat_map_map_snd. apply Permutation_map.
    eapply perm_trans; [apply perm_flat_map, sort_perm|]. apply group_by_perm.
  - intros j [[d b] txns] _. unfold purchase_group_rows. rewrite filter_app, map_app. simpl. rewrite app_nil_r.
    induction txns as [|t txns IH]; [reflexivity|]. simpl. f_equal. exact IH.
Qed.

Lemma write_purchase_entries_debits_witness :
  exists rows, write_purchase_entries may_statement = Some rows
  /\ Permutation (map (fun r => (account r, debit r)) (filter has_debit rows))
       [("JEPI"%string, Some 5000)].
Proof.
  eexists. split; [reflexivity|].
  exact (write_purchase_entries_debits may_statement may_activity _ eq_refl eq_refl).
Defined.

(** In whole cents, the dividend block debits cash and credits dividend
    income by exactly [Income.amount]. *)
Theorem write_dividend_entries_total st l rows
  (Hl : income st = Some l) (Hc : Forall (fun t => whole_cents (Income.amount t)) l)
  (Hw : write_dividend_entries st = Some rows) :
  CENT * total_debit rows = income_amount l /\ CENT * total_credit rows = income_amount l.
Proof.
  unfold write_dividend_entries in Hw. rewrite Hl in Hw.
  set (nr := filter (fun t => negb (Income.is_reinvestment t)) l) in *.
  assert (Hnr : Forall (fun t => whole_cents (Income.amount t)) nr)
    by (apply Forall_forall; intros t Ht; apply filter_In in Ht as [Ht _];
        rewrite Forall_forall in Hc; exact (Hc t Ht)).
  set (g := group_by _ _ nr) in *.
  assert (Hr : rows = numbered dividend_group_rows 10001 (sort fst_Z_ltb g))
    by (destruct g; [discriminate|injection Hw as <-; reflexivity]).
  subst rows.
  assert (Hp : Permutation (flat_map snd (sort fst_Z_ltb g)) nr)
    by (eapply perm_trans; [apply perm_flat_map, sort_perm|]; apply group_by_perm).
  unfold income_amount. fold nr.
  rewrite <- (sum_Z_perm _ _ (Permutation_map Income.amount Hp)).
  split.
  - rewrite (total_debit_numbered _
               (fun g => sum_Z (map (fun t => round_cents (Income.amount t)) (snd g)))).
    + rewrite sum_Z_flat_map_snd. apply cents_sum_round.
      eapply Permutation_Forall; [symmetry; exact Hp|exact Hnr].
    + intros j [d txns] _. unfold dividend_group_rows. simpl.
      rewrite total_debit_app. unfold total_debit at 2. simpl.
      induction txns as [|t txns IH]; [reflexivity|]. simpl.
      rewrite total_debit_cons. simpl. unfold sum_Z in *. simpl. lia.
  - rewrite (total_credit_numbered _
               (fun g => round_cents (sum_Z (map Income.amount (snd g))))).
    + rewrite <- sum_Z_flat_map_snd.
      assert (Hg : Forall (fun g => whole_cents (sum_Z (map Income.amount (snd g))))
                          (sort fst_Z_ltb g)).
      { apply Forall_forall. intros x Hx. apply whole_cents_sum.
        apply Forall_map. exact (group_members _ _ _ _ _ _ Hnr Hx). }
      exact (cents_sum_round _ _ Hg).
    + intros j [d txns] _. unfold dividend_group_rows. simpl.
      rewrite total_credit_app. unfold total_credit at 2. simpl.
      replace (total_credit (map _ txns)) with 0
        by (induction txns; [reflexivity|]; simpl; rewrite total_credit_cons; simpl; lia).
      unfold sum_Z at 1. simpl. rewrite Z.add_0_r. reflexivity.
Qed.

Lemma write_dividend_entries_total_witness :
  exists rows, write_dividend_entries may_statement = Some rows
  /\ CENT * total_debit rows = dollars 50 /\ CENT * total_credit rows = dollars 50.
Proof.
  eexists. split; [reflexivity|].
  exact (write_dividend_entries_total may_statement
           [Income.mk 20250515 "ABC" "Dividend Received" (dollars 50)] _ eq_refl
           ltac:(repeat apply Forall_cons; try apply Forall_nil; cents_ok) eq_refl).
Defined.

(** In whole cents, the purchase block debits the security accounts and
    credits cash by exactly the total of the non-money-market purchases. *)
Theorem write_purchase_entries_total st l rows
  (Hl : activity st = Some l) (Hc : Forall (fun t => whole_cents (Activity.amount t)) l)
  (Hw : write_purchase_entries st = Some rows) :
  CENT * total_debit rows = sum_Z (map Activity.amount (filter is_purchase l))
  /\ CENT * total_credit rows = sum_Z (map Activity.amount (filter is_purchase l)).
Proof.
  unfold write_purchase_entries in Hw. rewrite Hl in Hw.
  set (nr := filter is_purchase l) in *.
  assert (Hnr : Forall (fun t => whole_cents (Activity.amount t)) nr)
    by (apply Forall_forall; intros t Ht; apply filter_In in Ht as [Ht _];
        rewrite Forall_forall in Hc; exact (Hc t Ht)).
  set (g := group_by _ _ nr) in *.
  assert (Hr : rows = numbered (purchase_group_rows (chart st)) 20001 (sort date_basket_ltb g))
    by (destruct g; [discriminate|injection Hw as <-; reflexivity]).
  subst rows.
  assert (Hp : Permutation (flat_map snd (sort date_basket_ltb g)) nr)
    by (eapply perm_trans; [apply perm_flat_map, sort_perm|]; apply group_by_perm).
  rewrite <- (sum_Z_perm _ _ (Permutation_map Activity.amount Hp)).
  split.
  - rewrite (total_debit_numbered _
               (fun g => sum_Z (map (fun t => round_cents (Activity.amount t)) (snd g)))).
    + rewrite sum_Z_flat_map_snd. apply cents_sum_round.
      eapply Permutation_Forall; [symmetry; exact Hp|exact Hnr].
    + intros j [[d b] txns] _. unfold purchase_group_rows. simpl.
      rewrite total_debit_app. unfold total_debit at 2. simpl.
      induction txns as [|t txns IH]; [reflexivity|]. simpl.
      rewrite total_debit_cons. simpl. unfold sum_Z in *. simpl. lia.
  - rewrite (total_credit_numbered _
               (fun g => round_cents (sum_Z (map Activity.amount (snd g))))).
    + rewrite <- sum_Z_flat_map_snd.
      assert (Hg : Forall (fun g => whole_cents (sum_Z (map Activity.amount (snd g))))
                          (sort date_basket_ltb g)).
      { apply Forall_forall. intros x Hx. apply whole_cents_sum.
        apply Forall_map. exact (group_members _ _ _ _ _ _ Hnr Hx). }
      exact (cents_sum_round _ _ Hg).
    + intros j [[d b] txns] _. unfold purchase_group_rows. simpl.
      rewrite total_credit_app. unfold total_credit at 2. simpl.
      replace (total_credit (map _ txns)) with 0
        by (induction txns; [reflexivity|]; simpl; rewrite total_credit_cons; simpl; lia).
      unfold sum_Z at 1. simpl. rewrite Z.add_0_r. reflexivity.
Qed.

Lemma write_purchase_entries_total_witness :
  exists rows, write_purchase_entries may_statement = Some rows
  /\ CENT * total_debit rows = dollars 50 /\ CENT * total_credit rows = dollars 50.
Proof.
  eexists. split; [reflexivity|].
  exact (write_purchase_entries_total may_statement may_activity _ eq_refl
           ltac:(repeat apply Forall_cons; try apply Forall_nil; cents_ok) eq_refl).
Defined.

Lemma round_cents_material x : CENT <= Z.abs x -> 1 <= Z.abs (round_cents x).
Proof.
  intro H. unfold round_cents.
  assert (Hd := Z.div_mod x CENT ltac:(unfold CENT; lia)).
  assert (Hm := Z.mod_pos_bound x CENT ltac:(unfold CENT; lia)).
  set (q := x / CENT) in *. set (r := x mod CENT) in *. unfold CENT in *.
  destruct (r * 2 <? 10000) eqn:E1; [apply Z.ltb_lt in E1; lia|apply Z.ltb_ge in E1].
  destruct (10000 <? r * 2) eqn:E2; [apply Z.ltb_lt in E2; lia|apply Z.ltb_ge in E2].
  destruct (Z.even q); lia.
Qed.

(** A row that carries exactly one amount, and that amount is positive. *)
Definition one_amount (r : Row) : Prop :=
  (exists a, 0 < a /\ debit r = Some a /\ credit r = None)
  \/ (exists a, 0 < a /\ debit r = None /\ credit r = Some a).

Definition material (e : string * Z) : bool := CENT <=? Z.abs (snd e).

Lemma unrealized_rows_shape pe jn info totals rows :
  unrealized_rows pe jn info totals = Ok rows ->
  List.length rows = (2 * List.length (filter material totals))%nat
  /\ (forall r, In r rows ->
        jn <= journal_number r < jn + Z.of_nat (List.length (filter material totals))
        /\ one_amount r)
  /\ (forall j, jn <= j < jn + Z.of_nat (List.length (filter material totals)) ->
        exists r, In r rows /\ journal_number r = j).
Proof.
  revert jn rows. induction totals as [|[b change] rest IH]; intros jn rows H; simpl in H.
  - injection H as <-. simpl. split; [reflexivity|]. split; [intros r []|intros j Hj; lia].
  - change (filter material ((b, change) :: rest)) with
      (if CENT <=? Z.abs change then (b, change) :: filter material rest else filter material rest).
    destruct (Z.abs change <? CENT) eqn:Ec.
    + apply Z.ltb_lt in Ec. replace (CENT <=? Z.abs change) with false
        by (symmetry; apply Z.leb_gt; exact Ec).
      exact (IH _ _ H).
    + apply Z.ltb_ge in Ec. replace (CENT <=? Z.abs change) with true
        by (symmetry; apply Z.leb_le; exact Ec).
      destruct (str_lookup b info) as [bk|]; [|discriminate].
      destruct (unrealized_rows pe (jn + 1) info rest) as [rr|e] eqn:Er; simpl in H; [|discriminate].
      injection H as <-. destruct (IH _ _ Er) as [Hlen [Hin Hcov]].
      assert (Ha : 0 < Z.abs (round_cents change)) by (pose proof (round_cents_material _ Ec); lia).
      simpl List.length.
      split; [|split].
      * destruct (0 <? change); simpl; rewrite Hlen; lia.
      * intros r Hr. apply in_app_or in Hr as [Hr|Hr].
        -- destruct (0 <? change); simpl in Hr; destruct Hr as [<-|[<-|[]]];
             (split; [simpl; lia|]);
             solve [left; eexists; split; [exact Ha|split; reflexivity]
                   |right; eexists; split; [exact Ha|split; reflexivity]].
        -- destruct (Hin r Hr) as [Hj Ho]. split; [lia|exact Ho].
      * intros j Hj. destruct (Z.eq_dec j jn) as [->|Hne].
        -- destruct (0 <? change); (eexists; split; [apply in_or_app; left; left; reflexivity|reflexivity]).
        -- destruct (Hcov j) as [r [Hr Hrj]]; [lia|].
           exists r. split; [apply in_or_app; right; exact Hr|exact Hrj].
Qed.

Lemma perm_filter {A : Type} (f : A -> bool) l1 l2 :
  Permutation l1 l2 -> Permutation (filter f l1) (filter f l2).
Proof.
  induction 1; simpl.
  - constructor.
  - destruct (f x); [apply perm_skip|]; assumption.
  - destruct (f x), (f y); try constructor; apply Permutation_refl.
  - eapply perm_trans; eassumption.
Qed.

(** The pair of rows of one material basket, as the emission loop builds it. *)
Definition unrealized_pair (period_end jn : Z) (bk : Basket) (change : Z) : list Row :=
  let amount := Z.abs (round_cents change) in
  if 0 <? change then
    [mkRow period_end jn (fmv_account bk) (Some amount) None;
     mkRow period_end jn (unrealized_account bk) None (Some amount)]
  else
    [mkRow period_end jn (unrealized_account bk) (Some amount) None;
     mkRow period_end jn (fmv_account bk) None (Some amount)].

(** The baskets the emission loop writes, in [sorted(basket_totals.keys())]
    order: those whose net change is at least 0.01 in absolute value. *)
Definition material_totals (st : Statement) (hs : list Holding.t) : list (string * Z) :=
  filter material (sort sym_ltb (basket_totals (unrealized_deltas st hs))).

Lemma unrealized_rows_numbered pe jn info totals rows :
  unrealized_rows pe jn info totals = Ok rows ->
  (forall b x, In (b, x) (filter material totals) -> exists bk, str_lookup b info = Some bk)
  /\ rows = numbered (fun j e => match str_lookup (fst e) info with
                                 | Some bk => unrealized_pair pe j bk (snd e)
                                 | None => []
                                 end) jn (filter material totals).
Proof.
  revert jn rows. induction totals as [|[b change] rest IH]; intros jn rows H; simpl in H.
  - injection H as <-. split; [intros b x []|reflexivity].
  - change (filter material ((b, change) :: rest)) with
      (if CENT <=? Z.abs change then (b, change) :: filter material rest else filter material rest).
    destruct (Z.abs change <? CENT) eqn:Ec.
    + replace (CENT <=? Z.abs change) with false
        by (symmetry; apply Z.leb_gt, Z.ltb_lt, Ec).
      exact (IH _ _ H).
    + replace (CENT <=? Z.abs change) with true
        by (symmetry; apply Z.leb_le, Z.ltb_ge, Ec).
      destruct (str_lookup b info) as [bk|] eqn:Eb; [|discriminate].
      destruct (unrealized_rows pe (jn + 1) info rest) as [rr|e] eqn:Er; simpl in H; [|discriminate].
      injection H as <-. destruct (IH _ _ Er) as [Hk Hr]. split.
      * intros b' x [Heq|Hin]; [injection Heq as <- <-; exists bk; exact Eb|exact (Hk _ _ Hin)].
      * simpl. rewrite Eb, Hr. reflexivity.
Qed.

Lemma str_lookup_some_In {A : Type} (k : string) (v : A) d :
  str_lookup k d = Some v -> In (k, v) d.
Proof.
  induction d as [|[k' v'] d IH]; [discriminate|].
  rewrite str_lookup_cons. destruct (String.eqb_spec k' k) as [->|]; intro H.
  - injection H as ->. left. reflexivity.
  - right. apply IH, H.
Qed.

Lemma nodup_map_filter {A B : Type} (g : A -> B) (f : A -> bool) l :
  NoDup (map g l) -> NoDup (map g (filter f l)).
Proof.
  induction l as [|x l IH]; simpl; intro Hnd; [constructor|].
  inversion Hnd as [|? ? Hx Hnd']; subst.
  destruct (f x); simpl; [constructor|]; try apply IH, Hnd'.
  intro H. apply Hx. apply in_map_iff in H as [y [Hy Hin]].
  apply filter_In in Hin as [Hin _]. rewrite <- Hy. apply in_map, Hin.
Qed.

Lemma ssorted_map_filter {A B : Type} (R : B -> B -> Prop) (g : A -> B) (f : A -> bool) l :
  StronglySorted R (map g l) -> StronglySorted R (map g (filter f l)).
Proof.
  induction l as [|x l IH]; simpl; intro Hs; [constructor|].
  inversion Hs as [|? ? Hs' Hx]; subst.
  destruct (f x); simpl; [constructor|]; try apply IH, Hs'.
  apply Forall_forall. intros b Hb. apply in_map_iff in Hb as [y [<- Hin]].
  apply filter_In in Hin as [Hin _]. rewrite Forall_forall in Hx. apply Hx, in_map, Hin.
Qed.

Lemma basket_totals_keys ds : NoDup (map fst (basket_totals ds)).
Proof. rewrite basket_totals_as_fold. apply dict_fold_keys. constructor. Qed.

(** The unrealized block writes one journal per basket whose net change is
    at least 0.01 in absolute value, in increasing basket id order from
    40001: journal [40001 + i] is the pair of rows of the [i]-th such
    basket, debit to its fair-market-value account and credit to its
    unrealized account for a gain, the reverse for a loss, both for the
    rounded absolute change, on the period end date.  The other baskets get
    no rows, and each row carries one positive amount. *)
Theorem write_unrealized_entries_journals st hs s rows
  (Hh : holdings st = Some hs) (Hs : summary st = Some s)
  (Hw : write_unrealized_entries st = Ok (Some rows)) :
  NoDup (map fst (material_totals st hs))
  /\ StronglySorted (fun a b => String.ltb a b = true) (map fst (material_totals st hs))
  /\ (forall b x, In (b, x) (material_totals st hs) <->
        str_lookup b (basket_totals (unrealized_deltas st hs)) = Some x /\ CENT <= Z.abs x)
  /\ (forall i b x, nth_error (material_totals st hs) i = Some (b, x) ->
        exists bk, str_lookup b (basket_info st hs) = Some bk
        /\ filter (fun r => journal_number r =? 40001 + Z.of_nat i) rows
           = unrealized_pair (Summary.period_end s) (40001 + Z.of_nat i) bk x)
  /\ List.length rows = (2 * List.length (material_totals st hs))%nat
  /\ (forall r, In r rows ->
        40001 <= journal_number r < 40001 + Z.of_nat (List.length (material_totals st hs))
        /\ one_amount r)
  /\ (forall j, 40001 <= j < 40001 + Z.of_nat (List.length (material_totals st hs)) ->
        exists r, In r rows /\ journal_number r = j).
Proof.
  assert (Hr : unrealized_rows (Summary.period_end s) 40001 (basket_info st hs)
                 (sort sym_ltb (basket_totals (unrealized_deltas st hs))) = Ok rows).
  { unfold write_unrealized_entries in Hw. rewrite Hh, Hs in Hw. cbv zeta in Hw.
    destruct (unrealized_deltas st hs) as [|d ds]; [discriminate|].
    destruct (unrealized_rows _ _ _ _) as [rr|e] eqn:Er; simpl in Hw; [|discriminate].
    injection Hw as <-. reflexivity. }
  destruct (unrealized_rows_numbered _ _ _ _ _ Hr) as [Hinfo Hrows].
  destruct (unrealized_rows_shape _ _ _ _ _ Hr) as [Hlen [Hrange Hcov]].
  set (T := basket_totals (unrealized_deltas st hs)) in *.
  change (filter material (sort sym_ltb T)) with (material_totals st hs) in *.
  assert (Hnd := basket_totals_keys (unrealized_deltas st hs)). fold T in Hnd.
  assert (Hp := sort_perm sym_ltb T).
  set (h := fun k => match str_lookup k T with Some v => v | None => 0 end).
  assert (HT : T = map (fun k => (k, h k)) (map fst T)).
  { apply pairs_as_map. intros k v Hin. unfold h. rewrite (str_lookup_In k v T Hnd Hin). reflexivity. }
  assert (Hsort : sort sym_ltb T = map (fun k => (k, h k)) (sort String.ltb (map fst T))).
  { rewrite HT at 1. apply sort_map. intros a b. reflexivity. }
  split; [|split; [|split; [|split; [|split]]]].
  - apply nodup_map_filter. eapply Permutation_NoDup; [|exact Hnd].
    apply Permutation_map, Permutation_sym, Hp.
  - unfold material_totals. fold T. apply ssorted_map_filter. rewrite Hsort, map_map. simpl.
    rewrite map_id. apply sort_sorted; [exact string_ltb_trans|exact string_ltb_total|exact Hnd].
  - intros b x. unfold material_totals. fold T. rewrite filter_In. unfold material. simpl.
    rewrite Z.leb_le. split.
    + intros [Hin Hx]. split; [|exact Hx]. apply (str_lookup_In b x T Hnd).
      exact (Permutation_in _ Hp Hin).
    + intros [Hl Hx]. split; [|exact Hx]. apply (Permutation_in _ (Permutation_sym Hp)).
      apply str_lookup_some_In, Hl.
  - intros i b x Hi. destruct (Hinfo b x (nth_error_In _ _ Hi)) as [bk Hbk].
    exists bk. split; [exact Hbk|]. rewrite Hrows.
    rewrite (numbered_journal _ _ _ i (b, x)); [simpl; rewrite Hbk; reflexivity| |exact Hi].
    intros j [b' x']. simpl. destruct (str_lookup b' (basket_info st hs)); [|constructor].
    unfold unrealized_pair. destruct (0 <? x'); repeat constructor.
  - exact Hlen.
  - split; [exact Hrange|exact Hcov].
Qed.

(** A June whose three baskets move by +100.00, -50.00 and +0.005. *)
Definition june_holdings : list Holding.t :=
  [Holding.mk "JEPI" (Some (dollars 900)) (dollars 1000) (Some (dollars 800));
   Holding.mk "AWK" (Some (dollars 500)) (dollars 450) (Some (dollars 400));
   Holding.mk "APO" (Some (dollars 100)) (dollars 100 + 5000) (Some (dollars 90))].

Definition june_unrealized_statement : Statement :=
  mkStatement (Some june_holdings) None None
    (Some (Summary.mk 20250601 20250630 0 0 0 0 0 0 0 0 0 0 0 0)) None [].

Lemma write_unrealized_entries_journals_witness :
  exists rows, write_unrealized_entries june_unrealized_statement = Ok (Some rows)
  /\ material_totals june_unrealized_statement june_holdings
     = [("10001"%string, - dollars 50); ("10003"%string, dollars 100)]
  /\ filter (fun r => journal_number r =? 40002) rows
     = unrealized_pair 20250630 40002 BUY_WRITE (dollars 100).
Proof.
  eexists. split; [reflexivity|].
  assert (Hm : material_totals june_unrealized_statement june_holdings
               = [("10001"%string, - dollars 50); ("10003"%string, dollars 100)])
    by (vm_compute; reflexivity).
  split; [exact Hm|].
  destruct (write_unrealized_entries_journals june_unrealized_statement june_holdings _ _
              eq_refl eq_refl eq_refl) as [_ [_ [_ [Hj _]]]].
  destruct (Hj 1%nat "10003"%string (dollars 100)) as [bk [Hbk Hf]]; [rewrite Hm; reflexivity|].
  replace (str_lookup "10003" (basket_info june_unrealized_statement june_holdings))
    with (Some BUY_WRITE) in Hbk by (vm_compute; reflexivity).
  injection Hbk as <-. exact Hf.
Defined.

(* ------------------------------------------------------------------ *)
(** ** Loading the scrape files, the chart of accounts and the prior holdings *)


Lemma bind_no_fnf {A B : Type} (m : result A) (k : A -> result B) :
  m <> Raise FileNotFoundError -> (forall x, k x <> Raise FileNotFoundError) ->
  bind m k <> Raise FileNotFoundError.
Proof. destruct m as [a|e]; simpl; [auto|]. intros H _ E. apply H. injection E as ->. reflexivity. Qed.

Lemma field_no_fnf row k : field row k <> Raise FileNotFoundError.
Proof. unfold field. destruct (str_lookup k row); discriminate. Qed.

Lemma float_of_no_fnf s : float_of s <> Raise FileNotFoundError.
Proof. unfold float_of. destruct (py_float s); discriminate. Qed.

Lemma date_of_no_fnf s : date_of s <> Raise FileNotFoundError.
Proof. unfold date_of. destruct (py_date s); discriminate. Qed.

Lemma row_value_no_fnf row k : row_value row k <> Raise FileNotFoundError.
Proof. unfold row_value. destruct (str_lookup k row) as [[v|]|]; discriminate. Qed.

Ltac no_fnf :=
  repeat first
    [ apply bind_no_fnf; [|intro]
    | apply field_no_fnf | apply float_of_no_fnf | apply date_of_no_fnf
    | apply row_value_no_fnf
    | discriminate
    | progress unfold req_float, opt_float, parse_with
    | match goal with |- context [match ?x with _ => _ end] => destruct x end
    | match goal with |- context [if ?b then _ else _] => destruct b end ].

Lemma holding_row_no_fnf row : holding_from_csv_row row <> Raise FileNotFoundError.
Proof. unfold holding_from_csv_row. no_fnf. Qed.
Lemma income_row_no_fnf row : income_from_csv_row row <> Raise FileNotFoundError.
Proof. unfold income_from_csv_row. no_fnf. Qed.
Lemma activity_row_no_fnf row : activity_from_csv_row row <> Raise FileNotFoundError.
Proof. unfold activity_from_csv_row. no_fnf. Qed.
Lemma summary_row_no_fnf row : from_csv_row row <> Raise FileNotFoundError.
Proof. unfold from_csv_row. no_fnf. Qed.

Lemma result_map_no_fnf {A B : Type} (f : A -> result B) l :
  (forall x, f x <> Raise FileNotFoundError) -> result_map f l <> Raise FileNotFoundError.
Proof.
  intro Hf. induction l as [|x l IH]; simpl; [discriminate|].
  apply bind_no_fnf; [apply Hf|intro y]. apply bind_no_fnf; [exact IH|discriminate].
Qed.

Lemma result_map_ok {A B : Type} (f : A -> result B) l ys :
  result_map f l = Ok ys <-> Forall2 (fun x y => f x = Ok y) l ys.
Proof.
  revert ys. induction l as [|x l IH]; intros ys; simpl.
  - split; [intro H; injection H as <-; constructor|intro H; inversion H; reflexivity].
  - split.
    + destruct (f x) as [y|e] eqn:Ef; simpl; [|discriminate].
      destruct (result_map f l) as [ys'|e] eqn:El; simpl; [|discriminate].
      intro H. injection H as <-. constructor; [exact Ef|apply IH; reflexivity].
    + intro H. inversion H as [|? y ? ys' Hy Hys]; subst.
      rewrite Hy. simpl. apply IH in Hys. rewrite Hys. reflexivity.
Qed.

Lemma result_map_error {A B : Type} (f : A -> result B) l e :
  result_map f l = Raise e -> exists x, In x l /\ f x = Raise e.
Proof.
  induction l as [|x l IH]; simpl; [discriminate|].
  destruct (f x) as [y|e'] eqn:Ef; simpl.
  - destruct (result_map f l) as [ys|e'] eqn:El; simpl; [discriminate|].
    intro H. injection H as ->. destruct (IH eq_refl) as [x' [Hx' Hf']].
    exists x'. auto.
  - intro H. injection H as ->. exists x. auto.
Qed.

(** Loading one of the holdings, income or activity files: a missing
    file raises [FileNotFoundError]; otherwise the load succeeds exactly
    when every row converts, giving one record per row in file order, and
    fails with the error of one of its rows. *)
Theorem load_from_csv_spec {B : Type} (from_csv_row : FullRow -> result B) :
  load_from_csv from_csv_row None = Raise FileNotFoundError
  /\ (forall rows xs, load_from_csv from_csv_row (Some rows) = Ok xs
        <-> Forall2 (fun r x => from_csv_row r = Ok x) rows xs)
  /\ (forall rows e, load_from_csv from_csv_row (Some rows) = Raise e ->
        exists r, In r rows /\ from_csv_row r = Raise e).
Proof.
  split; [reflexivity|]. split.
  - intros rows xs. apply result_map_ok.
  - intros rows e. apply result_map_error.
Qed.

Lemma catch_missing_load {B : Type} (f : FullRow -> result B) file x :
  (forall r, f r <> Raise FileNotFoundError) ->
  catch_missing (load_from_csv f file) = Ok x -> (x = None <-> file = None).
Proof.
  intros Hf H. destruct file as [rows|]; simpl in H.
  - destruct (result_map f rows) as [ys|e] eqn:E; simpl in H.
    + injection H as <-. split; discriminate.
    + destruct e; try discriminate. exfalso. exact (result_map_no_fnf f rows Hf E).
  - injection H as <-. split; reflexivity.
Qed.

Lemma catch_missing_no_fnf {A : Type} (r : result A) : catch_missing r <> Raise FileNotFoundError.
Proof. destruct r as [a|[]]; discriminate. Qed.

(** [Statement(year, month)]: a month outside 1..12 raises [ValueError];
    a missing scrape file never makes it raise; and after loading, a data
    set is [None] exactly when its file is missing. *)
Theorem statement_init_spec month auto_load fs :
  statement_init month auto_load fs <> Raise FileNotFoundError
  /\ ((month < 1 \/ 12 < month) -> statement_init month auto_load fs = Raise ValueError)
  /\ (forall h i a s, statement_init month true fs = Ok (h, i, a, s) ->
        (h = None <-> hld_file fs = None) /\ (i = None <-> inc_file fs = None)
        /\ (a = None <-> act_file fs = None) /\ (s = None <-> sum_file fs = None)).
Proof.
  split; [|split].
  - unfold statement_init, load_all.
    destruct (negb _); [discriminate|]. destruct auto_load; [|discriminate].
    repeat (apply bind_no_fnf; [apply catch_missing_no_fnf|intro]). discriminate.
  - intro Hm. unfold statement_init.
    replace ((1 <=? month) && (month <=? 12)) with false
      by (symmetry; apply andb_false_iff; destruct Hm; [left; apply Z.leb_gt | right; apply Z.leb_gt]; lia).
    reflexivity.
  - intros h i a s. unfold statement_init, load_all.
    destruct (negb _); [discriminate|].
    destruct (catch_missing (load_from_csv holding_from_csv_row (hld_file fs))) as [h'|] eqn:Eh;
      simpl; [|discriminate].
    destruct (catch_missing (load_from_csv income_from_csv_row (inc_file fs))) as [i'|] eqn:Ei;
      simpl; [|discriminate].
    destruct (catch_missing (load_from_csv activity_from_csv_row (act_file fs))) as [a'|] eqn:Ea;
      simpl; [|discriminate].
    destruct (catch_missing (from_csv_file (sum_file fs))) as [s'|] eqn:Es;
      simpl; [|discriminate].
    intro H. injection H as <- <- <- <-.
    split; [exact (catch_missing_load _ _ _ holding_row_no_fnf Eh)|].
    split; [exact (catch_missing_load _ _ _ income_row_no_fnf Ei)|].
    split; [exact (catch_missing_load _ _ _ activity_row_no_fnf Ea)|].
    destruct (sum_file fs) as [rows|]; simpl in Es.
    + split; [intros ->|discriminate].
      destruct (filter row_nonempty rows) as [|r [|r' rs]]; try discriminate.
      destruct (from_csv_row r) as [x|[]] eqn:Er; try discriminate.
      exfalso. exact (summary_row_no_fnf r Er).
    + injection Es as <-. split; reflexivity.
Qed.

Lemma statement_init_spec_witness :
  (0 < 1 \/ 12 < 0) /\ statement_init 0 true (mkScrapeFiles None None None None) = Raise ValueError.
Proof.
  split; [left; lia|].
  exact (proj1 (proj2 (statement_init_spec 0 true (mkScrapeFiles None None None None))) (or_introl eq_refl)).
Defined.

Lemma str_lookup_cons' {A : Type} k k' (v : A) d :
  str_lookup k ((k', v) :: d) = if String.eqb k' k then Some v else str_lookup k d.
Proof. unfold str_lookup. simpl. destruct (String.eqb k' k); reflexivity. Qed.

Lemma str_lookup_dict_set_same {A : Type} k (v : A) d :
  str_lookup k (dict_set k v d) = Some v.
Proof.
  induction d as [|[k' v'] d IH]; simpl.
  - rewrite str_lookup_cons', String.eqb_refl. reflexivity.
  - destruct (String.eqb k k') eqn:E.
    + apply String.eqb_eq in E. subst k'. rewrite str_lookup_cons', String.eqb_refl. reflexivity.
    + rewrite str_lookup_cons'. rewrite String.eqb_sym, E. exact IH.
Qed.

Lemma str_lookup_dict_set_other {A : Type} k k' (v : A) d :
  k' <> k -> str_lookup k (dict_set k' v d) = str_lookup k d.
Proof.
  intro Hne. induction d as [|[k'' v'] d IH]; simpl.
  - rewrite str_lookup_cons'. apply String.eqb_neq in Hne. rewrite Hne. reflexivity.
  - destruct (String.eqb k' k'') eqn:E.
    + apply String.eqb_eq in E. subst k''.
      rewrite !str_lookup_cons'. apply String.eqb_neq in Hne. rewrite Hne. reflexivity.
    + rewrite !str_lookup_cons'. destruct (String.eqb k'' k); [reflexivity|exact IH].
Qed.

(* ------------------------------------------------------------------ *)
(** Prior holdings *)

Lemma prior_fold_other s hs m :
  Forall (fun h => Holding.symbol h <> s) hs ->
  str_lookup s (fold_left (fun m h => dict_set (Holding.symbol h) (Holding.ending_value h) m) hs m)
  = str_lookup s m.
Proof.
  revert m. induction hs as [|h hs IH]; intros m Hf; simpl; [reflexivity|].
  inversion Hf; subst. rewrite IH by assumption. apply str_lookup_dict_set_other. assumption.
Qed.

(** [_load_prior_holdings]: the prior value of a symbol is the ending value
    of the last prior holding with that symbol; a symbol no prior holding
    has, or a missing prior file, gives no entry. *)
Theorem load_prior_holdings_lookup :
  (forall s, str_lookup s (load_prior_holdings None) = None)
  /\ (forall hs s, Forall (fun h => Holding.symbol h <> s) hs ->
        str_lookup s (load_prior_holdings (Some hs)) = None)
  /\ (forall hs1 h hs2, Forall (fun h' => Holding.symbol h' <> Holding.symbol h) hs2 ->
        str_lookup (Holding.symbol h) (load_prior_holdings (Some (hs1 ++ h :: hs2)))
        = Some (Holding.ending_value h)).
Proof.
  split; [reflexivity|]. split.
  - intros hs s Hf. simpl. rewrite prior_fold_other by exact Hf. reflexivity.
  - intros hs1 h hs2 Hf. simpl. rewrite fold_left_app. simpl.
    rewrite prior_fold_other by exact Hf. apply str_lookup_dict_set_same.
Qed.

(** [prior_month] and [prior_year] of [_load_prior_holdings]: for a valid
    month, the period just before, with January going back to December of
    the previous year. *)
Theorem prior_period_previous year month :
  1 <= month <= 12 ->
  let (py, pm) := prior_period year month in
  1 <= pm <= 12 /\ 12 * py + pm = 12 * year + month - 1.
Proof.
  intro Hm. unfold prior_period.
  destruct (1 <? month) eqn:E; [apply Z.ltb_lt in E|apply Z.ltb_ge in E]; lia.
Qed.

Lemma prior_period_previous_witness :
  1 <= 1 <= 12 /\ prior_period 2025 1 = (2024, 12)
  /\ (let (py, pm) := prior_period 2025 1 in
      1 <= pm <= 12 /\ 12 * py + pm = 12 * 2025 + 1 - 1).
Proof.
  split; [lia|]. split; [reflexivity|]. apply (prior_period_previous 2025 1). lia.
Defined.

(* ------------------------------------------------------------------ *)
(** Chart of accounts *)

Lemma rfind_from_app c l1 l2 i acc :
  rfind_from c (l1 ++ l2) i acc = rfind_from c l2 (i + List.length l1) (rfind_from c l1 i acc).
Proof.
  revert i acc. induction l1 as [|x l1 IH]; intros i acc; simpl.
  - rewrite Nat.add_0_r. reflexivity.
  - rewrite IH. rewrite Nat.add_succ_r. reflexivity.
Qed.

Lemma rfind_from_absent c l i acc :
  ~ In c l -> rfind_from c l i acc = acc.
Proof.
  revert i acc. induction l as [|x l IH]; intros i acc Hn; simpl; [reflexivity|].
  destruct (Ascii.eqb x c) eqn:E.
  - apply Ascii.eqb_eq in E. subst. exfalso. apply Hn. left. reflexivity.
  - apply IH. intro H. apply Hn. right. exact H.
Qed.

Lemma rfind_last c l1 l2 :
  ~ In c l2 -> rfind c (l1 ++ c :: l2) = Some (List.length l1).
Proof.
  intro Hn. unfold rfind. rewrite rfind_from_app. simpl. rewrite Ascii.eqb_refl.
  apply rfind_from_absent. exact Hn.
Qed.

Lemma list_ascii_of_string_append s1 s2 :
  list_ascii_of_string (s1 ++ s2) = list_ascii_of_string s1 ++ list_ascii_of_string s2.
Proof. induction s1 as [|a s1 IH]; simpl; [reflexivity|]. rewrite IH. reflexivity. Qed.

Lemma string_app_assoc (a b c : string) : ((a ++ b) ++ c)%string = (a ++ b ++ c)%string.
Proof. induction a as [|x a IH]; simpl; [reflexivity|]. rewrite IH. reflexivity. Qed.

Lemma str_prefix_refl_app p s : str_prefix p (p ++ s) = true.
Proof. induction p as [|a p IH]; simpl; [reflexivity|]. rewrite Ascii.eqb_refl, IH. reflexivity. Qed.

Lemma str_contains_app p a s : str_contains p (a ++ p ++ s) = true.
Proof.
  induction a as [|x a IH]; simpl.
  - destruct p as [|y p]; [destruct s; reflexivity|]. simpl.
    rewrite Ascii.eqb_refl, str_prefix_refl_app. reflexivity.
  - rewrite IH, orb_true_r. reflexivity.
Qed.

Lemma rfind_from_some c l i n : rfind_from c l i (Some n) <> None.
Proof.
  revert i n. induction l as [|x l IH]; intros i n; simpl; [discriminate|].
  destruct (Ascii.eqb x c); apply IH.
Qed.

Lemma rfind_from_bound c l i acc :
  rfind_from c l i acc = acc \/ exists j, rfind_from c l i acc = Some j /\ (i <= j < i + List.length l)%nat.
Proof.
  revert i acc. induction l as [|x l IH]; intros i acc; simpl; [left; reflexivity|].
  destruct (IH (S i) (if Ascii.eqb x c then Some i else acc)) as [E|[j [E Hj]]].
  - rewrite E. destruct (Ascii.eqb x c); [right; exists i; split; [reflexivity|lia]|left; reflexivity].
  - right. exists j. split; [exact E|lia].
Qed.

Lemma skipn_past {A : Type} (a : list A) (x : A) rest :
  skipn (S (List.length a)) (a ++ x :: rest) = rest.
Proof. induction a as [|y a IH]; simpl; [reflexivity|]. exact IH. Qed.

Lemma firstn_prefix {A : Type} (a b : list A) : firstn (List.length a) (a ++ b) = a.
Proof. induction a as [|y a IH]; simpl; [reflexivity|]. rewrite IH. reflexivity. Qed.

Lemma str_contains_char c s :
  In c (list_ascii_of_string s) -> str_contains (String c EmptyString) s = true.
Proof.
  induction s as [|x s IH]; simpl; [intros []|].
  intros [->|H].
  - rewrite Ascii.eqb_refl. reflexivity.
  - rewrite IH by exact H. apply orb_true_r.
Qed.

Lemma str_contains_char_in c s :
  str_contains (String c EmptyString) s = true -> In c (list_ascii_of_string s).
Proof.
  induction s as [|x s IH]; simpl; [discriminate|].
  intro H. apply orb_true_iff in H as [H|H].
  - apply andb_true_iff in H as [H _]. apply Ascii.eqb_eq in H. left. symmetry. exact H.
  - right. apply IH, H.
Qed.

Definition no_parens (s : string) : Prop :=
  ~ In "("%char (list_ascii_of_string s) /\ ~ In ")"%char (list_ascii_of_string s).

(** The symbol of an account name is the text between its last "(" and
    its last ")", whatever comes before the "(" and whether or not that
    text holds a ")"; when the last ")" comes before the last "(", the
    slice is empty and the symbol is the empty string; a name without "("
    or without ")" carries no symbol. *)
Theorem account_symbol_parens :
  (forall p s q, ~ In "("%char (list_ascii_of_string s) -> no_parens q ->
     account_symbol (p ++ "(" ++ s ++ ")" ++ q) = Some s)
  /\ (forall p q, In ")"%char (list_ascii_of_string p) -> no_parens q ->
     account_symbol (p ++ "(" ++ q) = Some EmptyString)
  /\ (forall name, ~ In "("%char (list_ascii_of_string name)
                   \/ ~ In ")"%char (list_ascii_of_string name) ->
     account_symbol name = None).
Proof.
  split; [|split].
  - intros p s q Hs1 [Hq1 Hq2]. unfold account_symbol.
    rewrite str_contains_app.
    replace (p ++ "(" ++ s ++ ")" ++ q)%string with ((p ++ "(" ++ s) ++ ")" ++ q)%string
      by (rewrite <- !string_app_assoc; reflexivity).
    rewrite str_contains_app. simpl andb. cbv zeta.
    rewrite !list_ascii_of_string_append. simpl list_ascii_of_string.
    rewrite <- !app_assoc. simpl app.
    rewrite rfind_last.
    2:{ rewrite in_app_iff. intros [H|[H|H]]; [exact (Hs1 H)|discriminate|exact (Hq1 H)]. }
    replace (list_ascii_of_string p ++ "("%char :: list_ascii_of_string s ++ ")"%char :: list_ascii_of_string q)
      with ((list_ascii_of_string p ++ "("%char :: list_ascii_of_string s) ++ ")"%char :: list_ascii_of_string q)
      by (rewrite <- app_assoc; reflexivity).
    rewrite rfind_last by exact Hq2. rewrite length_app. simpl List.length.
    rewrite <- app_assoc. simpl app.
    replace (List.length (list_ascii_of_string p) + S (List.length (list_ascii_of_string s))
             - S (List.length (list_ascii_of_string p)))%nat
      with (List.length (list_ascii_of_string s)) by lia.
    rewrite skipn_past, firstn_prefix.
    rewrite string_of_list_ascii_of_string. reflexivity.
  - intros p q Hp [Hq1 Hq2]. unfold account_symbol.
    rewrite (str_contains_app "(" p q). simpl andb.
    rewrite str_contains_char by (rewrite list_ascii_of_string_append, in_app_iff; left; exact Hp).
    apply in_split in Hp. destruct Hp as [a [b Hab]].
    cbv zeta. rewrite list_ascii_of_string_append. simpl list_ascii_of_string.
    rewrite rfind_last by exact Hq1.
    unfold rfind. rewrite rfind_from_app. simpl.
    rewrite (rfind_from_absent _ _ _ _ Hq2).
    destruct (rfind_from_bound ")" (list_ascii_of_string p) 0 None) as [E|[j [E Hj]]].
    + exfalso. rewrite Hab in E. rewrite rfind_from_app in E. simpl in E.
      try rewrite Ascii.eqb_refl in E. exact (rfind_from_some _ _ _ _ E).
    + rewrite E. replace (j - S (List.length (list_ascii_of_string p)))%nat with 0%nat by lia.
      reflexivity.
  - intros name H. unfold account_symbol.
    destruct (str_contains "(" name) eqn:E1; [|reflexivity].
    destruct (str_contains ")" name) eqn:E2; [|reflexivity].
    exfalso. destruct H as [H|H]; apply H; apply str_contains_char_in; assumption.
Qed.

Lemma chart_rows_app rows1 rows2 m0 :
  chart_rows (rows1 ++ rows2) m0 = (m1 <- chart_rows rows1 m0 ;; chart_rows rows2 m1).
Proof.
  revert m0. induction rows1 as [|r rows1 IH]; intros m0; simpl; [reflexivity|].
  destruct (str_lookup "Account Name" r) as [[n|]|]; simpl; [apply IH|reflexivity|reflexivity].
Qed.

Definition names_other (s : string) (rows : list CsvRow) : Prop :=
  Forall (fun r => forall n, str_lookup "Account Name" r = Some (Some n) -> account_symbol n <> Some s) rows.

Lemma chart_rows_other s rows m0 m :
  names_other s rows -> chart_rows rows m0 = Ok m -> str_lookup s m = str_lookup s m0.
Proof.
  revert m0. induction rows as [|r rows IH]; intros m0 Hf H; simpl in H.
  - injection H as <-. reflexivity.
  - inversion Hf as [|? ? Hr Hrs]; subst.
    destruct (str_lookup "Account Name" r) as [[n|]|] eqn:En; [|discriminate|discriminate].
    rewrite (IH _ Hrs H).
    destruct (account_symbol n) as [s'|] eqn:Es; [|reflexivity].
    apply str_lookup_dict_set_other. intros ->. exact (Hr n eq_refl Es).
Qed.

Lemma chart_lookup_str_lookup m s :
  chart_lookup m s = match str_lookup s m with Some a => a | None => s end.
Proof.
  unfold chart_lookup, str_lookup. destruct (find _ m) as [[k a]|]; reflexivity.
Qed.

Definition chart_failure (e : PyError) (r : CsvRow) : Prop :=
  (e = KeyError /\ str_lookup "Account Name" r = None)
  \/ (e = TypeError /\ str_lookup "Account Name" r = Some None).

Lemma chart_rows_error rows m0 e :
  chart_rows rows m0 = Raise e -> exists r, In r rows /\ chart_failure e r.
Proof.
  revert m0. induction rows as [|r rows IH]; intros m0 H; simpl in H; [discriminate|].
  destruct (str_lookup "Account Name" r) as [[n|]|] eqn:En.
  - destruct (IH _ H) as [r' [Hin Hr']]. exists r'. split; [right; exact Hin|exact Hr'].
  - injection H as <-. exists r. split; [left; reflexivity|right; split; [reflexivity|exact En]].
  - injection H as <-. exists r. split; [left; reflexivity|left; split; [reflexivity|exact En]].
Qed.

(** [_load_chart_of_accounts] with [symbol_map.get(symbol, symbol)]: a
    missing chart file gives the empty map; a symbol maps to the last
    account whose name carries it, and to itself when no account name
    carries it; the load fails only with [KeyError], at a row without an
    "Account Name" column, or with [TypeError], at a row whose line stops
    before that column. *)
Theorem load_chart_of_accounts_lookup :
  load_chart_of_accounts None = Ok []
  /\ (forall rows1 row rows2 name s m,
        str_lookup "Account Name" row = Some (Some name) -> account_symbol name = Some s ->
        names_other s rows2 ->
        load_chart_of_accounts (Some (rows1 ++ row :: rows2)) = Ok m ->
        chart_lookup m s = name)
  /\ (forall rows s m, names_other s rows ->
        load_chart_of_accounts (Some rows) = Ok m -> chart_lookup m s = s)
  /\ (forall rows e, load_chart_of_accounts (Some rows) = Raise e ->
        exists r, In r rows /\ chart_failure e r).
Proof.
  split; [reflexivity|]. split; [|split].
  - intros rows1 row rows2 name s m Hn Hs Hf H. simpl in H.
    rewrite chart_rows_app in H.
    destruct (chart_rows rows1 []) as [m1|e] eqn:E1; simpl in H; [|discriminate].
    simpl in H. rewrite Hn, Hs in H.
    rewrite chart_lookup_str_lookup, (chart_rows_other _ _ _ _ Hf H), str_lookup_dict_set_same.
    reflexivity.
  - intros rows s m Hf H. simpl in H.
    rewrite chart_lookup_str_lookup, (chart_rows_other _ _ _ _ Hf H). reflexivity.
  - intros rows e H. exact (chart_rows_error _ _ _ H).
Qed.

(** [Holding.from_csv_row]: the symbol is the row's text; an empty
    "cost_basis" gives a money-market holding, whose change in value is 0;
    an empty or "unavailable" "beginning_value" gives no beginning value,
    and then a holding that is not money market changes by its ending value
    less its cost basis. *)
Theorem holding_from_csv_row_edges row h :
  holding_from_csv_row row = Ok h ->
  field row "symbol" = Ok (Holding.symbol h)
  /\ (str_lookup "cost_basis" row = Some EmptyString ->
        Holding.cost_basis h = None /\ Holding.change_in_value h = 0)
  /\ ((str_lookup "beginning_value" row = Some EmptyString
       \/ str_lookup "beginning_value" row = Some "unavailable"%string) ->
        Holding.beginning_value h = None
        /\ (Holding.is_money_market h = false ->
            Holding.change_in_value h = Holding.ending_value h - value_or_zero (Holding.cost_basis h))).
Proof.
  intro H. unfold holding_from_csv_row in H.
  destruct (field row "symbol") as [sym|] eqn:Esym; simpl in H; [|discriminate].
  destruct (field row "description"); simpl in H; [|discriminate].
  destruct (req_float row "quantity"); simpl in H; [|discriminate].
  destruct (req_float row "price"); simpl in H; [|discriminate].
  destruct (v <- field row "beginning_value" ;; _) as [bv|] eqn:Ebv; simpl in H; [|discriminate].
  destruct (req_float row "ending_value") as [ev|]; simpl in H; [|discriminate].
  destruct (opt_float row "cost_basis") as [cb|] eqn:Ecb; simpl in H; [|discriminate].
  destruct (opt_float row "unrealized_gain"); simpl in H; [|discriminate].
  match type of H with bind ?m _ = _ => destruct m; simpl in H; [|discriminate] end.
  injection H as <-. simpl. split; [reflexivity|]. split.
  - intro Hc. unfold opt_float, field in Ecb. rewrite Hc in Ecb. simpl in Ecb.
    injection Ecb as <-. split; [reflexivity|]. reflexivity.
  - intro Hb. unfold field in Ebv.
    assert (bv = None) as ->.
    { destruct Hb as [Hb|Hb]; rewrite Hb in Ebv; simpl in Ebv; injection Ebv as <-; reflexivity. }
    split; [reflexivity|]. intro Hm. unfold Holding.change_in_value. rewrite Hm. reflexivity.
Qed.

Definition sample_holding_row : FullRow :=
  [("symbol", "FXAIX"); ("description", "FIDELITY 500 INDEX FUND"); ("quantity", "10");
   ("price", "200.00"); ("beginning_value", "unavailable"); ("ending_value", "2000.00");
   ("cost_basis", "1500.00"); ("unrealized_gain", "500.00")]%string.

Definition sample_cash_row : FullRow :=
  [("symbol", "SPAXX"); ("description", "FIDELITY GOVERNMENT MONEY MARKET"); ("quantity", "120.5");
   ("price", "1.00"); ("beginning_value", "100.00"); ("ending_value", "120.50");
   ("cost_basis", EmptyString); ("unrealized_gain", EmptyString)]%string.

Ltac not_in :=
  let H := fresh in
  intro H; simpl in H; repeat (destruct H as [H|H]; [discriminate H|]); exact H.

Lemma load_from_csv_spec_witness :
  load_from_csv holding_from_csv_row (Some [sample_holding_row; sample_cash_row])
    = Ok [Holding.mk "FXAIX" None (dollars 2000) (Some (dollars 1500));
          Holding.mk "SPAXX" (Some (dollars 100)) 120500000 None]
  /\ exists r, In r [sample_holding_row; [("symbol", "FXAIX")]%string]
               /\ holding_from_csv_row r = Raise KeyError.
Proof.
  split.
  - apply (proj2 (proj1 (proj2 (load_from_csv_spec holding_from_csv_row)) _ _)).
    repeat constructor.
  - apply (proj2 (proj2 (load_from_csv_spec holding_from_csv_row))).
    vm_compute. reflexivity.
Defined.

Lemma holding_from_csv_row_edges_witness :
  holding_from_csv_row sample_holding_row
    = Ok (Holding.mk "FXAIX" None (dollars 2000) (Some (dollars 1500)))
  /\ Holding.change_in_value (Holding.mk "FXAIX" None (dollars 2000) (Some (dollars 1500)))
     = dollars 500
  /\ holding_from_csv_row sample_cash_row
    = Ok (Holding.mk "SPAXX" (Some (dollars 100)) 120500000 None)
  /\ Holding.change_in_value (Holding.mk "SPAXX" (Some (dollars 100)) 120500000 None) = 0.
Proof.
  assert (H1 : holding_from_csv_row sample_holding_row
               = Ok (Holding.mk "FXAIX" None (dollars 2000) (Some (dollars 1500))))
    by (vm_compute; reflexivity).
  assert (H2 : holding_from_csv_row sample_cash_row
               = Ok (Holding.mk "SPAXX" (Some (dollars 100)) 120500000 None))
    by (vm_compute; reflexivity).
  split; [exact H1|]. split.
  - rewrite (proj2 (proj2 (proj2 (holding_from_csv_row_edges _ _ H1)) (or_intror eq_refl)) eq_refl).
    reflexivity.
  - split; [exact H2|]. exact (proj2 (proj1 (proj2 (holding_from_csv_row_edges _ _ H2)) eq_refl)).
Defined.

Lemma account_symbol_parens_witness :
  account_symbol "Investments:Fidelity 500 (FXAIX)" = Some "FXAIX"%string
  /\ account_symbol "Fund (ABC) x)" = Some "ABC) x"%string
  /\ account_symbol "Cash (Sweep) (pending" = Some EmptyString
  /\ account_symbol "Cash" = None.
Proof.
  split; [|split; [|split]].
  - apply (proj1 account_symbol_parens "Investments:Fidelity 500 "%string "FXAIX"%string EmptyString);
      [not_in|split; not_in].
  - apply (proj1 account_symbol_parens "Fund "%string "ABC) x"%string EmptyString);
      [not_in|split; not_in].
  - apply (proj1 (proj2 account_symbol_parens) "Cash (Sweep) "%string "pending"%string);
      [simpl; tauto|split; not_in].
  - apply (proj2 (proj2 account_symbol_parens)). left. not_in.
Defined.

Definition sample_chart : list CsvRow :=
  [[("Account Name", Some "Old Fund (FXAIX)")]; [("Account Name", Some "Fidelity 500 (FXAIX)")];
   [("Account Name", Some "Cash")]]%string.

Lemma load_chart_of_accounts_lookup_witness :
  (exists m, load_chart_of_accounts (Some sample_chart) = Ok m
             /\ chart_lookup m "FXAIX" = "Fidelity 500 (FXAIX)"%string
             /\ chart_lookup m "SPAXX" = "SPAXX"%string)
  /\ (exists r, In r [[("Name", Some "Cash")]%string] /\ chart_failure KeyError r)
  /\ (exists r, In r (sample_chart ++ [[("Account Name", None)]%string])
                /\ chart_failure TypeError r).
Proof.
  split; [|split].
  - eexists. split; [vm_compute; reflexivity|]. split.
    + apply (proj1 (proj2 load_chart_of_accounts_lookup)
               [[("Account Name", Some "Old Fund (FXAIX)")]%string]
               [("Account Name", Some "Fidelity 500 (FXAIX)")]%string
               [[("Account Name", Some "Cash")]%string]
               "Fidelity 500 (FXAIX)"%string "FXAIX"%string).
      * reflexivity.
      * vm_compute. reflexivity.
      * constructor; [|constructor]. intros n Hn. vm_compute in Hn. injection Hn as <-.
        vm_compute. discriminate.
      * vm_compute. reflexivity.
    + apply (proj1 (proj2 (proj2 load_chart_of_accounts_lookup)) sample_chart).
      * repeat constructor; intros n Hn; vm_compute in Hn; injection Hn as <-;
          vm_compute; discriminate.
      * vm_compute. reflexivity.
  - apply (proj2 (proj2 (proj2 load_chart_of_accounts_lookup)) [[("Name", Some "Cash")]%string] KeyError).
    vm_compute. reflexivity.
  - apply (proj2 (proj2 (proj2 load_chart_of_accounts_lookup))
             (sample_chart ++ [[("Account Name", None)]%string]) TypeError).
    vm_compute. reflexivity.
Defined.

Definition sample_prior : list Holding.t :=
  [Holding.mk "FXAIX" None (dollars 1900) (Some (dollars 1500));
   Holding.mk "SPAXX" None (dollars 100) None;
   Holding.mk "FXAIX" None (dollars 1950) (Some (dollars 1500))].

Lemma load_prior_holdings_lookup_witness :
  str_lookup "FXAIX" (load_prior_holdings (Some sample_prior)) = Some (dollars 1950)
  /\ str_lookup "VTI" (load_prior_holdings (Some sample_prior)) = None.
Proof.
  split.
  - apply (proj2 (proj2 load_prior_holdings_lookup)
             [Holding.mk "FXAIX" None (dollars 1900) (Some (dollars 1500));
              Holding.mk "SPAXX" None (dollars 100) None]
             (Holding.mk "FXAIX" None (dollars 1950) (Some (dollars 1500))) []).
    constructor.
  - apply (proj1 (proj2 load_prior_holdings_lookup)).
    repeat constructor; simpl; discriminate.
Defined.
